(** * webmcp-auto: a shallow embedding of [src/index.js]

    The development follows the source file top to bottom: string
    utilities and [slugify], [generateToolName], [generateDescription],
    [scanForm], the three handler factories, and the closure state of
    [instrument] (registry, counter, scan phases, public operations).

    Modelling conventions.
    - A JavaScript string is a Rocq [string]; each character stands for
      one code unit in the range U+0000..U+00FF, and the case mapping and
      the white-space class below are the ECMAScript ones restricted to
      that range.
    - The DOM is the host: an element is a record of exactly the
      properties and query results the source reads from it.
    - Effects (events raised, native activations, sink calls, callback
      invocations, console lines) are recorded in traces.
    - A handler whose body throws ends in [Rejected]: the [value]
      setter of a file input that refuses a text ([write_control]), the
      [URL] constructor that refuses an href ([Window.URL]).
    - Outside the model: a selector the host cannot parse, what event
      listeners and the registration callback do when they run. The
      timer of the debounced observer runs on a logical clock in
      [Watcher]; the re-scan it triggers is a later [scan]. *)

From Stdlib Require Import ZArith Ascii String List Bool Lia DecimalString.
From stdpp Require Import gmap strings list fin_maps.

Local Open Scope string_scope.

(** ** JavaScript string primitives *)

Module JS.

(** Truthiness of a string: non-empty. *)
Definition truthy (s : string) : bool :=
  match s with EmptyString => false | String _ _ => true end.

(** Truthiness of a [string | null] such as the result of
    [getAttribute]. *)
Definition truthy_opt (o : option string) : bool :=
  match o with Some s => truthy s | None => false end.

(** [a || b] on strings. *)
Definition or_else (a b : string) : string := if truthy a then a else b.

Definition code (c : ascii) : N := N_of_ascii c.

Definition in_range (lo hi : N) (c : ascii) : bool :=
  (lo <=? code c)%N && (code c <=? hi)%N.

(** [String.prototype.toLowerCase], one code unit at a time: A-Z and the
    Latin-1 capitals U+00C0..U+00DE (without the multiplication sign
    U+00D7) move up by 32. *)
Definition lower_char (c : ascii) : ascii :=
  if in_range 65 90 c then ascii_of_N (code c + 32)
  else if in_range 192 222 c && negb (code c =? 215)%N
       then ascii_of_N (code c + 32)
       else c.

Fixpoint toLowerCase (s : string) : string :=
  match s with
  | EmptyString => EmptyString
  | String c r => String (lower_char c) (toLowerCase r)
  end.

(** The regular-expression class [\s] (and the characters removed by
    [trim]): TAB, LF, VT, FF, CR, SPACE and NO-BREAK SPACE. *)
Definition is_space (c : ascii) : bool :=
  in_range 9 13 c || (code c =? 32)%N || (code c =? 160)%N.

Fixpoint trimStart (s : string) : string :=
  match s with
  | EmptyString => EmptyString
  | String c r => if is_space c then trimStart r else s
  end.

Fixpoint trimEnd (s : string) : string :=
  match s with
  | EmptyString => EmptyString
  | String c r =>
      match trimEnd r with
      | EmptyString => if is_space c then EmptyString else String c EmptyString
      | r' => String c r'
      end
  end.

Definition trim (s : string) : string := trimEnd (trimStart s).

(** [s.slice(start, stop)] for non-negative arguments. *)
Definition slice (start stop : nat) (s : string) : string :=
  substring start (stop - start) s.

(** [parts.join(sep)]. *)
Fixpoint join (sep : string) (parts : list string) : string :=
  match parts with
  | [] => EmptyString
  | [p] => p
  | p :: rest => p +:+ sep +:+ join sep rest
  end.

(** [s.split("/").pop()]: the text after the last slash. *)
Fixpoint last_segment_from (acc s : string) : string :=
  match s with
  | EmptyString => acc
  | String c r =>
      if Ascii.eqb c "/" then last_segment_from EmptyString r
      else last_segment_from (acc +:+ String c EmptyString) r
  end.

Definition last_segment (s : string) : string :=
  last_segment_from EmptyString s.

(** [s.startsWith(p)]. *)
Definition startsWith (p s : string) : bool := String.prefix p s.

(** [String.prototype.toUpperCase], one code unit at a time: a-z and the
    Latin-1 small letters U+00E0..U+00FE (without the division sign
    U+00F7) move down by 32, and the sharp s U+00DF becomes [SS]. The
    micro sign and the y with diaeresis, whose capitals lie above
    U+00FF, stay as they are; the source upper-cases the [method]
    keyword of a form only, which is ASCII. *)
Definition upper_char (c : ascii) : string :=
  if in_range 97 122 c then String (ascii_of_N (code c - 32)) EmptyString
  else if in_range 224 254 c && negb (code c =? 247)%N
       then String (ascii_of_N (code c - 32)) EmptyString
       else if (code c =? 223)%N then "SS"
            else String c EmptyString.

Fixpoint toUpperCase (s : string) : string :=
  match s with
  | EmptyString => EmptyString
  | String c r => upper_char c +:+ toUpperCase r
  end.

(** Decimal rendering of a non-negative count inside a template
    literal. *)
Definition of_nat (n : nat) : string :=
  match n with
  | O => "0"
  | _ => NilEmpty.string_of_uint (Nat.to_uint n)
  end.

End JS.

(** ** [slugify] *)

(** The character class [[a-z0-9]]. *)
Definition is_alnum (c : ascii) : bool :=
  JS.in_range 97 122 c || JS.in_range 48 57 c.

(** The character class [[\s_-]]. *)
Definition is_sep (c : ascii) : bool :=
  JS.is_space c || Ascii.eqb c "_" || Ascii.eqb c "-".

(** [.replace(/[^a-z0-9\s_-]/g, "")] *)
Fixpoint strip_other (s : string) : string :=
  match s with
  | EmptyString => EmptyString
  | String c r =>
      if is_alnum c || is_sep c then String c (strip_other r)
      else strip_other r
  end.

(** [.replace(/[\s_-]+/g, "_")]; [in_run] tells that the previous
    character belonged to the run currently being replaced. *)
Fixpoint collapse_runs (in_run : bool) (s : string) : string :=
  match s with
  | EmptyString => EmptyString
  | String c r =>
      if is_sep c
      then if in_run then collapse_runs true r
           else String "_" (collapse_runs true r)
      else String c (collapse_runs false r)
  end.

(** The [_$] alternative: one underscore at the very end. *)
Fixpoint drop_final_underscore (s : string) : string :=
  match s with
  | EmptyString => EmptyString
  | String c EmptyString => if Ascii.eqb c "_" then EmptyString else s
  | String c r => String c (drop_final_underscore r)
  end.

(** [.replace(/^_|_$/g, "")]: the match at position 0 is consumed before
    the end anchor is tried on what remains. *)
Definition trim_underscores (s : string) : string :=
  drop_final_underscore
    match s with
    | String c r => if Ascii.eqb c "_" then r else s
    | EmptyString => s
    end.

Definition slugify (text : string) : string :=
  JS.slice 0 40
    (trim_underscores
       (collapse_runs false
          (strip_other (JS.toLowerCase text)))).


(** ** JavaScript values

    The values an input mapping can carry. Numbers are the integers and
    [NaN]; [Obj] stands for an object or function whose conversion to a
    string succeeds and gives a non-empty text (a plain object, a
    function). *)
Module Value.
Inductive t :=
| Undefined
| Null
| Bool (b : bool)
| Num (z : Z)
| NaN
| Str (s : string)
| Obj.

(** [Boolean(v)] *)
Definition toBoolean (v : t) : bool :=
  match v with
  | Undefined | Null | NaN => false
  | Bool b => b
  | Num z => negb (z =? 0)%Z
  | Str s => JS.truthy s
  | Obj => true
  end.

(** Whether the text a [value] setter receives for [v] is empty: the
    setter turns [null] into the empty string and converts any other
    value with [String(v)]. *)
Definition empty_text (v : t) : bool :=
  match v with
  | Null => true
  | Str s => negb (JS.truthy s)
  | Undefined | Bool _ | Num _ | NaN | Obj => false
  end.
End Value.

(** ** The host: elements as the source reads them *)

(** A form control, one entry of
    [form.querySelectorAll("input, select, textarea")]. The fields are
    the DOM properties read or written by [scanForm] and by the form
    handler. [value] holds whatever the handler handed to the host's
    setter. *)
Module Control.
Record t := {
  tagName : string;
  type : string;
  name : string;
  id : string;
  min : string;
  max : string;
  placeholder : string;
  pattern : string;
  required : bool;
  options : list string;    (* [o.value] for each [o] of [input.options] *)
  value : Value.t;
  checked : bool
}.

(** [input.name || input.id] *)
Definition fieldName (c : t) : string := JS.or_else (name c) (id c).

Definition set_checked (b : bool) (c : t) : t :=
  {| tagName := tagName c; type := type c; name := name c; id := id c;
     min := min c; max := max c; placeholder := placeholder c;
     pattern := pattern c; required := required c; options := options c;
     value := value c; checked := b |}.

Definition set_value (v : Value.t) (c : t) : t :=
  {| tagName := tagName c; type := type c; name := name c; id := id c;
     min := min c; max := max c; placeholder := placeholder c;
     pattern := pattern c; required := required c; options := options c;
     value := v; checked := checked c |}.
End Control.

(** Any other element. [type], [name], [method] and [action] are the DOM
    properties of these names (the empty string where the element has
    none); [attributes] is what [getAttribute] reads. [controls] is the
    result of [querySelectorAll("input, select, textarea")] on it.
    [labels] tabulates the host's answers to
    [querySelector('label[for="<id>"]')] by the control id the selector
    is built from: an entry [(id, text)] says that the query built from
    [id] finds a label whose text content is [text], the first entry of
    an id counts, and an id without entry finds nothing. [matches] and
    [closest] answer the selector tests of the same name ([closest]
    telling whether the answer is an element). *)
Module Element.
Record t := {
  tagName : string;
  type : string;
  name : string;
  method : string;
  action : string;
  attributes : list (string * string);
  textContent : string;
  controls : list Control.t;
  labels : list (string * string);
  matches : string -> bool;
  closest : string -> bool
}.

Fixpoint lookup_attr (k : string) (l : list (string * string)) : option string :=
  match l with
  | [] => None
  | (k', v) :: rest => if String.eqb k k' then Some v else lookup_attr k rest
  end.

Definition getAttribute (e : t) (k : string) : option string :=
  lookup_attr k (attributes e).

(** A string attribute read through [getAttribute(k) || ""], or through
    a property that reflects it on every element ([element.id]): the
    empty string when the attribute is missing. *)
Definition reflected (e : t) (k : string) : string :=
  match getAttribute e k with Some v => v | None => EmptyString end.

Definition id (e : t) : string := reflected e "id".

(** [form.querySelector('label[for="<id>"]')], reduced to the text of
    the label found: the host's answer for the selector built from
    [control_id]. *)
Definition label_for (e : t) (control_id : string) : option string :=
  lookup_attr control_id (labels e).
End Element.

(** ** [generateToolName] *)

(** The role under which an element is named and described. *)
Module Context.
Inductive t := form | button | link | input.
End Context.

(** The string pushed onto [parts] after the prefix; [rnd] is what
    [Math.random().toString(36).slice(2, 6)] evaluates to if the final
    alternative is reached. The attributes are read through
    [Element.reflected]: [null] and the empty string are both falsy, and
    the value is used only when truthy. *)
Definition name_part (element : Element.t) (context : Context.t) (rnd : string) : string :=
  let id := Element.id element in
  let name := Element.reflected element "name" in
  let ariaLabel := Element.reflected element "aria-label" in
  let action := Element.reflected element "action" in
  let textContent := JS.slice 0 30 (JS.trim (Element.textContent element)) in
  match context with
  | Context.form =>
      if JS.truthy id then slugify id
      else if JS.truthy name then slugify name
      else if JS.truthy action then "submit_" +:+ slugify (JS.last_segment action)
      else "form_" +:+ rnd
  | Context.button =>
      if JS.truthy ariaLabel then slugify ariaLabel
      else if JS.truthy textContent then slugify textContent
      else if JS.truthy id then slugify id
      else "action_" +:+ rnd
  | Context.link =>
      if JS.truthy ariaLabel then "navigate_" +:+ slugify ariaLabel
      else if JS.truthy textContent then "navigate_" +:+ slugify textContent
      else "navigate_" +:+ rnd
  | Context.input =>
      if JS.truthy name then "set_" +:+ slugify name
      else if JS.truthy id then "set_" +:+ slugify id
      else "set_field_" +:+ rnd
  end.

(** [None] is the [null] returned for "skip this element". *)
Definition generateToolName (element : Element.t) (prefix : string)
    (context : Context.t) (rnd : string) : option string :=
  let parts := if JS.truthy prefix then [prefix] else [] in
  if JS.truthy_opt (Element.getAttribute element "toolname") then None
  else
    let parts := (parts ++ [name_part element context rnd])%list in
    let toolName := JS.join "_" parts in
    if JS.truthy toolName then Some toolName else None.

(** ** [generateDescription] *)

Definition generateDescription (element : Element.t) (context : Context.t) : string :=
  let ariaLabel := Element.reflected element "aria-label" in
  let title := Element.reflected element "title" in
  let placeholder := Element.reflected element "placeholder" in
  let text := JS.slice 0 50 (JS.trim (Element.textContent element)) in
  match context with
  | Context.form =>
      let method := JS.toUpperCase (JS.or_else (Element.method element) "GET") in
      let action := JS.or_else (Element.action element) "" in
      let fieldNames :=
        firstn 5
          (filter (fun s => JS.truthy s = true)
             (map (fun i => JS.or_else (Control.name i)
                              (JS.or_else (Control.id i) (Control.placeholder i)))
                (Element.controls element))) in
      let desc :=
        if JS.truthy ariaLabel then "Submit: " +:+ ariaLabel
        else if JS.truthy title then "Submit: " +:+ title
        else "Submit a form" in
      match fieldNames with
      | [] => desc
      | _ => desc +:+ " (fields: " +:+ JS.join ", " fieldNames +:+ ")"
      end
  | Context.button =>
      if JS.truthy ariaLabel then "Click action: " +:+ ariaLabel
      else if JS.truthy title then "Click action: " +:+ title
      else if JS.truthy text then "Click: " +:+ text
      else "Trigger a button action"
  | Context.link =>
      let href := Element.reflected element "href" in
      if JS.truthy ariaLabel then "Navigate to: " +:+ ariaLabel
      else if JS.truthy text then "Navigate to: " +:+ text
      else "Navigate to " +:+ href
  | Context.input =>
      let type := JS.or_else (Element.type element) "text" in
      let name := JS.or_else (Element.name element) (Element.id element) in
      if JS.truthy placeholder
      then "Set " +:+ JS.or_else name "field" +:+ ": " +:+ placeholder
      else "Set " +:+ type +:+ " field: " +:+ name
  end.

(** ** [scanForm] *)

(** The result of [parseFloat(s)], kept as the parsed text: the schema
    only stores the number. *)
Inductive JSNumber := parseFloat (s : string).

Record Property := {
  prop_type : string;
  minimum : option JSNumber;
  maximum : option JSNumber;
  format : option string;
  prop_description : option string;
  enum : option (list string);
  prop_pattern : option string
}.

Global Instance JSNumber_eq_dec : EqDecision JSNumber.
Proof. solve_decision. Defined.

Global Instance Property_eq_dec : EqDecision Property.
Proof. solve_decision. Defined.

(** [obj[key] = v] on an object literal, as far as [Object.keys] can
    tell: the key [__proto__] reaches the inherited accessor, which
    replaces the prototype and creates no own property. *)
Definition js_set {V} (key : string) (v : V) (obj : gmap string V) : gmap string V :=
  if String.eqb key "__proto__" then obj else <[key := v]> obj.

Record Schema := {
  schema_type : string;
  properties : gmap string Property;
  required : option (list string)    (* [None]: the key is absent *)
}.

(** The [switch (input.type)] block together with the initial
    [{ type: "string" }]: schema type, minimum, maximum, format. *)
Definition type_mapping (i : Control.t)
  : string * option JSNumber * option JSNumber * option string :=
  let type := Control.type i in
  if String.eqb type "number" || String.eqb type "range" then
    ("number",
     if JS.truthy (Control.min i) then Some (parseFloat (Control.min i)) else None,
     if JS.truthy (Control.max i) then Some (parseFloat (Control.max i)) else None,
     None)
  else if String.eqb type "checkbox" then ("boolean", None, None, None)
  else if String.eqb type "email" then ("string", None, None, Some "email")
  else if String.eqb type "url" then ("string", None, None, Some "uri")
  else if String.eqb type "date" then ("string", None, None, Some "date")
  else if String.eqb type "tel" then ("string", None, None, Some "phone")
  else ("string", None, None, None).

(** [Array.from(input.options).map(o => o.value).filter(v => v)] *)
Definition option_values (i : Control.t) : list string :=
  filter (fun v => JS.truthy v = true) (Control.options i).

(** The object [prop] built for one control that is not skipped. *)
Definition control_property (form : Element.t) (i : Control.t) : Property :=
  let '(ty, mn, mx, fmt) := type_mapping i in
  {| prop_type := ty;
     minimum := mn;
     maximum := mx;
     format := fmt;
     prop_description :=
       match Element.label_for form (Control.id i) with
       | Some text => Some (JS.trim text)
       | None =>
           if JS.truthy (Control.placeholder i)
           then Some (Control.placeholder i) else None
       end;
     enum :=
       if String.eqb (Control.tagName i) "SELECT" then
         let options := option_values i in
         if (0 <? length options)%nat && (length options <=? 20)%nat
         then Some options else None
       else None;
     prop_pattern :=
       if JS.truthy (Control.pattern i) then Some (Control.pattern i) else None |}.

(** The two [continue] guards of the loop. *)
Definition skipped (i : Control.t) : bool :=
  negb (JS.truthy (Control.fieldName i))
  || String.eqb (Control.type i) "hidden"
  || String.eqb (Control.type i) "submit".

(** The loop body, on the pair of accumulators [(properties, required)]. *)
Definition scan_control (form : Element.t)
    (acc : gmap string Property * list string) (i : Control.t)
  : gmap string Property * list string :=
  if skipped i then acc
  else
    let fieldName := Control.fieldName i in
    (js_set fieldName (control_property form i) acc.1,
     if Control.required i then (acc.2 ++ [fieldName])%list else acc.2).

Definition scanForm (form : Element.t) : Schema :=
  let '(properties, required) :=
    fold_left (scan_control form) (Element.controls form) (∅, []) in
  {| schema_type := "object";
     properties := properties;
     required := match required with [] => None | _ => Some required end |}.

(** ** Handler factories *)

(** The input mapping of a form handler. [own] lists the own enumerable
    properties in the order [Object.keys] reports them; [inherited] is
    what the prototype chain adds for the [in] operator and for
    property reads. *)
Module JSObject.
Record t := {
  own : list (string * Value.t);
  inherited : list (string * Value.t)
}.

Fixpoint assoc (k : string) (l : list (string * Value.t))
  : option Value.t :=
  match l with
  | [] => None
  | (k', v) :: rest => if String.eqb k k' then Some v else assoc k rest
  end.

(** [k in o] *)
Definition has (k : string) (o : t) : bool :=
  match assoc k (own o), assoc k (inherited o) with
  | None, None => false
  | _, _ => true
  end.

(** [o[k]] *)
Definition get (k : string) (o : t) : Value.t :=
  match assoc k (own o) with
  | Some v => v
  | None =>
      match assoc k (inherited o) with
      | Some v => v
      | None => Value.Undefined
      end
  end.

(** [Object.keys(o)] *)
Definition keys (o : t) : list string := map fst (own o).

(** [k] is one of the own keys of [o]. *)
Definition hasOwn (k : string) (o : t) : bool :=
  match assoc k (own o) with Some _ => true | None => false end.
End JSObject.

(** [new Event(type, { bubbles, cancelable })] *)
Record Event := {
  event_type : string;
  bubbles : bool;
  cancelable : bool
}.

Inductive Target :=
| OnControl (index : nat)    (* position in the form's control list *)
| OnElement.                 (* the element the handler was built for *)

Inductive Effect :=
| Dispatch (target : Target) (ev : Event)    (* [target.dispatchEvent(ev)] *)
| Click.                                     (* [element.click()] *)

(** The object a handler resolves to. Absent keys are [None]. *)
Record Result := {
  success : bool;
  message : string;
  fields : option (list string);
  url : option string;
  text : option string
}.

Inductive Outcome :=
| Resolved (r : Result)
| Rejected.    (* the async body threw *)

(** The one assignment the host refuses: the [value] setter of an
    [<input type="file">] accepts the empty text only and throws for
    any other. *)
Definition refused (v : Value.t) (inputEl : Control.t) : bool :=
  String.eqb (Control.type inputEl) "file" && negb (Value.empty_text v).

(** The three branches of the value assignment; [None] when the setter
    throws. *)
Definition write_control (v : Value.t) (inputEl : Control.t) : option Control.t :=
  if String.eqb (Control.type inputEl) "checkbox"
  then Some (Control.set_checked (Value.toBoolean v) inputEl)
  else if String.eqb (Control.tagName inputEl) "SELECT"
  then Some (Control.set_value v inputEl)
  else if refused v inputEl then None
       else Some (Control.set_value v inputEl).

(** The negation of the [continue] guard of the fill loop. *)
Definition addressed (input : JSObject.t) (inputEl : Control.t) : bool :=
  JS.truthy (Control.fieldName inputEl)
  && JSObject.has (Control.fieldName inputEl) input.

(** The fill loop from control number [index] on: the controls as the
    loop leaves them, the events raised, in order, and whether the loop
    ran to its end. A setter that throws ends the loop on the spot: the
    control keeps its state, no event is raised for it, and the controls
    after it are not visited. *)
Fixpoint fill (input : JSObject.t) (index : nat) (inputs : list Control.t)
  : list Control.t * list Effect * bool :=
  match inputs with
  | [] => ([], [], true)
  | inputEl :: rest =>
      if addressed input inputEl then
        match write_control (JSObject.get (Control.fieldName inputEl) input) inputEl with
        | Some written =>
            let '(rest', raised, completed) := fill input (S index) rest in
            (written :: rest',
             Dispatch (OnControl index)
               {| event_type := "input"; bubbles := true; cancelable := false |}
             :: Dispatch (OnControl index)
                  {| event_type := "change"; bubbles := true; cancelable := false |}
             :: raised,
             completed)
        | None => (inputs, [], false)
        end
      else
        let '(rest', raised, completed) := fill input (S index) rest in
        (inputEl :: rest', raised, completed)
  end.

Record FormRun := {
  controls_after : list Control.t;
  form_effects : list Effect;
  form_result : Outcome
}.

(** The closure returned by [createFormHandler(form)], applied to
    [input]; [form] is the element as it is when the closure runs. When
    the fill loop throws, the [submit] event is not raised and the
    promise rejects. *)
Definition createFormHandler (form : Element.t) (input : JSObject.t) : FormRun :=
  let '(after, raised, completed) := fill input 0 (Element.controls form) in
  {| controls_after := after;
     form_effects :=
       if completed
       then (raised ++
             [Dispatch OnElement
                {| event_type := "submit"; bubbles := true; cancelable := true |}])%list
       else raised;
     form_result :=
       if completed
       then Resolved
              {| success := true;
                 message :=
                   "Form submitted with "
                     +:+ JS.of_nat (length (JSObject.keys input)) +:+ " fields";
                 fields := Some (JSObject.keys input);
                 url := None;
                 text := None |}
       else Rejected |}.

Definition createButtonHandler (button : Element.t) : list Effect * Outcome :=
  ([Click],
   Resolved
     {| success := true;
        message :=
          "Clicked: "
            +:+ JS.or_else (JS.slice 0 50 (JS.trim (Element.textContent button)))
                  "button";
        fields := None; url := None; text := None |}).

(** What the link handler needs from [window]: the current location and
    the [URL] constructor followed by [toString()] ([None] when the
    constructor throws). *)
Module Window.
Record t := {
  location_href : string;
  URL : string -> string -> option string
}.
End Window.

Definition createLinkHandler (window : Window.t) (link : Element.t)
  : list Effect * Outcome :=
  let href := Element.getAttribute link "href" in
  match href with
  | Some h =>
      if JS.truthy h && negb (JS.startsWith "javascript:" h) then
        match Window.URL window h (Window.location_href window) with
        | Some absolute =>
            ([],
             Resolved
               {| success := true;
                  message := "Link target: " +:+ h;
                  fields := None;
                  url := Some absolute;
                  text := Some (JS.slice 0 50 (JS.trim (Element.textContent link))) |})
        | None => ([], Rejected)
        end
      else
        ([Click],
         Resolved {| success := true; message := "Link activated";
                     fields := None; url := None; text := None |})
  | None =>
      ([Click],
       Resolved {| success := true; message := "Link activated";
                   fields := None; url := None; text := None |})
  end.

(** A handler stored in a descriptor: which factory built it and the
    element it closes over. *)
Inductive Handler :=
| FormHandler (form : Element.t)
| ButtonHandler (button : Element.t)
| LinkHandler (link : Element.t).

(** ** Tool descriptors *)

Record Annotations := {
  readOnlyHint : option bool;
  destructiveHint : option bool
}.

Module Tool.
Record t := {
  name : string;
  description : string;
  inputSchema : Schema;
  handler : Handler;
  annotations : option Annotations    (* [None]: the key is absent *)
}.
End Tool.

(** The objects built by [getTools]. *)
Module Exported.
Record t := {
  name : string;
  description : string;
  inputSchema : Schema;
  annotations : option Annotations    (* [None]: [undefined] *)
}.
End Exported.

(** ** Configuration and host globals *)

Module Config.
Record t := {
  exclude : list string;
  include : list string;
  prefix : string;
  onToolRegistered : bool;    (* whether a callback is configured *)
  watch : bool;
  maxTools : Z;
  debug : bool
}.
End Config.

Definition DEFAULT_CONFIG : Config.t :=
  {| Config.exclude := [];
     Config.include := [];
     Config.prefix := "";
     Config.onToolRegistered := false;
     Config.watch := true;
     Config.maxTools := 50;
     Config.debug := true |}.

(** [navigator.modelContext]: [registerTool] is [None] when the method is
    missing, and otherwise tells for each descriptor whether the call
    throws (with the error message). *)
Record ModelContext := {
  registerTool : option (Tool.t -> option string);
  clearTools : bool
}.

Record Host := {
  modelContext : option ModelContext;
  (** what [Math.random().toString(36).slice(2, 6)] evaluates to inside
      the n-th call of [generateToolName] *)
  random : nat -> string;
  MutationObserver : bool
}.

Module Document.
Record t := { querySelectorAll : string -> list Element.t }.
End Document.

(** ** The closure state of [instrument] *)

Inductive LogEntry :=
| MaxToolsReached (maxTools : Z) (name : string)
| RegisterFailed (name message : string)
| Registered (name description : string)
| Scanning
| ScanComplete (size : nat)
| Watching
| Unregistered.

Inductive SinkCall :=
| RegisterTool (tool : Tool.t)    (* [mc.registerTool(tool)] *)
| ClearTools.                     (* [mc.clearTools()] *)

(** [registeredTools] is the [Map], in insertion order; [toolCount] and
    [observer] are the two [let] variables. The remaining fields are
    traces: calls made on the external sink, descriptors passed to
    [config.onToolRegistered], lines written by [console.log], and the
    number of [generateToolName] calls so far. *)
Record State := {
  registeredTools : list (string * Tool.t);
  toolCount : Z;
  observer : bool;
  sink : list SinkCall;
  notified : list Tool.t;
  console : list LogEntry;
  draws : nat
}.

Definition initial : State :=
  {| registeredTools := []; toolCount := 0; observer := false;
     sink := []; notified := []; console := []; draws := 0 |}.

(** [Map.prototype.has] *)
Definition map_has (k : string) (m : list (string * Tool.t)) : bool :=
  existsb (fun e => String.eqb k e.1) m.

(** [Map.prototype.get] *)
Fixpoint map_get (k : string) (m : list (string * Tool.t)) : option Tool.t :=
  match m with
  | [] => None
  | (k', v) :: rest => if String.eqb k k' then Some v else map_get k rest
  end.

(** [Map.prototype.set]: an existing key keeps its position. *)
Fixpoint map_set (k : string) (v : Tool.t) (m : list (string * Tool.t))
  : list (string * Tool.t) :=
  match m with
  | [] => [(k, v)]
  | (k', v') :: rest =>
      if String.eqb k k' then (k, v) :: rest else (k', v') :: map_set k v rest
  end.

Section Instrument.

Variable config : Config.t.
Variable host : Host.

Definition log (entry : LogEntry) (st : State) : State :=
  if Config.debug config then
    {| registeredTools := registeredTools st; toolCount := toolCount st;
       observer := observer st; sink := sink st; notified := notified st;
       console := (console st ++ [entry])%list; draws := draws st |}
  else st.

Definition isExcluded (element : Element.t) : bool :=
  existsb
    (fun selector => Element.matches element selector
                     || Element.closest element selector)
    (Config.exclude config).

Definition call_sink (c : SinkCall) (st : State) : State :=
  {| registeredTools := registeredTools st; toolCount := toolCount st;
     observer := observer st; sink := (sink st ++ [c])%list;
     notified := notified st; console := console st; draws := draws st |}.

(** [registeredTools.set(tool.name, tool); toolCount++] *)
Definition store (tool : Tool.t) (st : State) : State :=
  {| registeredTools := map_set (Tool.name tool) tool (registeredTools st);
     toolCount := toolCount st + 1;
     observer := observer st; sink := sink st; notified := notified st;
     console := console st; draws := draws st |}.

Definition notify (tool : Tool.t) (st : State) : State :=
  if Config.onToolRegistered config then
    {| registeredTools := registeredTools st; toolCount := toolCount st;
       observer := observer st; sink := sink st;
       notified := (notified st ++ [tool])%list;
       console := console st; draws := draws st |}
  else st.

(** The [try { mc.registerTool(tool) } catch ...] block. *)
Definition forward (tool : Tool.t) (st : State) : State :=
  match modelContext host with
  | Some mc =>
      match registerTool mc with
      | Some throws =>
          let st := call_sink (RegisterTool tool) st in
          match throws tool with
          | Some message => log (RegisterFailed (Tool.name tool) message) st
          | None => st
          end
      | None => st
      end
  | None => st
  end.

Definition registerWebMCPTool (tool : Tool.t) (st : State) : State :=
  if (Config.maxTools config <=? toolCount st)%Z then
    log (MaxToolsReached (Config.maxTools config) (Tool.name tool)) st
  else if map_has (Tool.name tool) (registeredTools st) then st
  else
    log (Registered (Tool.name tool) (Tool.description tool))
      (notify tool (store tool (forward tool st))).

(** One call of [generateToolName] from [scan]. *)
Definition draw (st : State) : State :=
  {| registeredTools := registeredTools st; toolCount := toolCount st;
     observer := observer st; sink := sink st; notified := notified st;
     console := console st; draws := S (draws st) |}.

Definition empty_schema : Schema :=
  {| schema_type := "object"; properties := ∅; required := None |}.

(** Phase 1, loop body. *)
Definition scan_form (st : State) (form : Element.t) : State :=
  if isExcluded form then st
  else if JS.truthy_opt (Element.getAttribute form "toolname") then st
  else
    let toolName :=
      generateToolName form (Config.prefix config) Context.form (random host (draws st)) in
    let st := draw st in
    match toolName with
    | None => st
    | Some toolName =>
        let schema := scanForm form in
        if (size (properties schema) =? 0)%nat then st
        else
          registerWebMCPTool
            {| Tool.name := toolName;
               Tool.description := generateDescription form Context.form;
               Tool.inputSchema := schema;
               Tool.handler := FormHandler form;
               Tool.annotations :=
                 Some {| readOnlyHint := Some false;
                         destructiveHint := Some false |} |}
            st
    end.

(** Phase 2, loop body. *)
Definition scan_button (st : State) (button : Element.t) : State :=
  if isExcluded button then st
  else if Element.closest button "form" then st
  else if negb (JS.truthy (JS.trim (Element.textContent button)))
          && negb (JS.truthy_opt (Element.getAttribute button "aria-label"))
  then st
  else
    let toolName :=
      generateToolName button (Config.prefix config) Context.button (random host (draws st)) in
    let st := draw st in
    match toolName with
    | None => st
    | Some toolName =>
        registerWebMCPTool
          {| Tool.name := toolName;
             Tool.description := generateDescription button Context.button;
             Tool.inputSchema := empty_schema;
             Tool.handler := ButtonHandler button;
             Tool.annotations :=
               Some {| readOnlyHint := Some false; destructiveHint := None |} |}
          st
    end.

(** Phase 3, loop body. *)
Definition scan_link (st : State) (link : Element.t) : State :=
  if isExcluded link then st
  else
    let href := Element.reflected link "href" in
    if negb (JS.truthy href) || String.eqb href "#"
       || JS.startsWith "javascript:" href
    then st
    else
      let toolName :=
        generateToolName link (Config.prefix config) Context.link (random host (draws st)) in
      let st := draw st in
      match toolName with
      | None => st
      | Some toolName =>
          registerWebMCPTool
            {| Tool.name := toolName;
               Tool.description := generateDescription link Context.link;
               Tool.inputSchema := empty_schema;
               Tool.handler := LinkHandler link;
               Tool.annotations :=
                 Some {| readOnlyHint := Some true; destructiveHint := None |} |}
            st
      end.

(** Phase 4, inner loop body. *)
Definition scan_included (st : State) (el : Element.t) : State :=
  if isExcluded el then st
  else
    let context := if String.eqb (Element.tagName el) "FORM" then Context.form else Context.button in
    let toolName :=
      generateToolName el (Config.prefix config) context (random host (draws st)) in
    let st := draw st in
    match toolName with
    | None => st
    | Some toolName =>
        let handler :=
          match context with Context.form => FormHandler el | _ => ButtonHandler el end in
        let schema :=
          match context with Context.form => scanForm el | _ => empty_schema end in
        registerWebMCPTool
          {| Tool.name := toolName;
             Tool.description := generateDescription el context;
             Tool.inputSchema := schema;
             Tool.handler := handler;
             Tool.annotations := None |}
          st
    end.

Definition dquote : string := String "034" EmptyString.

Definition button_selector : string :=
  "button:not(form button), [role=" +:+ dquote +:+ "button" +:+ dquote
    +:+ "], input[type=" +:+ dquote +:+ "button" +:+ dquote +:+ "]".

Definition nav_selector : string :=
  "nav a, [role='navigation'] a, header a".

Definition scan (document : Document.t) (st : State) : State :=
  let st := log Scanning st in
  let st := fold_left scan_form (Document.querySelectorAll document "form") st in
  let st :=
    fold_left scan_button (Document.querySelectorAll document button_selector) st in
  let st :=
    fold_left scan_link (Document.querySelectorAll document nav_selector) st in
  let st :=
    fold_left
      (fun st selector =>
         fold_left scan_included (Document.querySelectorAll document selector) st)
      (Config.include config) st in
  log (ScanComplete (length (registeredTools st))) st.

Definition set_observer (b : bool) (st : State) : State :=
  {| registeredTools := registeredTools st; toolCount := toolCount st;
     observer := b; sink := sink st; notified := notified st;
     console := console st; draws := draws st |}.

(** The observer is installed; its debounced callback is a later
    [scan]. *)
Definition startWatching (st : State) : State :=
  if negb (Config.watch config) then st
  else if negb (MutationObserver host) then st
  else log Watching (set_observer true st).

Definition stopWatching (st : State) : State :=
  if observer st then set_observer false st else st.

Definition getTools (st : State) : list Exported.t :=
  map (fun t =>
         {| Exported.name := Tool.name t;
            Exported.description := Tool.description t;
            Exported.inputSchema := Tool.inputSchema t;
            Exported.annotations := Tool.annotations t |})
      (map snd (registeredTools st)).

Definition destroy (st : State) : State :=
  let st := stopWatching st in
  let st :=
    match modelContext host with
    | Some mc => if clearTools mc then call_sink ClearTools st else st
    | None => st
    end in
  log Unregistered
    {| registeredTools := []; toolCount := 0;
       observer := observer st; sink := sink st; notified := notified st;
       console := console st; draws := draws st |}.

(** [instrument(userConfig)] on a document that has finished loading. *)
Definition instrument (document : Document.t) : State :=
  startWatching (scan document initial).

(** What can happen to an instance afterwards: a submission to the
    registry, a scan pass (requested or triggered by the observer), and
    the two teardown operations. *)
Inductive Op :=
| DoRegister (tool : Tool.t)
| DoScan (document : Document.t)
| DoDestroy
| DoStopWatching.

Definition step (st : State) (op : Op) : State :=
  match op with
  | DoRegister tool => registerWebMCPTool tool st
  | DoScan document => scan document st
  | DoDestroy => destroy st
  | DoStopWatching => stopWatching st
  end.

Definition run (ops : list Op) (st : State) : State := fold_left step ops st.

End Instrument.

(** ** Auxiliary definitions for the proofs *)

(** Shape of a string over [[a-z0-9_]] in which no underscore follows an
    underscore; [after_underscore] also forbids one at the front. *)
Fixpoint slug_shaped (after_underscore : bool) (s : string) : bool :=
  match s with
  | EmptyString => true
  | String c r =>
      if Ascii.eqb c "_" then negb after_underscore && slug_shaped true r
      else is_alnum c && slug_shaped false r
  end.

Fixpoint ends_with_underscore (s : string) : bool :=
  match s with
  | EmptyString => false
  | String c EmptyString => Ascii.eqb c "_"
  | String _ r => ends_with_underscore r
  end.

(** The field names of the controls a form handler writes when no
    setter throws, in document order: "the list of applied field names"
    in the words of the specification. *)
Definition applied_fields (form : Element.t) (input : JSObject.t) : list string :=
  map Control.fieldName
    (filter (fun c => addressed input c = true) (Element.controls form)).

Global Instance Event_eq_dec : EqDecision Event.
Proof. solve_decision. Defined.

Global Instance Target_eq_dec : EqDecision Target.
Proof. solve_decision. Defined.

Global Instance Effect_eq_dec : EqDecision Effect.
Proof. solve_decision. Defined.

Definition input_event : Event :=
  {| event_type := "input"; bubbles := true; cancelable := false |}.
Definition change_event : Event :=
  {| event_type := "change"; bubbles := true; cancelable := false |}.
Definition submit_event : Event :=
  {| event_type := "submit"; bubbles := true; cancelable := true |}.

(** The registry and its counter agree, no name is stored twice, and
    every descriptor sits under its own name. *)
Definition consistent (st : State) : Prop :=
  toolCount st = Z.of_nat (length (registeredTools st))
  /\ NoDup (map fst (registeredTools st))
  /\ Forall (fun e => e.1 = Tool.name e.2) (registeredTools st).

(** How often [config.onToolRegistered] has been called for a name. *)
Definition notifications (n : string) (st : State) : nat :=
  length (filter (fun t => Tool.name t = n) (notified st)).

(** How many stored descriptors sit under a name. *)
Definition stored_under (n : string) (st : State) : nat :=
  length (filter (fun e => e.1 = n) (registeredTools st)).

(** [schema.required ?? []] *)
Definition required_names (schema : Schema) : list string :=
  match required schema with Some names => names | None => [] end.

(** Operations that never remove a descriptor: all but [destroy]. *)
Definition keeps_registry (op : Op) : bool :=
  match op with DoDestroy => false | _ => true end.

(** ** Sample pages *)

Module Sample.

Definition control (tagName type name : string) : Control.t :=
  {| Control.tagName := tagName; Control.type := type; Control.name := name;
     Control.id := ""; Control.min := ""; Control.max := "";
     Control.placeholder := ""; Control.pattern := "";
     Control.required := false; Control.options := [];
     Control.value := Value.Str ""; Control.checked := false |}.

(** An element given by its tag, attributes, text and controls: the
    [name] property reflects the attribute, and a form has the method
    [get] and the page itself as its action. *)
Definition element (tagName : string) (attributes : list (string * string))
    (textContent : string) (controls : list Control.t) : Element.t :=
  {| Element.tagName := tagName; Element.type := "";
     Element.name :=
       match Element.lookup_attr "name" attributes with
       | Some v => v
       | None => ""
       end;
     Element.method := if String.eqb tagName "FORM" then "get" else "";
     Element.action :=
       if String.eqb tagName "FORM" then "https://shop.example/" else "";
     Element.attributes := attributes; Element.textContent := textContent;
     Element.controls := controls; Element.labels := [];
     Element.matches := fun _ => false; Element.closest := fun _ => false |}.

(** The search form of the README. *)
Definition query : Control.t :=
  {| Control.tagName := "INPUT"; Control.type := "text"; Control.name := "query";
     Control.id := ""; Control.min := ""; Control.max := "";
     Control.placeholder := "Search products..."; Control.pattern := "";
     Control.required := true; Control.options := [];
     Control.value := Value.Str ""; Control.checked := false |}.

Definition category : Control.t :=
  {| Control.tagName := "SELECT"; Control.type := "select-one";
     Control.name := "category";
     Control.id := ""; Control.min := ""; Control.max := "";
     Control.placeholder := ""; Control.pattern := "";
     Control.required := false; Control.options := ["shoes"; "shirts"; "pants"];
     Control.value := Value.Str "shoes"; Control.checked := false |}.

Definition maxPrice : Control.t :=
  {| Control.tagName := "INPUT"; Control.type := "number";
     Control.name := "maxPrice";
     Control.id := ""; Control.min := "0"; Control.max := "1000";
     Control.placeholder := ""; Control.pattern := "";
     Control.required := false; Control.options := [];
     Control.value := Value.Str ""; Control.checked := false |}.

Definition product_search : Element.t :=
  element "FORM" [("id", "product-search")] "Search" [query; category; maxPrice].

(** [{ query: "red sneakers", page: 2 }] with [Object.prototype] behind
    it (only the inherited names that matter are listed). *)
Definition paged_query : JSObject.t :=
  {| JSObject.own := [("query", Value.Str "red sneakers"); ("page", Value.Num 2)];
     JSObject.inherited := [("constructor", Value.Obj); ("toString", Value.Obj)] |}.

(** [<form id="!!!" name="???">] with one text field. *)
Definition punctuation_form : Element.t :=
  element "FORM" [("id", "!!!"); ("name", "???")] "" [control "INPUT" "text" "q"].

(** A page at [https://shop.example/]; relative references are
    resolved by plain concatenation, enough for the links below. *)
Definition window : Window.t :=
  {| Window.location_href := "https://shop.example/";
     Window.URL := fun href base =>
       match href with
       | String "/" rest => Some (base +:+ rest)
       | _ => Some href
       end |}.

Definition cart_link : Element.t :=
  element "A" [("href", "/cart")] " Cart " [].

Definition script_link : Element.t :=
  element "A" [("href", "javascript:void(0)")] "Menu" [].

(** A host with a registration sink that accepts everything. *)
Definition host : Host :=
  {| modelContext :=
       Some {| registerTool := Some (fun _ => None); clearTools := true |};
     random := fun _ => "k3x9";
     MutationObserver := true |}.

(** [{ maxTools: 2, onToolRegistered: ... }] over the defaults. *)
Definition small_config : Config.t :=
  {| Config.exclude := []; Config.include := []; Config.prefix := "";
     Config.onToolRegistered := true; Config.watch := true;
     Config.maxTools := 2; Config.debug := true |}.

(** [{ onToolRegistered: ... }] over the defaults. *)
Definition notifying_config : Config.t :=
  {| Config.exclude := []; Config.include := []; Config.prefix := "";
     Config.onToolRegistered := true; Config.watch := true;
     Config.maxTools := 50; Config.debug := true |}.

Definition click_tool (name description : string) : Tool.t :=
  {| Tool.name := name;
     Tool.description := description;
     Tool.inputSchema := empty_schema;
     Tool.handler := ButtonHandler (element "BUTTON" [] description []);
     Tool.annotations :=
       Some {| readOnlyHint := Some false; destructiveHint := None |} |}.

(** [<form id="newsletter"></form>]: nothing to fill in. *)
Definition newsletter : Element.t :=
  element "FORM" [("id", "newsletter")] "" [].

Definition newsletter_page : Document.t :=
  {| Document.querySelectorAll := fun selector =>
       if String.eqb selector "form" then [newsletter]
       else if String.eqb selector "#newsletter" then [newsletter]
       else [] |}.

(** [{ include: ["#newsletter"] }] over the defaults. *)
Definition newsletter_config : Config.t :=
  {| Config.exclude := []; Config.include := ["#newsletter"]; Config.prefix := "";
     Config.onToolRegistered := false; Config.watch := true;
     Config.maxTools := 50; Config.debug := true |}.

(** [<div data-action="refresh">Refresh</div>] *)
Definition refresh : Element.t :=
  element "DIV" [("data-action", "refresh")] "Refresh" [].

Definition refresh_page : Document.t :=
  {| Document.querySelectorAll := fun selector =>
       if String.eqb selector "[data-action]" then [refresh] else [] |}.

(** [{ include: ["[data-action]"] }] over the defaults, as in the
    README. *)
Definition action_config : Config.t :=
  {| Config.exclude := []; Config.include := ["[data-action]"]; Config.prefix := "";
     Config.onToolRegistered := false; Config.watch := true;
     Config.maxTools := 50; Config.debug := true |}.

(** [<form id="settings"><input name="__proto__" required></form>] *)
Definition proto_field : Control.t :=
  {| Control.tagName := "INPUT"; Control.type := "text";
     Control.name := "__proto__";
     Control.id := ""; Control.min := ""; Control.max := "";
     Control.placeholder := ""; Control.pattern := "";
     Control.required := true; Control.options := [];
     Control.value := Value.Str ""; Control.checked := false |}.

Definition settings : Element.t :=
  element "FORM" [("id", "settings")] "" [proto_field].

(** Two buttons with the same label, outside any form. *)
Definition add_to_cart (sku : string) : Element.t :=
  element "BUTTON" [("data-sku", sku)] "Add to cart" [].

Definition listing_page : Document.t :=
  {| Document.querySelectorAll := fun selector =>
       if String.eqb selector button_selector
       then [add_to_cart "A-1"; add_to_cart "B-2"]
       else [] |}.

(** A text slugging to 40 characters of which the last is the
    separator. *)
Definition long_title : string :=
  "Search all products in the online store catalog".

End Sample.

(** ** Further definitions: what a scan pass submits *)

(** The element a handler closes over. *)
Definition handler_element (h : Handler) : Element.t :=
  match h with
  | FormHandler e | ButtonHandler e | LinkHandler e => e
  end.

(** The descriptor objects built in the four phases of [scan]. *)
Definition form_descriptor (toolName : string) (form : Element.t) : Tool.t :=
  {| Tool.name := toolName;
     Tool.description := generateDescription form Context.form;
     Tool.inputSchema := scanForm form;
     Tool.handler := FormHandler form;
     Tool.annotations :=
       Some {| readOnlyHint := Some false; destructiveHint := Some false |} |}.

Definition button_descriptor (toolName : string) (button : Element.t) : Tool.t :=
  {| Tool.name := toolName;
     Tool.description := generateDescription button Context.button;
     Tool.inputSchema := empty_schema;
     Tool.handler := ButtonHandler button;
     Tool.annotations :=
       Some {| readOnlyHint := Some false; destructiveHint := None |} |}.

Definition link_descriptor (toolName : string) (link : Element.t) : Tool.t :=
  {| Tool.name := toolName;
     Tool.description := generateDescription link Context.link;
     Tool.inputSchema := empty_schema;
     Tool.handler := LinkHandler link;
     Tool.annotations :=
       Some {| readOnlyHint := Some true; destructiveHint := None |} |}.

(** [el.tagName === "FORM" ? "form" : "button"] *)
Definition included_context (el : Element.t) : Context.t :=
  if String.eqb (Element.tagName el) "FORM" then Context.form else Context.button.

Definition included_descriptor (toolName : string) (el : Element.t) : Tool.t :=
  {| Tool.name := toolName;
     Tool.description := generateDescription el (included_context el);
     Tool.inputSchema :=
       match included_context el with
       | Context.form => scanForm el
       | _ => empty_schema
       end;
     Tool.handler :=
       match included_context el with
       | Context.form => FormHandler el
       | _ => ButtonHandler el
       end;
     Tool.annotations := None |}.

(** Operations through which only [scan] submits descriptors. *)
Definition scan_driven (op : Op) : bool :=
  match op with DoRegister _ => false | _ => true end.

(** What the external sink holds according to the calls made on it:
    [registerTool] adds a descriptor, [clearTools] drops them all. *)
Definition sink_contents (calls : list SinkCall) : list Tool.t :=
  fold_left
    (fun held c =>
       match c with
       | RegisterTool tool => (held ++ [tool])%list
       | ClearTools => []
       end)
    calls [].

(** [getToolManifest()], given [window.location.origin] and the text of
    [new Date().toISOString()]. *)
Record Manifest := {
  version : string;
  site : string;
  generatedAt : string;
  generatedBy : string;
  tools : list Exported.t
}.

Definition getToolManifest (origin now : string) (st : State) : Manifest :=
  {| version := "0.1.0";
     site := origin;
     generatedAt := now;
     generatedBy := "webmcp-auto";
     tools := getTools st |}.

(** What every scan pass guarantees about a stored descriptor: its
    element is not excluded, carries no manual marker, and the name is
    not empty. *)
Definition well_scanned (config : Config.t) (tool : Tool.t) : Prop :=
  isExcluded config (handler_element (Tool.handler tool)) = false
  /\ JS.truthy_opt
       (Element.getAttribute (handler_element (Tool.handler tool)) "toolname") = false
  /\ JS.truthy (Tool.name tool) = true.

(** [tool.annotations?.readOnlyHint] being [true]. *)
Definition read_only (tool : Tool.t) : bool :=
  match Tool.annotations tool with
  | Some a => match readOnlyHint a with Some b => b | None => false end
  | None => false
  end.

(** What the three built-in phases guarantee beyond [well_scanned]. *)
Definition builtin_product (tool : Tool.t) : Prop :=
  is_Some (Tool.annotations tool)
  /\ match Tool.handler tool with
     | FormHandler form =>
         Tool.inputSchema tool = scanForm form
         /\ size (properties (scanForm form)) <> 0%nat
     | ButtonHandler button =>
         Tool.inputSchema tool = empty_schema
         /\ Element.closest button "form" = false
         /\ (JS.truthy (JS.trim (Element.textContent button)) = true
             \/ JS.truthy_opt (Element.getAttribute button "aria-label") = true)
     | LinkHandler link =>
         Tool.inputSchema tool = empty_schema
         /\ JS.truthy (Element.reflected link "href") = true
         /\ Element.reflected link "href" <> "#"
         /\ JS.startsWith "javascript:" (Element.reflected link "href") = false
     end.

(** Sample operations for the properties of the registry. *)
Module Cases.

Definition silent_config : Config.t :=
  {| Config.exclude := [".admin-panel"]; Config.include := []; Config.prefix := "shop";
     Config.onToolRegistered := true; Config.watch := true;
     Config.maxTools := 50; Config.debug := false |}.

Definition closed_config : Config.t :=
  {| Config.exclude := []; Config.include := []; Config.prefix := "";
     Config.onToolRegistered := true; Config.watch := true;
     Config.maxTools := 0; Config.debug := true |}.

(** A page with the README's search form, two buttons and a navigation
    link. *)
Definition shop_page : Document.t :=
  {| Document.querySelectorAll := fun selector =>
       if String.eqb selector "form" then [Sample.product_search]
       else if String.eqb selector button_selector
       then [Sample.add_to_cart "A-1"; Sample.add_to_cart "B-2"]
       else if String.eqb selector nav_selector then [Sample.cart_link]
       else [] |}.

Definition session : list Op :=
  [DoScan shop_page;
   DoRegister (Sample.click_tool "help" "Help");
   DoStopWatching;
   DoScan shop_page].

Definition scans : list Op := [DoScan shop_page; DoDestroy; DoScan shop_page].

End Cases.

(** Whether a string contains a character of [[a-z0-9]]. *)
Fixpoint has_alnum (s : string) : bool :=
  match s with
  | EmptyString => false
  | String c r => is_alnum c || has_alnum r
  end.

(** Whether [generateToolName] finds a naming source on the element for
    the role, so that the random fallback is not evaluated. *)
Definition named (element : Element.t) (context : Context.t) : bool :=
  let id := Element.id element in
  let name := Element.reflected element "name" in
  let ariaLabel := Element.reflected element "aria-label" in
  let action := Element.reflected element "action" in
  let textContent := JS.slice 0 30 (JS.trim (Element.textContent element)) in
  match context with
  | Context.form => JS.truthy id || JS.truthy name || JS.truthy action
  | Context.button => JS.truthy ariaLabel || JS.truthy textContent || JS.truthy id
  | Context.link => JS.truthy ariaLabel || JS.truthy textContent
  | Context.input => JS.truthy name || JS.truthy id
  end.

(** The controls of a form that [scanForm] reads a given schema key
    from. *)
Definition contributes (k : string) (i : Control.t) : Prop :=
  skipped i = false /\ Control.fieldName i = k.

Global Instance contributes_dec k i : Decision (contributes k i).
Proof. unfold contributes. apply _. Defined.

(** The controls of a form that [scanForm] lists as required. *)
Definition demanded (i : Control.t) : Prop :=
  skipped i = false /\ Control.required i = true.

Global Instance demanded_dec i : Decision (demanded i).
Proof. unfold demanded. apply _. Defined.

(** The form with its controls in a later state. *)
Definition with_controls (controls : list Control.t) (form : Element.t) : Element.t :=
  {| Element.tagName := Element.tagName form;
     Element.type := Element.type form;
     Element.name := Element.name form;
     Element.method := Element.method form;
     Element.action := Element.action form;
     Element.attributes := Element.attributes form;
     Element.textContent := Element.textContent form;
     Element.controls := controls;
     Element.labels := Element.labels form;
     Element.matches := Element.matches form;
     Element.closest := Element.closest form |}.

(** A registration attempt for the descriptor would change nothing: the
    registry is full or holds the name already. *)
Definition settled (config : Config.t) (st : State) (tool : Tool.t) : Prop :=
  (Config.maxTools config <= toolCount st)%Z
  \/ map_has (Tool.name tool) (registeredTools st) = true.

(** Every form, navigation link and included element of the page has a
    naming source for the role it is scanned under (buttons of phase 2
    always have one, by the phase's own guard). *)
Definition stable_names (config : Config.t) (document : Document.t) : Prop :=
  Forall (fun el => named el Context.form = true)
    (Document.querySelectorAll document "form")
  /\ Forall (fun el => named el Context.link = true)
       (Document.querySelectorAll document nav_selector)
  /\ Forall (fun selector =>
               Forall (fun el => named el (included_context el) = true)
                 (Document.querySelectorAll document selector))
       (Config.include config).

(** ** The debounced observer

    The timer logic of [startWatching] and [stopWatching] on a logical
    clock. [connected] tells whether the MutationObserver is observing,
    [debounceTimer] is the deadline of the timeout that is pending, and
    [rescans] collects the deadlines of the timeouts that have run their
    callback (the re-scan). The host produces three kinds of events. *)
Module Watcher.

Record t := {
  connected : bool;
  debounceTimer : option nat;
  rescans : list nat
}.

(** The delay passed to [setTimeout]. *)
Definition delay : nat := 1000.

Inductive Event :=
| Mutated (now : nat)     (* the observer callback is due at time [now] *)
| Reached (now : nat)     (* the event loop runs the timeouts due by [now] *)
| Disconnected.           (* [observer.disconnect()], from [stopWatching] *)

(** After [startWatching] has installed the observer. *)
Definition watching : t :=
  {| connected := true; debounceTimer := None; rescans := [] |}.

Definition react (w : t) (e : Event) : t :=
  match e with
  | Mutated now =>
      (* [clearTimeout(debounceTimer); debounceTimer = setTimeout(..., 1000)] *)
      if connected w
      then {| connected := true; debounceTimer := Some (now + delay);
              rescans := rescans w |}
      else w
  | Reached now =>
      match debounceTimer w with
      | Some deadline =>
          if (deadline <=? now)%nat
          then {| connected := connected w; debounceTimer := None;
                  rescans := (rescans w ++ [deadline])%list |}
          else w
      | None => w
      end
  | Disconnected =>
      {| connected := false; debounceTimer := debounceTimer w;
         rescans := rescans w |}
  end.

Definition run (events : list Event) (w : t) : t := fold_left react events w.

(** A burst: the observer callback runs at each of the times, the event
    loop having caught up with the clock first. *)
Definition burst (times : list nat) : list Event :=
  flat_map (fun now => [Reached now; Mutated now]) times.

(** Each time follows the previous one by less than the delay. *)
Fixpoint close (previous : nat) (times : list nat) : Prop :=
  match times with
  | [] => True
  | now :: later => (previous <= now < previous + delay)%nat /\ close now later
  end.

End Watcher.

(** Two runs that agree on everything but the external sink and the
    console. *)
Definition same_bookkeeping (st st' : State) : Prop :=
  registeredTools st = registeredTools st'
  /\ toolCount st = toolCount st'
  /\ notified st = notified st'
  /\ draws st = draws st'
  /\ observer st = observer st'.

Module Cases2.

(** A host whose sink throws on every registration, and a host without
    any model context; both draw the same random texts as
    [Sample.host]. *)
Definition failing_host : Host :=
  {| modelContext :=
       Some {| registerTool := Some (fun _ => Some "quota exceeded");
               clearTools := false |};
     random := fun _ => "k3x9";
     MutationObserver := true |}.

Definition bare_host : Host :=
  {| modelContext := None; random := fun _ => "k3x9"; MutationObserver := false |}.

End Cases2.

Module Cases3.

(** A form without id, name or action, holding one text field. *)
Definition anonymous_form : Element.t :=
  Sample.element "FORM" [] "" [Sample.control "INPUT" "text" "q"].

Definition anonymous_page : Document.t :=
  {| Document.querySelectorAll := fun selector =>
       if String.eqb selector "form" then [anonymous_form] else [] |}.

(** A host whose random texts differ from draw to draw. *)
Definition drawing_host : Host :=
  {| modelContext := None;
     random := fun i => if Nat.even i then "k3x9" else "p07a";
     MutationObserver := true |}.

End Cases3.

(** ** Further definitions: the inputs of the handlers *)

(** In the words of the specification: the control's field key "is
    present in the mapping", read as one of the mapping's own keys. *)
Definition mapped (input : JSObject.t) (inputEl : Control.t) : bool :=
  JS.truthy (Control.fieldName inputEl)
  && JSObject.hasOwn (Control.fieldName inputEl) input.

(** No control that the fill loop addresses refuses its value. *)
Definition accepted (form : Element.t) (input : JSObject.t) : Prop :=
  Forall (fun c =>
            addressed input c = true ->
            is_Some (write_control (JSObject.get (Control.fieldName c) input) c))
    (Element.controls form).

(** The fill loop addresses a control only through an own key of the
    mapping, never through a name the mapping merely inherits. *)
Definition own_keyed (form : Element.t) (input : JSObject.t) : Prop :=
  Forall (fun c => addressed input c = mapped input c) (Element.controls form).

(** TAB, LF and CR, which a URL parser removes wherever they stand. *)
Definition is_tab_or_newline (c : ascii) : bool :=
  (JS.code c =? 9)%N || (JS.code c =? 10)%N || (JS.code c =? 13)%N.

Fixpoint remove_tab_newline (s : string) : string :=
  match s with
  | EmptyString => EmptyString
  | String c r =>
      if is_tab_or_newline c then remove_tab_newline r
      else String c (remove_tab_newline r)
  end.

(** The leading C0 controls and spaces, which a URL parser skips. *)
Fixpoint drop_c0_space (s : string) : string :=
  match s with
  | EmptyString => EmptyString
  | String c r => if (JS.code c <=? 32)%N then drop_c0_space r else s
  end.

(** In the words of the specification: the href "uses a script-execution
    pseudo-scheme". Read the way a URL parser finds the scheme: behind
    leading controls and spaces, through tabs and line breaks, and
    whatever the letter case. *)
Definition uses_script_scheme (href : string) : bool :=
  JS.startsWith "javascript:"
    (JS.toLowerCase (drop_c0_space (remove_tab_newline href))).

(** Sample inputs for the handlers. *)
Module Cases4.

(** A page whose [URL] constructor refuses [http://], an href that names
    no host, and resolves the other sample links as [Sample.window]
    does. *)
Definition strict_window : Window.t :=
  {| Window.location_href := "https://shop.example/";
     Window.URL := fun href base =>
       if String.eqb href "http://" then None
       else Window.URL Sample.window href base |}.

(** [<a href="http://">Partner</a>] *)
Definition hostless_link : Element.t :=
  Sample.element "A" [("href", "http://")] "Partner" [].

(** [<a href="">Top</a>] *)
Definition empty_link : Element.t :=
  Sample.element "A" [("href", "")] "Top" [].

(** [<a href="JavaScript:alert(1)">Menu</a>] *)
Definition capital_script_link : Element.t :=
  Sample.element "A" [("href", "JavaScript:alert(1)")] "Menu" [].

(** [<form id="upload"><input name="title"><input type="file"
    name="avatar"><input name="caption"></form>] *)
Definition avatar : Control.t :=
  Sample.control "INPUT" "file" "avatar".

Definition upload : Element.t :=
  Sample.element "FORM" [("id", "upload")] ""
    [Sample.control "INPUT" "text" "title"; avatar;
     Sample.control "INPUT" "text" "caption"].

(** [{ title: "Me", avatar: "me.png", caption: "hello" }] *)
Definition upload_input : JSObject.t :=
  {| JSObject.own := [("title", Value.Str "Me"); ("avatar", Value.Str "me.png");
                      ("caption", Value.Str "hello")];
     JSObject.inherited := [("constructor", Value.Obj); ("toString", Value.Obj)] |}.

(** [<form id="builder"><input name="constructor"></form>] *)
Definition builder : Element.t :=
  Sample.element "FORM" [("id", "builder")] ""
    [Sample.control "INPUT" "text" "constructor"].

(** [{}] with [Object.prototype] behind it. *)
Definition empty_object : JSObject.t :=
  {| JSObject.own := [];
     JSObject.inherited := [("constructor", Value.Obj); ("toString", Value.Obj)] |}.

(** [<form id="***">] with one text field: a second form whose id slugs
    to nothing. *)
Definition starred_form : Element.t :=
  Sample.element "FORM" [("id", "***")] "" [Sample.control "INPUT" "text" "q"].

End Cases4.

(** * Properties *)

(** ** Characters *)

Ltac each_char c :=
  destruct c as [[] [] [] [] [] [] [] []]; vm_compute; try reflexivity; try discriminate.

Lemma alnum_not_sep c : is_alnum c = true -> is_sep c = false.
Proof. each_char c. Qed.

Lemma alnum_lower c : is_alnum c = true -> JS.lower_char c = c.
Proof. each_char c. Qed.

Lemma alnum_not_underscore c : is_alnum c = true -> Ascii.eqb c "_" = false.
Proof. each_char c. Qed.

Lemma underscore_facts :
  is_sep "_" = true /\ is_alnum "_" = false /\ JS.lower_char "_" = "_"%char.
Proof. vm_compute. auto. Qed.

(** ** Shape of a slug *)

Lemma collapse_runs_shaped b s :
  slug_shaped b (collapse_runs b (strip_other s)) = true.
Proof.
  revert b. induction s as [|c r IH]; intros b; simpl; [reflexivity|].
  destruct (is_alnum c || is_sep c) eqn:Hk; [|apply IH].
  simpl. destruct (is_sep c) eqn:Hs.
  - destruct b; [apply IH|]. simpl. apply IH.
  - rewrite orb_false_r in Hk. simpl.
    rewrite (alnum_not_underscore c Hk), Hk. simpl. apply IH.
Qed.

Lemma slug_shaped_weaken b s : slug_shaped true s = true -> slug_shaped b s = true.
Proof.
  destruct s as [|c r]; simpl; [reflexivity|].
  destruct (Ascii.eqb c "_"); [discriminate|]. auto.
Qed.

Lemma drop_final_shaped b s :
  slug_shaped b s = true -> slug_shaped b (drop_final_underscore s) = true.
Proof.
  revert b. induction s as [|c r IH]; intros b H; [reflexivity|].
  destruct r as [|c' r'].
  - simpl. destruct (Ascii.eqb c "_"); [reflexivity|exact H].
  - change (drop_final_underscore (String c (String c' r')))
      with (String c (drop_final_underscore (String c' r'))).
    revert H. cbn [slug_shaped]. fold (slug_shaped true (String c' r')).
    destruct (Ascii.eqb c "_").
    + intros H. apply andb_true_iff in H as [H1 H2]. rewrite H1. simpl.
      apply (IH true H2).
    + intros H. apply andb_true_iff in H as [H1 H2]. rewrite H1. simpl.
      apply (IH false H2).
Qed.

Lemma trim_underscores_shaped s :
  slug_shaped false s = true -> slug_shaped true (trim_underscores s) = true.
Proof.
  intros H. unfold trim_underscores. apply drop_final_shaped.
  destruct s as [|c r]; [reflexivity|].
  revert H. simpl. destruct (Ascii.eqb c "_") eqn:Hc; simpl; [auto|].
  rewrite Hc. auto.
Qed.

Lemma substring_shaped b n s :
  slug_shaped b s = true -> slug_shaped b (substring 0 n s) = true.
Proof.
  revert b s. induction n as [|n IH]; intros b s H.
  - destruct s; reflexivity.
  - destruct s as [|c r]; [reflexivity|]. simpl in *.
    destruct (Ascii.eqb c "_").
    + apply andb_true_iff in H as [H1 H2]. rewrite H1. simpl. auto.
    + apply andb_true_iff in H as [H1 H2]. rewrite H1. simpl. auto.
Qed.

Lemma substring_length n s : String.length (substring 0 n s) <= n.
Proof.
  revert s. induction n as [|n IH]; intros s.
  - destruct s; simpl; lia.
  - destruct s as [|c r]; simpl; [lia|]. specialize (IH r). lia.
Qed.

Lemma substring_short n s : String.length s <= n -> substring 0 n s = s.
Proof.
  revert s. induction n as [|n IH]; intros s H.
  - destruct s; simpl in *; [reflexivity|lia].
  - destruct s as [|c r]; [reflexivity|]. simpl in *. f_equal. apply IH. lia.
Qed.

Lemma drop_final_length s :
  String.length (drop_final_underscore s) <= String.length s.
Proof.
  induction s as [|c r IH]; [simpl; lia|].
  destruct r as [|c' r'].
  - simpl. destruct (Ascii.eqb c "_"); simpl; lia.
  - change (drop_final_underscore (String c (String c' r')))
      with (String c (drop_final_underscore (String c' r'))).
    simpl String.length in *. lia.
Qed.

Lemma slugify_shaped x : slug_shaped true (slugify x) = true.
Proof.
  unfold slugify, JS.slice. apply substring_shaped, trim_underscores_shaped.
  apply collapse_runs_shaped.
Qed.

Lemma slugify_length x : String.length (slugify x) <= 40.
Proof. unfold slugify, JS.slice. apply substring_length. Qed.

(** ** A second pass over a slug *)

Lemma shaped_lower b s : slug_shaped b s = true -> JS.toLowerCase s = s.
Proof.
  revert b. induction s as [|c r IH]; intros b H; [reflexivity|].
  simpl in *. destruct (Ascii.eqb c "_") eqn:Hc.
  - apply Ascii.eqb_eq in Hc. subst c.
    apply andb_true_iff in H as [_ H].
    rewrite (IH true H). f_equal.
  - apply andb_true_iff in H as [Ha H].
    rewrite (IH false H), (alnum_lower c Ha). reflexivity.
Qed.

Lemma shaped_strip b s : slug_shaped b s = true -> strip_other s = s.
Proof.
  revert b. induction s as [|c r IH]; intros b H; [reflexivity|].
  simpl in *. destruct (Ascii.eqb c "_") eqn:Hc.
  - apply Ascii.eqb_eq in Hc. subst c.
    apply andb_true_iff in H as [_ H].
    change (is_alnum "_" || is_sep "_") with true. cbv iota.
    rewrite (IH true H). reflexivity.
  - apply andb_true_iff in H as [Ha H]. rewrite Ha. simpl.
    rewrite (IH false H). reflexivity.
Qed.

Lemma shaped_collapse b s :
  slug_shaped b s = true -> collapse_runs b s = s.
Proof.
  revert b. induction s as [|c r IH]; intros b H; [reflexivity|].
  simpl in *. destruct (Ascii.eqb c "_") eqn:Hc.
  - apply Ascii.eqb_eq in Hc. subst c.
    apply andb_true_iff in H as [Hb H]. destruct b; [discriminate|].
    change (is_sep "_") with true. cbv iota.
    rewrite (IH true H). reflexivity.
  - apply andb_true_iff in H as [Ha H].
    rewrite (alnum_not_sep c Ha), (IH false H). reflexivity.
Qed.

Lemma shaped_trim_underscores s :
  slug_shaped true s = true -> trim_underscores s = drop_final_underscore s.
Proof.
  intros H. unfold trim_underscores. destruct s as [|c r]; [reflexivity|].
  simpl in H. destruct (Ascii.eqb c "_"); [discriminate|reflexivity].
Qed.

Lemma slugify_of_shaped s :
  slug_shaped true s = true -> String.length s <= 40 ->
  slugify s = drop_final_underscore s.
Proof.
  intros H Hlen. unfold slugify.
  rewrite (shaped_lower _ _ H), (shaped_strip _ _ H).
  rewrite (shaped_collapse false s (slug_shaped_weaken false s H)).
  rewrite (shaped_trim_underscores s H).
  unfold JS.slice. apply substring_short.
  pose proof (drop_final_length s). lia.
Qed.

Lemma drop_final_fixed s :
  drop_final_underscore s = s <-> ends_with_underscore s = false.
Proof.
  induction s as [|c r IH]; [simpl; tauto|].
  destruct r as [|c' r'].
  - simpl. destruct (Ascii.eqb c "_"); split; intros H; congruence.
  - change (drop_final_underscore (String c (String c' r')))
      with (String c (drop_final_underscore (String c' r'))).
    change (ends_with_underscore (String c (String c' r')))
      with (ends_with_underscore (String c' r')).
    rewrite <- IH. split; intros H; [injection H; auto | f_equal; exact H].
Qed.

Lemma drop_final_no_underscore b s :
  slug_shaped b s = true -> ends_with_underscore (drop_final_underscore s) = false.
Proof.
  revert b. induction s as [|c r IH]; intros b H; [reflexivity|].
  destruct r as [|c' r'].
  - simpl. destruct (Ascii.eqb c "_") eqn:Hc; [reflexivity|]. simpl. exact Hc.
  - change (drop_final_underscore (String c (String c' r')))
      with (String c (drop_final_underscore (String c' r'))).
    assert (Hr : exists b', slug_shaped b' (String c' r') = true).
    { revert H. cbn [slug_shaped]. fold (slug_shaped true (String c' r')).
      fold (slug_shaped false (String c' r')).
      destruct (Ascii.eqb c "_"); intros H; apply andb_true_iff in H as [_ H]; eauto. }
    destruct Hr as [b' Hr]. specialize (IH b' Hr).
    destruct (drop_final_underscore (String c' r')) as [|d t] eqn:Hd.
    + (* the tail was a single underscore, which cannot follow one *)
      simpl. destruct r' as [|c'' r''].
      * simpl in Hd. destruct (Ascii.eqb c' "_") eqn:Hc'; [|discriminate].
        apply Ascii.eqb_eq in Hc'. subst c'.
        revert H. cbn [slug_shaped]. destruct (Ascii.eqb c "_") eqn:Hc; [|auto].
        simpl. rewrite andb_false_r. discriminate.
      * discriminate.
    + exact IH.
Qed.

(** C4 (as amended). A second application of the slug transform removes
    the underscore that truncation to 40 characters may have left at the
    end of the first result and changes nothing else: [slugify (slugify
    x)] is [slugify x] without a final underscore, the two are equal
    exactly when [slugify x] does not end in an underscore, and the
    transform is stable from the second application on. *)
Theorem slugify_second_pass (x : string) :
  slugify (slugify x) = drop_final_underscore (slugify x)
  /\ (slugify (slugify x) = slugify x <-> ends_with_underscore (slugify x) = false)
  /\ slugify (slugify (slugify x)) = slugify (slugify x).
Proof.
  pose proof (slugify_shaped x) as Hs.
  pose proof (slugify_length x) as Hl.
  pose proof (slugify_of_shaped _ Hs Hl) as H2.
  split; [exact H2|]. split.
  - rewrite H2. apply drop_final_fixed.
  - rewrite H2. rewrite slugify_of_shaped.
    + apply drop_final_fixed. eapply drop_final_no_underscore, Hs.
    + apply drop_final_shaped, Hs.
    + pose proof (drop_final_length (slugify x)). lia.
Qed.

Example slugify_long_title :
  slugify Sample.long_title = "search_all_products_in_the_online_store_"
  /\ slugify (slugify Sample.long_title) = "search_all_products_in_the_online_store".
Proof. vm_compute. split; reflexivity. Qed.

(** C4 (as stated) fails: the slug of [Sample.long_title] is cut right
    after a separator, and slugging it again removes that separator. *)
Lemma slugify_not_idempotent :
  slugify (slugify Sample.long_title) <> slugify Sample.long_title.
Proof. vm_compute. discriminate. Qed.

(** ** [generateToolName] *)

Lemma truthy_empty s : JS.truthy s = false <-> s = EmptyString.
Proof. destruct s; simpl; split; congruence. Qed.

Lemma join_single c : JS.join "_" [c] = c.
Proof. reflexivity. Qed.

Lemma join_prefixed p c : JS.join "_" [p; c] = p +:+ "_" +:+ c.
Proof. reflexivity. Qed.

Lemma truthy_append_l p q : JS.truthy p = true -> JS.truthy (p +:+ q) = true.
Proof. destruct p; simpl; congruence. Qed.

(** The skip sentinel, by cases: the name generator returns it exactly
    when the element carries a non-empty manual marker, or the prefix is
    empty and the part chosen for the role is the empty string. With a
    non-empty prefix and no marker the test of the joined name never
    fails, since the join already holds the prefix and an underscore. *)
Lemma generateToolName_skip (element : Element.t) (prefix : string)
    (context : Context.t) (rnd : string) :
  (generateToolName element prefix context rnd = None
   <-> JS.truthy_opt (Element.getAttribute element "toolname") = true
       \/ (prefix = EmptyString /\ name_part element context rnd = EmptyString))
  /\ (JS.truthy_opt (Element.getAttribute element "toolname") = false ->
      prefix <> EmptyString ->
      generateToolName element prefix context rnd
      = Some (prefix +:+ "_" +:+ name_part element context rnd)).
Proof.
  unfold generateToolName.
  destruct (JS.truthy_opt (Element.getAttribute element "toolname")) eqn:Hm.
  { split; [split; auto | discriminate]. }
  destruct prefix as [|a p].
  - cbn [JS.truthy app]. rewrite join_single.
    destruct (JS.truthy (name_part element context rnd)) eqn:Hp.
    + split; [|congruence]. split; [discriminate|].
      intros [H|[_ H]]; [discriminate|]. rewrite H in Hp. discriminate.
    + apply truthy_empty in Hp. split; [|congruence]. split; auto.
  - cbn [JS.truthy app]. rewrite join_prefixed.
    rewrite truthy_append_l by reflexivity.
    split; [|reflexivity]. split; [discriminate|].
    intros [H|[H _]]; discriminate.
Qed.

(** C6, the code at the failing input. The id and the name of
    [Sample.punctuation_form], the two naming sources it has, both slug
    to the empty string. Without a prefix the generator answers the skip
    sentinel for it; with the prefix [shop] the final test
    [toolName || null] sees the joined text [shop_] and lets it through,
    so the form is named by the prefix alone, and so is any other form
    whose source slugs to nothing, such as [Cases4.starred_form]. *)
Theorem generateToolName_prefix_alone :
  slugify (Element.id Sample.punctuation_form) = EmptyString
  /\ slugify (Element.reflected Sample.punctuation_form "name") = EmptyString
  /\ generateToolName Sample.punctuation_form "" Context.form "k3x9" = None
  /\ generateToolName Sample.punctuation_form "shop" Context.form "k3x9" = Some "shop_"
  /\ generateToolName Cases4.starred_form "shop" Context.form "k3x9" = Some "shop_".
Proof. vm_compute. repeat split. Qed.

(** Under the roles [link] and [input] the chosen part always starts
    with the role's fixed prefix, so only the manual marker makes the
    generator skip. *)
Lemma name_part_link_input (element : Element.t) (rnd : string) :
  JS.truthy (name_part element Context.link rnd) = true
  /\ JS.truthy (name_part element Context.input rnd) = true.
Proof.
  unfold name_part. split.
  - destruct (JS.truthy (Element.reflected element "aria-label")); [reflexivity|].
    destruct (JS.truthy (JS.slice 0 30 (JS.trim (Element.textContent element))));
      reflexivity.
  - destruct (JS.truthy (Element.reflected element "name")); [reflexivity|].
    destruct (JS.truthy (Element.id element)); reflexivity.
Qed.

(** ** Form handler *)

Lemma write_control_cases (v : Value.t) (c w : Control.t) :
  write_control v c = Some w ->
  w = if String.eqb (Control.type c) "checkbox"
      then Control.set_checked (Value.toBoolean v) c
      else Control.set_value v c.
Proof.
  unfold write_control.
  destruct (String.eqb (Control.type c) "checkbox"); [congruence|].
  destruct (String.eqb (Control.tagName c) "SELECT"); [congruence|].
  destruct (refused v c); congruence.
Qed.

Lemma imap_shift {A B} (f : nat -> A -> B) (k : nat) (l : list A) :
  imap ((fun i x => f (k + i) x) ∘ S) l = imap (fun i x => f (S k + i) x) l.
Proof. apply imap_ext. intros i x _. simpl. rewrite <- plus_n_Sm. reflexivity. Qed.

(** The fill loop when no addressed control refuses its value. *)
Lemma fill_spec (input : JSObject.t) (inputs : list Control.t) (k : nat) :
  Forall (fun c =>
            addressed input c = true ->
            is_Some (write_control (JSObject.get (Control.fieldName c) input) c))
    inputs ->
  fill input k inputs
  = (map (fun c =>
            if addressed input c
            then if String.eqb (Control.type c) "checkbox"
                 then Control.set_checked
                        (Value.toBoolean (JSObject.get (Control.fieldName c) input)) c
                 else Control.set_value (JSObject.get (Control.fieldName c) input) c
            else c) inputs,
     concat (imap (fun i c =>
                     if addressed input c
                     then [Dispatch (OnControl (k + i)) input_event;
                           Dispatch (OnControl (k + i)) change_event]
                     else []) inputs),
     true).
Proof.
  intros Hok. revert k. induction Hok as [|c rest Hc _ IH]; intros k; [reflexivity|].
  cbn [fill]. rewrite (IH (S k)). cbn [map imap concat].
  rewrite Nat.add_0_r.
  rewrite (imap_shift
             (fun n c0 =>
                if addressed input c0
                then [Dispatch (OnControl n) input_event;
                      Dispatch (OnControl n) change_event]
                else []) k rest).
  destruct (addressed input c); [|reflexivity].
  destruct (Hc eq_refl) as [w Hw]. rewrite Hw.
  rewrite (write_control_cases _ _ _ Hw). reflexivity.
Qed.

Lemma no_submit_among_control_events (input : JSObject.t) (inputs : list Control.t) k :
  filter (fun e => e = Dispatch OnElement submit_event) (fill input k inputs).1.2 = [].
Proof.
  revert k. induction inputs as [|c rest IH]; intros k; [reflexivity|].
  cbn [fill]. specialize (IH (S k)).
  destruct (fill input (S k) rest) as [[rest' raised] completed]. simpl in IH.
  destruct (addressed input c); simpl; [|exact IH].
  destruct (write_control _ c); simpl; [|reflexivity].
  rewrite !filter_cons. repeat case_decide; try discriminate. exact IH.
Qed.

Lemma own_key_get (k : string) (input : JSObject.t) (v : Value.t) :
  JSObject.assoc k (JSObject.own input) = Some v -> JSObject.get k input = v.
Proof. unfold JSObject.get. intros ->. reflexivity. Qed.

Lemma own_key_addressed (input : JSObject.t) (c : Control.t) :
  mapped input c = true -> addressed input c = true.
Proof.
  unfold mapped, addressed, JSObject.hasOwn, JSObject.has.
  destruct (JS.truthy (Control.fieldName c)); [|discriminate].
  destruct (JSObject.assoc _ (JSObject.own input)); [|discriminate].
  reflexivity.
Qed.

(** C1 (as amended). Take a form and an input mapping such that no
    addressed control refuses its value and no control is addressed
    through a name the mapping only inherits. Then invoking the form
    handler writes every control whose field key is an own key of the
    mapping (a checkbox through the flag derived by [Boolean], any other
    control through its value), leaves every other control as it was,
    raises a bubbling [input] and a bubbling [change] event on each
    written control in document order, then one bubbling cancelable
    [submit] event on the form, and resolves to
    [{success: true, message, fields}] where [fields] is the list of own
    keys of the input mapping. *)
Theorem createFormHandler_spec (form : Element.t) (input : JSObject.t) :
  accepted form input ->
  own_keyed form input ->
  let run := createFormHandler form input in
  length (controls_after run) = length (Element.controls form)
  /\ (forall i c v, Element.controls form !! i = Some c ->
        Control.fieldName c <> EmptyString ->
        JSObject.assoc (Control.fieldName c) (JSObject.own input) = Some v ->
        controls_after run !! i
        = Some (if String.eqb (Control.type c) "checkbox"
                then Control.set_checked (Value.toBoolean v) c
                else Control.set_value v c))
  /\ (forall i c, Element.controls form !! i = Some c ->
        mapped input c = false ->
        controls_after run !! i = Some c)
  /\ form_effects run
     = (concat (imap (fun i c =>
                        if mapped input c
                        then [Dispatch (OnControl i) input_event;
                              Dispatch (OnControl i) change_event]
                        else []) (Element.controls form))
        ++ [Dispatch OnElement submit_event])%list
  /\ length (filter (fun e => e = Dispatch OnElement submit_event) (form_effects run)) = 1
  /\ form_result run
     = Resolved
         {| success := true;
            message := "Form submitted with "
                         +:+ JS.of_nat (length (JSObject.keys input)) +:+ " fields";
            fields := Some (JSObject.keys input);
            url := None; text := None |}.
Proof.
  intros Hok Hown.
  pose proof (no_submit_among_control_events input (Element.controls form) 0) as Hns.
  unfold createFormHandler. rewrite (fill_spec _ _ _ Hok) in *. cbn [fst snd] in Hns.
  cbn [controls_after form_effects form_result].
  unfold own_keyed in Hown. rewrite Forall_lookup in Hown.
  split; [apply length_map|].
  split.
  { intros i c v Hi Hne Hv. rewrite list_lookup_fmap, Hi. cbn.
    assert (Hm : mapped input c = true).
    { unfold mapped, JSObject.hasOwn. rewrite Hv.
      destruct (Control.fieldName c); [congruence|reflexivity]. }
    rewrite (own_key_addressed _ _ Hm), (own_key_get _ _ _ Hv). reflexivity. }
  split.
  { intros i c Hi Hm. rewrite list_lookup_fmap, Hi. cbn.
    rewrite (Hown i c Hi), Hm. reflexivity. }
  split.
  { f_equal. f_equal. apply imap_ext. intros i c Hi. simpl.
    rewrite (Hown i c Hi). reflexivity. }
  split; [|reflexivity].
  rewrite filter_app, Hns. reflexivity.
Qed.

Lemma createFormHandler_spec_witness :
  accepted Sample.product_search Sample.paged_query
  /\ own_keyed Sample.product_search Sample.paged_query
  /\ form_result (createFormHandler Sample.product_search Sample.paged_query)
     = Resolved
         {| success := true;
            message := "Form submitted with "
                         +:+ JS.of_nat (length (JSObject.keys Sample.paged_query))
                         +:+ " fields";
            fields := Some (JSObject.keys Sample.paged_query);
            url := None; text := None |}.
Proof.
  assert (Hok : accepted Sample.product_search Sample.paged_query).
  { repeat constructor; intros _; eexists; reflexivity. }
  assert (Hown : own_keyed Sample.product_search Sample.paged_query).
  { repeat constructor. }
  split; [exact Hok|]. split; [exact Hown|].
  exact (proj2 (proj2 (proj2 (proj2 (proj2
           (createFormHandler_spec Sample.product_search Sample.paged_query
              Hok Hown)))))).
Defined.

Example product_search_paged_query :
  applied_fields Sample.product_search Sample.paged_query = ["query"]
  /\ form_result (createFormHandler Sample.product_search Sample.paged_query)
     = Resolved {| success := true; message := "Form submitted with 2 fields";
                   fields := Some ["query"; "page"]; url := None; text := None |}.
Proof. vm_compute. split; reflexivity. Qed.

(** C1 (as stated) fails: on the README's search form the input
    [{query: "red sneakers", page: 2}] writes the control [query] only,
    and the handler still reports [page] among the fields. *)
Lemma createFormHandler_reports_input_keys :
  exists r,
    form_result (createFormHandler Sample.product_search Sample.paged_query) = Resolved r
    /\ fields r = Some ["query"; "page"]
    /\ applied_fields Sample.product_search Sample.paged_query = ["query"]
    /\ fields r <> Some (applied_fields Sample.product_search Sample.paged_query).
Proof. eexists. vm_compute. repeat split. discriminate. Qed.

(** A file input refuses the text it is handed: the control before it
    is written and raises its two events, the file input and the control
    after it keep their state, no [submit] event is raised and the
    handler rejects. *)
Example upload_is_rejected :
  let run := createFormHandler Cases4.upload Cases4.upload_input in
  map Control.value (controls_after run)
  = [Value.Str "Me"; Value.Str ""; Value.Str ""]
  /\ form_effects run
     = [Dispatch (OnControl 0) input_event; Dispatch (OnControl 0) change_event]
  /\ form_result run = Rejected.
Proof. vm_compute. repeat split. Qed.

(** A control named like a property that every object inherits is
    addressed by the empty mapping [{}]: the [in] test of the fill loop
    finds [constructor] on the prototype, and the control is written. *)
Example inherited_name_is_written :
  let run := createFormHandler Cases4.builder Cases4.empty_object in
  map Control.value (controls_after run) = [Value.Obj]
  /\ form_effects run
     = [Dispatch (OnControl 0) input_event; Dispatch (OnControl 0) change_event;
        Dispatch OnElement submit_event]
  /\ form_result run
     = Resolved {| success := true; message := "Form submitted with 0 fields";
                   fields := Some []; url := None; text := None |}.
Proof. vm_compute. repeat split. Qed.

(** ** Link handler *)

Lemma script_prefix_uses_scheme (href : string) :
  JS.startsWith "javascript:" href = true -> uses_script_scheme href = true.
Proof.
  unfold JS.startsWith, uses_script_scheme. intros H.
  do 11 (destruct href as [|? href]; [discriminate|];
         cbn [String.prefix] in H;
         match type of H with
         | (if ?d then _ else _) = true => destruct d as [<-|]; [|discriminate]
         end).
  apply String.prefix_correct. vm_compute. repeat f_equal.
  match goal with |- ?f 0 0 ?x = _ => destruct x; reflexivity end.
Qed.

(** The link handler by the test it makes itself: a non-empty href that
    does not start with the text [javascript:]. *)
Lemma createLinkHandler_resolves (window : Window.t) (link : Element.t) (href : string) :
  Element.getAttribute link "href" = Some href ->
  href <> EmptyString -> JS.startsWith "javascript:" href = false ->
  (createLinkHandler window link).1 = []
  /\ forall absolute,
       Window.URL window href (Window.location_href window) = Some absolute ->
       createLinkHandler window link
       = ([], Resolved
                {| success := true;
                   message := "Link target: " +:+ href;
                   fields := None;
                   url := Some absolute;
                   text := Some (JS.slice 0 50
                                   (JS.trim (Element.textContent link))) |}).
Proof.
  intros Hh Hne Hs. unfold createLinkHandler. rewrite Hh, Hs.
  destruct href as [|a r]; [congruence|]. cbn [JS.truthy andb negb].
  split.
  - destruct (Window.URL window _ _); reflexivity.
  - intros absolute Hu. rewrite Hu. reflexivity.
Qed.

(** C7 (as amended). When the [href] attribute has a non-empty value
    that does not use the script pseudo-scheme, the link handler
    performs no activation or other effect, and when the [URL]
    constructor accepts the href against the current location it
    resolves to [{success: true, url, text, message}] with [url] the
    resolved absolute URL. When the href starts with the text
    [javascript:] in lower case, the handler clicks the link and
    resolves to the generic success. *)
Theorem createLinkHandler_spec (window : Window.t) (link : Element.t) (href : string) :
  Element.getAttribute link "href" = Some href ->
  (href <> EmptyString -> uses_script_scheme href = false ->
     (createLinkHandler window link).1 = []
     /\ forall absolute,
          Window.URL window href (Window.location_href window) = Some absolute ->
          createLinkHandler window link
          = ([], Resolved
                   {| success := true;
                      message := "Link target: " +:+ href;
                      fields := None;
                      url := Some absolute;
                      text := Some (JS.slice 0 50
                                      (JS.trim (Element.textContent link))) |}))
  /\ (JS.startsWith "javascript:" href = true ->
      createLinkHandler window link
      = ([Click],
         Resolved {| success := true; message := "Link activated";
                     fields := None; url := None; text := None |})).
Proof.
  intros Hh. split.
  - intros Hne Hs. apply createLinkHandler_resolves; [exact Hh|exact Hne|].
    destruct (JS.startsWith "javascript:" href) eqn:Hp; [|reflexivity].
    rewrite (script_prefix_uses_scheme _ Hp) in Hs. discriminate.
  - intros Hs. unfold createLinkHandler. rewrite Hh, Hs, andb_false_r. reflexivity.
Qed.

Lemma createLinkHandler_witness :
  createLinkHandler Sample.window Sample.cart_link
  = ([], Resolved {| success := true; message := "Link target: /cart";
                     fields := None; url := Some "https://shop.example/cart";
                     text := Some "Cart" |})
  /\ createLinkHandler Sample.window Sample.script_link
     = ([Click], Resolved {| success := true; message := "Link activated";
                             fields := None; url := None; text := None |}).
Proof.
  split.
  - refine (proj2 (proj1 (createLinkHandler_spec Sample.window Sample.cart_link
                            "/cart" eq_refl) _ eq_refl) _ eq_refl).
    discriminate.
  - exact (proj2 (createLinkHandler_spec Sample.window Sample.script_link
                    "javascript:void(0)" eq_refl) eq_refl).
Defined.

(** C7 (as stated) fails. The href [http://] is present and uses no
    script scheme, yet a [URL] constructor that refuses it makes the
    handler reject instead of returning a record; the empty href is
    present and uses no script scheme, yet the link is activated; and
    the href [JavaScript:alert(1)] uses the script scheme, yet the link
    is not activated, whatever the page. *)
Lemma createLinkHandler_href_cases :
  (Element.getAttribute Cases4.hostless_link "href" = Some "http://"
   /\ uses_script_scheme "http://" = false
   /\ createLinkHandler Cases4.strict_window Cases4.hostless_link = ([], Rejected))
  /\ (Element.getAttribute Cases4.empty_link "href" = Some ""
      /\ uses_script_scheme "" = false
      /\ (createLinkHandler Sample.window Cases4.empty_link).1 = [Click])
  /\ (Element.getAttribute Cases4.capital_script_link "href" = Some "JavaScript:alert(1)"
      /\ uses_script_scheme "JavaScript:alert(1)" = true
      /\ forall window, (createLinkHandler window Cases4.capital_script_link).1 = []).
Proof.
  repeat split; try reflexivity.
  intros window. unfold createLinkHandler. cbn.
  destruct (Window.URL window _ _); reflexivity.
Qed.

(** An [href] attribute with an empty value fails the handler's
    truthiness test like a missing one: the link is activated. *)
Example empty_href_is_activated :
  createLinkHandler Sample.window (Sample.element "A" [("href", "")] "Top" [])
  = ([Click], Resolved {| success := true; message := "Link activated";
                          fields := None; url := None; text := None |}).
Proof. reflexivity. Qed.

(** ** The registry map *)

Lemma map_has_false k m : map_has k m = false <-> k ∉ map fst m.
Proof.
  induction m as [|[k' v] m IH]; simpl.
  - split; [intros _ H; inversion H | reflexivity].
  - rewrite orb_false_iff, IH, not_elem_of_cons, String.eqb_neq. tauto.
Qed.

Lemma map_has_get k m : map_has k m = true <-> is_Some (map_get k m).
Proof.
  induction m as [|[k' v] m IH]; simpl.
  - split; [discriminate | intros [x H]; discriminate].
  - destruct (String.eqb k k'); simpl; [split; eauto | exact IH].
Qed.

Lemma map_set_fresh k v m : map_has k m = false -> map_set k v m = (m ++ [(k, v)])%list.
Proof.
  induction m as [|[k' v'] m IH]; simpl; [reflexivity|].
  destruct (String.eqb k k'); simpl; [discriminate|].
  intros H. rewrite (IH H). reflexivity.
Qed.

Lemma map_get_app_l k m m' v :
  map_get k m = Some v -> map_get k (m ++ m')%list = Some v.
Proof.
  induction m as [|[k' v'] m IH]; simpl; [discriminate|].
  destruct (String.eqb k k'); auto.
Qed.

Lemma map_get_app_fresh k m v :
  map_has k m = false -> map_get k (m ++ [(k, v)])%list = Some v.
Proof.
  induction m as [|[k' v'] m IH]; simpl.
  - rewrite String.eqb_refl. reflexivity.
  - destruct (String.eqb k k'); simpl; [discriminate | exact IH].
Qed.

Lemma stored_once k v m :
  NoDup (map fst m) -> map_get k m = Some v ->
  length (filter (fun e : string * Tool.t => e.1 = k) m) = 1.
Proof.
  induction m as [|[k' v'] m IH]; simpl; [discriminate|].
  intros Hnd Hg. apply NoDup_cons in Hnd as [Hnotin Hnd].
  rewrite filter_cons. simpl.
  destruct (String.eqb k k') eqn:Hk.
  - apply String.eqb_eq in Hk. subst k'. rewrite decide_True by reflexivity.
    simpl. f_equal.
    assert (Hnone : filter (fun e : string * Tool.t => e.1 = k) m = []).
    { clear -Hnotin. induction m as [|[k2 v2] m IH]; [reflexivity|].
      simpl in Hnotin. apply not_elem_of_cons in Hnotin as [Hne Hnotin].
      rewrite filter_cons. simpl. rewrite decide_False by congruence.
      apply IH, Hnotin. }
    rewrite Hnone. reflexivity.
  - apply String.eqb_neq in Hk. rewrite decide_False by congruence.
    apply IH; assumption.
Qed.

(** ** Registration *)

Section Registry.

Variable config : Config.t.
Variable host : Host.

Lemma log_frame e st :
  registeredTools (log config e st) = registeredTools st
  /\ toolCount (log config e st) = toolCount st
  /\ notified (log config e st) = notified st
  /\ sink (log config e st) = sink st
  /\ console (log config e st)
     = if Config.debug config then (console st ++ [e])%list else console st.
Proof. unfold log. destruct (Config.debug config); repeat split. Qed.

Lemma forward_frame tool st :
  registeredTools (forward config host tool st) = registeredTools st
  /\ toolCount (forward config host tool st) = toolCount st
  /\ notified (forward config host tool st) = notified st.
Proof.
  unfold forward. destruct (modelContext host) as [mc|]; [|repeat split].
  destruct (registerTool mc) as [throws|]; [|repeat split].
  destruct (throws tool); [|repeat split].
  destruct (log_frame (RegisterFailed (Tool.name tool) s)
              (call_sink (RegisterTool tool) st)) as (-> & -> & -> & _).
  repeat split.
Qed.

Lemma notify_frame tool st :
  registeredTools (notify config tool st) = registeredTools st
  /\ toolCount (notify config tool st) = toolCount st
  /\ notified (notify config tool st)
     = (notified st ++ if Config.onToolRegistered config then [tool] else [])%list.
Proof.
  unfold notify. destruct (Config.onToolRegistered config); repeat split.
  simpl. rewrite app_nil_r. reflexivity.
Qed.

(** The three ways a registration attempt can end. *)
Lemma register_cases tool st :
  let st' := registerWebMCPTool config host tool st in
  ((Config.maxTools config <= toolCount st)%Z
   /\ st' = log config (MaxToolsReached (Config.maxTools config) (Tool.name tool)) st)
  \/ ((toolCount st < Config.maxTools config)%Z
      /\ map_has (Tool.name tool) (registeredTools st) = true
      /\ st' = st)
  \/ ((toolCount st < Config.maxTools config)%Z
      /\ map_has (Tool.name tool) (registeredTools st) = false
      /\ registeredTools st' = (registeredTools st ++ [(Tool.name tool, tool)])%list
      /\ toolCount st' = (toolCount st + 1)%Z
      /\ notified st'
         = (notified st ++ if Config.onToolRegistered config then [tool] else [])%list).
Proof.
  unfold registerWebMCPTool.
  destruct (Z.leb_spec (Config.maxTools config) (toolCount st)) as [Hcap|Hcap];
    [left; auto|].
  destruct (map_has (Tool.name tool) (registeredTools st)) eqn:Hhas;
    [right; left; auto|].
  right; right.
  destruct (log_frame (Registered (Tool.name tool) (Tool.description tool))
              (notify config tool (store tool (forward config host tool st))))
    as (-> & -> & -> & _).
  destruct (notify_frame tool (store tool (forward config host tool st)))
    as (-> & -> & ->).
  destruct (forward_frame tool st) as (Hr & Hc & Hn).
  cbn [store registeredTools toolCount notified]. rewrite Hr, Hc, Hn.
  rewrite (map_set_fresh _ _ _ Hhas). auto.
Qed.

Lemma consistent_initial : consistent initial.
Proof. repeat split; simpl; constructor. Qed.

Lemma consistent_frame st st' :
  registeredTools st' = registeredTools st -> toolCount st' = toolCount st ->
  consistent st -> consistent st'.
Proof. unfold consistent. intros -> ->. auto. Qed.

Lemma register_consistent tool st :
  consistent st -> consistent (registerWebMCPTool config host tool st).
Proof.
  intros Hc.
  destruct (register_cases tool st) as [[_ ->]|[(_ & _ & ->)|(_ & Hf & Hr & Hn & _)]];
    [|exact Hc|].
  - destruct (log_frame (MaxToolsReached (Config.maxTools config) (Tool.name tool)) st)
      as (Hr & Hn & _).
    exact (consistent_frame _ _ Hr Hn Hc).
  - destruct Hc as (Hcount & Hnd & Hkeys). unfold consistent.
    rewrite Hr, Hn, Hcount, length_app, map_app. simpl.
    split; [lia|]. split.
    + apply NoDup_app. split; [exact Hnd|]. split; [|apply NoDup_singleton].
      intros k Hin Hin'. apply list_elem_of_singleton in Hin'. subst k.
      apply map_has_false in Hf. contradiction.
    + apply Forall_app. split; [exact Hkeys|]. repeat constructor.
Qed.

(** A property of states kept by logging, by a name draw and by a
    registration attempt is kept by a whole scan pass. *)
Lemma scan_preserves (P : State -> Prop) :
  (forall e st, P st -> P (log config e st)) ->
  (forall st, P st -> P (draw st)) ->
  (forall tool st, P st -> P (registerWebMCPTool config host tool st)) ->
  forall document st, P st -> P (scan config host document st).
Proof.
  intros Hlog Hdraw Hreg document st HP.
  assert (Hfold : forall (f : State -> Element.t -> State),
             (forall st el, P st -> P (f st el)) ->
             forall l st, P st -> P (fold_left f l st)).
  { intros f Hf l. induction l as [|el l IH]; simpl; auto. }
  assert (Hform : forall st el, P st -> P (scan_form config host st el)).
  { intros s el Hs. unfold scan_form.
    destruct (isExcluded config el); [exact Hs|].
    destruct (JS.truthy_opt _); [exact Hs|].
    destruct (generateToolName _ _ _ _); [|auto].
    destruct (size _ =? 0)%nat; auto. }
  assert (Hbutton : forall st el, P st -> P (scan_button config host st el)).
  { intros s el Hs. unfold scan_button.
    destruct (isExcluded config el); [exact Hs|].
    destruct (Element.closest el "form"); [exact Hs|].
    destruct (_ && _); [exact Hs|].
    destruct (generateToolName _ _ _ _); auto. }
  assert (Hlink : forall st el, P st -> P (scan_link config host st el)).
  { intros s el Hs. unfold scan_link.
    destruct (isExcluded config el); [exact Hs|].
    destruct (_ || _); [exact Hs|].
    destruct (generateToolName _ _ _ _); auto. }
  assert (Hinc : forall st el, P st -> P (scan_included config host st el)).
  { intros s el Hs. unfold scan_included.
    destruct (isExcluded config el); [exact Hs|].
    destruct (generateToolName _ _ _ _); auto. }
  unfold scan. apply Hlog.
  assert (Houter : forall sels s, P s ->
            P (fold_left
                 (fun st0 selector =>
                    fold_left (scan_included config host)
                      (Document.querySelectorAll document selector) st0) sels s)).
  { intros sels. induction sels as [|sel sels IH]; simpl; auto. }
  apply Houter. apply Hfold; [exact Hlink|].
  apply Hfold; [exact Hbutton|]. apply Hfold; [exact Hform|]. auto.
Qed.

Lemma destroy_clears st :
  registeredTools (destroy config host st) = [] /\ toolCount (destroy config host st) = 0%Z.
Proof.
  unfold destroy.
  match goal with |- context [log config Unregistered ?s] =>
    destruct (log_frame Unregistered s) as (-> & -> & _) end.
  split; reflexivity.
Qed.

Lemma stopWatching_frame st :
  registeredTools (stopWatching st) = registeredTools st
  /\ toolCount (stopWatching st) = toolCount st.
Proof. unfold stopWatching. destruct (observer st); split; reflexivity. Qed.

Lemma step_consistent st op : consistent st -> consistent (step config host st op).
Proof.
  intros Hc. destruct op as [tool|document| |]; simpl.
  - apply register_consistent, Hc.
  - apply (scan_preserves consistent); auto.
    + intros e s Hs. destruct (log_frame e s) as (Hr & Hn & _).
      exact (consistent_frame _ _ Hr Hn Hs).
    + intros tool s Hs. apply register_consistent, Hs.
  - destruct (destroy_clears st) as [Hr Hn]. unfold consistent.
    rewrite Hr, Hn. repeat split; constructor.
  - destruct (stopWatching_frame st) as [Hr Hn].
    exact (consistent_frame _ _ Hr Hn Hc).
Qed.

Lemma run_consistent ops st : consistent st -> consistent (run config host ops st).
Proof.
  revert st. induction ops as [|op ops IH]; intros st Hc; simpl; [exact Hc|].
  apply IH, step_consistent, Hc.
Qed.

End Registry.

(** ** Capacity and first-wins registration *)

(** C10. After any sequence of registrations, scan passes and teardown
    operations the counter equals the number of stored descriptors. A
    registration attempt either leaves registry and counter as they are
    (always so at capacity and for a name already stored) or appends one
    descriptor and adds one to the counter; [destroy] empties the registry
    and zeroes the counter. The capacity test therefore compares
    [maxTools] with the current registry size. *)
Theorem toolCount_is_registry_size (config : Config.t) (host : Host) (ops : list Op) :
  let st := run config host ops initial in
  toolCount st = Z.of_nat (length (registeredTools st))
  /\ (forall tool,
        let st' := registerWebMCPTool config host tool st in
        (registeredTools st' = registeredTools st /\ toolCount st' = toolCount st)
        \/ (registeredTools st' = (registeredTools st ++ [(Tool.name tool, tool)])%list
            /\ toolCount st' = (toolCount st + 1)%Z))
  /\ (forall tool,
        (Config.maxTools config <= toolCount st)%Z
        \/ map_has (Tool.name tool) (registeredTools st) = true ->
        registeredTools (registerWebMCPTool config host tool st) = registeredTools st
        /\ toolCount (registerWebMCPTool config host tool st) = toolCount st)
  /\ (registeredTools (destroy config host st) = []
      /\ toolCount (destroy config host st) = 0%Z)
  /\ (Config.maxTools config <=? toolCount st)%Z
     = (Config.maxTools config <=? Z.of_nat (length (registeredTools st)))%Z.
Proof.
  intros st.
  destruct (run_consistent config host ops initial consistent_initial)
    as (Hcount & _ & _).
  fold st in Hcount.
  assert (Hdrop : forall tool,
    (Config.maxTools config <= toolCount st)%Z ->
    registeredTools (registerWebMCPTool config host tool st) = registeredTools st
    /\ toolCount (registerWebMCPTool config host tool st) = toolCount st).
  { intros tool Hcap.
    destruct (register_cases config host tool st)
      as [[_ ->]|[(Hlt & _)|(Hlt & _)]]; [|lia|lia].
    destruct (log_frame config
                (MaxToolsReached (Config.maxTools config) (Tool.name tool)) st)
      as (-> & -> & _). auto. }
  split; [exact Hcount|]. split; [|split; [|split]].
  - intros tool st'. subst st'.
    destruct (register_cases config host tool st)
      as [[Hcap _]|[(_ & _ & ->)|(_ & _ & Hr & Hn & _)]]; auto.
  - intros tool [Hcap|Hhas]; [auto|].
    destruct (register_cases config host tool st)
      as [[Hcap _]|[(_ & _ & ->)|(_ & Hf & _)]]; auto.
    congruence.
  - apply destroy_clears.
  - rewrite Hcount. reflexivity.
Qed.

Lemma run_bounded (config : Config.t) (host : Host) (ops : list Op) st :
  (0 <= Config.maxTools config)%Z ->
  (toolCount st <= Config.maxTools config)%Z ->
  (toolCount (run config host ops st) <= Config.maxTools config)%Z.
Proof.
  intros Hpos. revert st. induction ops as [|op ops IH]; intros st Hb; simpl; [exact Hb|].
  apply IH.
  assert (Hreg : forall tool s,
            (toolCount s <= Config.maxTools config)%Z ->
            (toolCount (registerWebMCPTool config host tool s)
             <= Config.maxTools config)%Z).
  { intros tool s Hs.
    destruct (register_cases config host tool s)
      as [[_ ->]|[(_ & _ & ->)|(Hlt & _ & _ & -> & _)]]; [|exact Hs|lia].
    destruct (log_frame config
                (MaxToolsReached (Config.maxTools config) (Tool.name tool)) s)
      as (_ & -> & _). exact Hs. }
  destruct op as [tool|document| |]; simpl.
  - apply Hreg, Hb.
  - apply (scan_preserves config host
             (fun s => (toolCount s <= Config.maxTools config)%Z)); auto.
    intros e s Hs. destruct (log_frame config e s) as (_ & -> & _). exact Hs.
  - destruct (destroy_clears config host st) as [_ ->]. exact Hpos.
  - destruct (stopWatching_frame st) as [_ ->]. exact Hb.
Qed.

(** C2. With a positive [maxTools], after any sequence of registrations,
    scan passes and teardown operations the registry holds at most
    [maxTools] descriptors; an attempt made at capacity only passes the
    "max tools reached" diagnostic to the logger and leaves the registry,
    the counter, the external sink and the callback untouched. *)
Theorem registry_never_exceeds_maxTools (config : Config.t) (host : Host)
    (ops : list Op) :
  (0 < Config.maxTools config)%Z ->
  let st := run config host ops initial in
  (Z.of_nat (length (registeredTools st)) <= Config.maxTools config)%Z
  /\ forall tool,
       (Config.maxTools config <= Z.of_nat (length (registeredTools st)))%Z ->
       let st' := registerWebMCPTool config host tool st in
       st' = log config (MaxToolsReached (Config.maxTools config) (Tool.name tool)) st
       /\ registeredTools st' = registeredTools st
       /\ toolCount st' = toolCount st
       /\ sink st' = sink st
       /\ notified st' = notified st
       /\ console st'
          = if Config.debug config
            then (console st
                    ++ [MaxToolsReached (Config.maxTools config) (Tool.name tool)])%list
            else console st.
Proof.
  intros Hpos st.
  destruct (run_consistent config host ops initial consistent_initial)
    as (Hcount & _ & _).
  fold st in Hcount.
  pose proof (run_bounded config host ops initial ltac:(lia) ltac:(simpl; lia)) as Hb.
  fold st in Hb. split; [lia|].
  intros tool Hcap st'. subst st'.
  destruct (register_cases config host tool st)
    as [[_ ->]|[(Hlt & _)|(Hlt & _)]]; [|lia|lia].
  destruct (log_frame config
              (MaxToolsReached (Config.maxTools config) (Tool.name tool)) st)
    as (-> & -> & -> & -> & ->). repeat split.
Qed.

Lemma registry_never_exceeds_maxTools_witness :
  let ops := [DoRegister (Sample.click_tool "checkout" "Checkout");
              DoRegister (Sample.click_tool "cart" "Cart");
              DoRegister (Sample.click_tool "help" "Help")] in
  let st := run Sample.small_config Sample.host ops initial in
  (Z.of_nat (length (registeredTools st)) <= 2)%Z
  /\ registeredTools
       (registerWebMCPTool Sample.small_config Sample.host
          (Sample.click_tool "login" "Log in") st)
     = registeredTools st.
Proof.
  intros ops st.
  destruct (registry_never_exceeds_maxTools Sample.small_config Sample.host ops
              ltac:(reflexivity)) as [Hle Hfull].
  split; [exact Hle|].
  exact (proj1 (proj2 (Hfull (Sample.click_tool "login" "Log in")
                         ltac:(vm_compute; discriminate)))).
Defined.

Lemma notifications_app n st l :
  length (filter (fun t => Tool.name t = n) (notified st ++ l)%list)
  = (notifications n st + length (filter (fun t => Tool.name t = n) l))%nat.
Proof. unfold notifications. rewrite filter_app, length_app. reflexivity. Qed.

(** Once a name is stored, no operation short of [destroy] replaces its
    descriptor or notifies the callback for it again. *)
Lemma stored_name_settled (config : Config.t) (host : Host) (n : string)
    (kept : Tool.t) (ops : list Op) (st : State) :
  Forall (fun op => keeps_registry op = true) ops ->
  consistent st ->
  map_get n (registeredTools st) = Some kept ->
  let st' := run config host ops st in
  consistent st'
  /\ map_get n (registeredTools st') = Some kept
  /\ notifications n st' = notifications n st.
Proof.
  set (P := fun c s => consistent s
                       /\ map_get n (registeredTools s) = Some kept
                       /\ notifications n s = c).
  assert (Hlog : forall c e s, P c s -> P c (log config e s)).
  { intros c e s (Hc & Hg & Hn).
    destruct (log_frame config e s) as (Hr & Ht & Hno & _).
    unfold P, notifications. rewrite Hr, Hno.
    split; [exact (consistent_frame _ _ Hr Ht Hc)|]. auto. }
  assert (Hreg : forall c t s, P c s -> P c (registerWebMCPTool config host t s)).
  { intros c t s (Hc & Hg & Hn).
    split; [apply register_consistent, Hc|].
    destruct (register_cases config host t s)
      as [[_ ->]|[(_ & _ & ->)|(_ & Hf & Hr & _ & Hno)]]; [|auto|].
    - apply (Hlog c _ s). split; auto.
    - rewrite Hr. split; [apply map_get_app_l, Hg|].
      assert (Hne : Tool.name t <> n).
      { intros <-.
        assert (Hs : is_Some (map_get (Tool.name t) (registeredTools s))) by eauto.
        apply map_has_get in Hs. congruence. }
      unfold notifications at 1. rewrite Hno, notifications_app.
      destruct (Config.onToolRegistered config); simpl; [|lia].
      rewrite filter_cons, decide_False by exact Hne. simpl. lia. }
  intros Hops. revert st.
  induction ops as [|op ops IH]; intros st Hc Hg; simpl; [auto|].
  apply Forall_cons in Hops as [Hop Hops].
  assert (Hstep : P (notifications n st) (step config host st op)).
  { destruct op as [t|document| |]; simpl.
    - apply Hreg. split; auto.
    - apply (scan_preserves config host (P (notifications n st))); auto.
      split; auto.
    - discriminate.
    - unfold stopWatching. destruct (observer st); split; auto. }
  destruct Hstep as (Hc' & Hg' & Hn').
  destruct (IH Hops _ Hc' Hg') as (H1 & H2 & H3).
  split; [exact H1|]. split; [exact H2|]. fold (run config host ops) in H3. congruence.
Qed.

(** C5. Let a descriptor be submitted under a name that is not stored yet,
    below capacity, and let a second descriptor with the same name be
    submitted later, again below capacity, after any number of other
    submissions and scan passes (no [destroy] in between). Then the second
    attempt changes nothing at all (no diagnostic either), the registry
    holds exactly one descriptor under that name, and it is the first
    one; if a callback is configured, it has been called exactly once for
    that name since the first attempt. *)
Theorem first_registration_wins (config : Config.t) (host : Host) (ops : list Op)
    (first : Tool.t) (between : list Op) (second : Tool.t) :
  let s0 := run config host ops initial in
  let s1 := registerWebMCPTool config host first s0 in
  let s2 := run config host between s1 in
  let s3 := registerWebMCPTool config host second s2 in
  Tool.name second = Tool.name first ->
  Forall (fun op => keeps_registry op = true) between ->
  map_has (Tool.name first) (registeredTools s0) = false ->
  (toolCount s0 < Config.maxTools config)%Z ->
  (toolCount s2 < Config.maxTools config)%Z ->
  s3 = s2
  /\ map_get (Tool.name first) (registeredTools s3) = Some first
  /\ stored_under (Tool.name first) s3 = 1%nat
  /\ (Config.onToolRegistered config = true ->
      notifications (Tool.name first) s3 = S (notifications (Tool.name first) s0)).
Proof.
  intros s0 s1 s2 s3 Hname Hbetween Hfresh Hcap0 Hcap2.
  pose proof (run_consistent config host ops initial consistent_initial) as Hc0.
  fold s0 in Hc0.
  assert (H1 : consistent s1
               /\ map_get (Tool.name first) (registeredTools s1) = Some first
               /\ (Config.onToolRegistered config = true ->
                   notifications (Tool.name first) s1
                   = S (notifications (Tool.name first) s0))).
  { split; [apply register_consistent, Hc0|]. subst s1.
    destruct (register_cases config host first s0)
      as [[Hcap _]|[(_ & Hhas & _)|(_ & _ & Hr & _ & Hn)]]; [lia|congruence|].
    rewrite Hr. split; [apply map_get_app_fresh, Hfresh|].
    intros Hcb. unfold notifications at 1. rewrite Hn, notifications_app, Hcb.
    rewrite filter_cons, decide_True by reflexivity. simpl. lia. }
  destruct H1 as (Hc1 & Hg1 & Hn1).
  destruct (stored_name_settled config host _ first between s1 Hbetween Hc1 Hg1)
    as (Hc2 & Hg2 & Hn2).
  fold s2 in Hc2, Hg2, Hn2.
  assert (H3 : s3 = s2).
  { subst s3.
    destruct (register_cases config host second s2)
      as [[Hcap _]|[(_ & _ & ->)|(_ & Hf & _)]]; [lia|reflexivity|].
    rewrite Hname in Hf.
    assert (Hs : is_Some (map_get (Tool.name first) (registeredTools s2))) by eauto.
    apply map_has_get in Hs. congruence. }
  rewrite H3. split; [reflexivity|]. split; [exact Hg2|]. split.
  - destruct Hc2 as (_ & Hnd & _). exact (stored_once _ _ _ Hnd Hg2).
  - intros Hcb. rewrite Hn2. exact (Hn1 Hcb).
Qed.

Lemma first_registration_wins_witness :
  let first := Sample.click_tool "checkout" "Checkout" in
  let second := Sample.click_tool "checkout" "Pay now" in
  let between := [DoRegister (Sample.click_tool "cart" "Cart");
                  DoScan Sample.listing_page] in
  let s2 :=
    run Sample.notifying_config Sample.host between
      (registerWebMCPTool Sample.notifying_config Sample.host first
         (run Sample.notifying_config Sample.host [] initial)) in
  let s3 := registerWebMCPTool Sample.notifying_config Sample.host second s2 in
  s3 = s2
  /\ map_get "checkout" (registeredTools s3) = Some first
  /\ stored_under "checkout" s3 = 1%nat
  /\ notifications "checkout" s3 = 1%nat.
Proof.
  intros first second between s2 s3.
  destruct (first_registration_wins Sample.notifying_config Sample.host []
              first between second
              eq_refl ltac:(repeat constructor) eq_refl eq_refl eq_refl)
    as (H3 & Hg & Hone & Hcb).
  split; [exact H3|]. split; [exact Hg|]. split; [exact Hone|].
  exact (Hcb eq_refl).
Defined.

(** Two buttons labelled alike end up as one descriptor, announced
    once. *)
Example same_label_buttons :
  let st := scan Sample.notifying_config Sample.host Sample.listing_page initial in
  map fst (registeredTools st) = ["add_to_cart"]
  /\ map Tool.name (notified st) = ["add_to_cart"]
  /\ toolCount st = 1%Z.
Proof. vm_compute. repeat split. Qed.
(** ** Scan phases *)

(** Phase 1 never submits a form whose schema has no property. *)
Lemma scan_form_skips_fieldless (config : Config.t) (host : Host) (st : State)
    (f : Element.t) :
  size (properties (scanForm f)) = 0%nat ->
  registeredTools (scan_form config host st f) = registeredTools st.
Proof.
  intros H. unfold scan_form.
  destruct (isExcluded config f); [reflexivity|].
  destruct (JS.truthy_opt _); [reflexivity|].
  destruct (generateToolName _ _ _ _); [|reflexivity].
  rewrite H. reflexivity.
Qed.

(** C3, at the failing input. The form [Sample.newsletter] has no
    control, so its schema has no property and phase 1 passes it over;
    listed under [include], the same form is registered by phase 4 with
    that empty schema. *)
Theorem scan_registers_fieldless_included_form :
  let st := scan Sample.newsletter_config Sample.host Sample.newsletter_page initial in
  size (properties (scanForm Sample.newsletter)) = 0%nat
  /\ registeredTools
       (fold_left (scan_form Sample.newsletter_config Sample.host)
          (Document.querySelectorAll Sample.newsletter_page "form") initial) = []
  /\ map (fun e => (e.1, size (properties (Tool.inputSchema e.2)), Tool.handler e.2))
       (registeredTools st)
     = [("newsletter", 0%nat, FormHandler Sample.newsletter)].
Proof. vm_compute. repeat split. Qed.

Lemma getTools_shape (st : State) :
  getTools st
  = map (fun e : string * Tool.t =>
           {| Exported.name := Tool.name e.2;
              Exported.description := Tool.description e.2;
              Exported.inputSchema := Tool.inputSchema e.2;
              Exported.annotations := Tool.annotations e.2 |})
      (registeredTools st).
Proof. unfold getTools. rewrite map_map. reflexivity. Qed.

Lemma register_annotated (config : Config.t) (host : Host) (tool : Tool.t) (st : State) :
  is_Some (Tool.annotations tool) ->
  Forall (fun e => is_Some (Tool.annotations e.2)) (registeredTools st) ->
  Forall (fun e => is_Some (Tool.annotations e.2))
    (registeredTools (registerWebMCPTool config host tool st)).
Proof.
  intros Ht Hst.
  destruct (register_cases config host tool st)
    as [[_ ->]|[(_ & _ & ->)|(_ & _ & -> & _)]]; [|exact Hst|].
  - destruct (log_frame config
                (MaxToolsReached (Config.maxTools config) (Tool.name tool)) st)
      as (-> & _). exact Hst.
  - apply Forall_app. split; [exact Hst|]. repeat constructor. exact Ht.
Qed.

(** The three built-in phases attach [annotations] to what they store. *)
Lemma builtin_phases_annotate (config : Config.t) (host : Host)
    (document : Document.t) (st : State) :
  Config.include config = [] ->
  Forall (fun e => is_Some (Tool.annotations e.2)) (registeredTools st) ->
  Forall (fun e => is_Some (Tool.annotations e.2))
    (registeredTools (scan config host document st)).
Proof.
  intros Hinc Hst. unfold scan. rewrite Hinc. cbn [fold_left].
  set (P := fun s : State =>
              Forall (fun e => is_Some (Tool.annotations e.2)) (registeredTools s)).
  assert (Hlog : forall e s, P s -> P (log config e s)).
  { intros e s Hs. unfold P. destruct (log_frame config e s) as (-> & _). exact Hs. }
  assert (Hfold : forall (f : State -> Element.t -> State),
             (forall s el, P s -> P (f s el)) ->
             forall l s, P s -> P (fold_left f l s)).
  { intros f Hf l. induction l as [|el l IH]; simpl; auto. }
  apply Hlog. apply Hfold.
  { intros s el Hs. unfold scan_link.
    destruct (isExcluded config el); [exact Hs|].
    destruct (_ || _); [exact Hs|].
    destruct (generateToolName _ _ _ _); [|exact Hs].
    apply register_annotated; [eexists; reflexivity | exact Hs]. }
  apply Hfold.
  { intros s el Hs. unfold scan_button.
    destruct (isExcluded config el); [exact Hs|].
    destruct (Element.closest el "form"); [exact Hs|].
    destruct (_ && _); [exact Hs|].
    destruct (generateToolName _ _ _ _); [|exact Hs].
    apply register_annotated; [eexists; reflexivity | exact Hs]. }
  apply Hfold.
  { intros s el Hs. unfold scan_form.
    destruct (isExcluded config el); [exact Hs|].
    destruct (JS.truthy_opt _); [exact Hs|].
    destruct (generateToolName _ _ _ _); [|exact Hs].
    destruct (size _ =? 0)%nat; [exact Hs|].
    apply register_annotated; [eexists; reflexivity | exact Hs]. }
  apply Hlog, Hst.
Qed.

(** C9, at the failing input. The element [Sample.refresh] is reached
    through [include] only; the descriptor stored for it has no
    [annotations] key, and [getTools] exports it with [annotations]
    undefined. *)
Theorem scan_stores_included_element_without_annotations :
  let st := scan Sample.action_config Sample.host Sample.refresh_page initial in
  map (fun e => (e.1, Tool.annotations e.2)) (registeredTools st) = [("refresh", None)]
  /\ map (fun t => (Exported.name t, Exported.annotations t)) (getTools st)
     = [("refresh", None)].
Proof. vm_compute. split; reflexivity. Qed.

(** ** Form schema scanner *)

Lemma skipped_iff (i : Control.t) :
  skipped i = true
  <-> (Control.name i = EmptyString /\ Control.id i = EmptyString)
      \/ Control.type i = "hidden" \/ Control.type i = "submit".
Proof.
  unfold skipped, Control.fieldName, JS.or_else.
  rewrite !orb_true_iff, negb_true_iff, !String.eqb_eq.
  destruct (Control.name i) as [|a n] eqn:Hn; simpl.
  - rewrite truthy_empty. intuition congruence.
  - intuition congruence.
Qed.

Lemma number_bounds (form : Element.t) (i : Control.t) :
  Control.type i = "number" \/ Control.type i = "range" ->
  let p := control_property form i in
  prop_type p = "number"
  /\ minimum p = (if JS.truthy (Control.min i)
                  then Some (parseFloat (Control.min i)) else None)
  /\ maximum p = (if JS.truthy (Control.max i)
                  then Some (parseFloat (Control.max i)) else None).
Proof.
  intros Ht. unfold control_property, type_mapping.
  destruct Ht as [-> | ->]; simpl; repeat split.
Qed.

Lemma select_enum (form : Element.t) (i : Control.t) :
  Control.tagName i = "SELECT" ->
  enum (control_property form i)
  = if decide (0 < length (option_values i) <= 20)%nat
    then Some (option_values i) else None.
Proof.
  intros Ht. unfold control_property.
  destruct (type_mapping i) as [[[ty mn] mx] fmt]. cbn [enum].
  rewrite Ht. simpl String.eqb. cbv iota.
  destruct (Nat.ltb_spec 0 (length (option_values i)));
    destruct (Nat.leb_spec (length (option_values i)) 20); simpl;
    case_decide; try reflexivity; lia.
Qed.

Lemma js_set_lookup {V} (key k : string) (v : V) (obj : gmap string V) :
  k <> "__proto__" ->
  is_Some (js_set key v obj !! k) <-> key = k \/ is_Some (obj !! k).
Proof.
  intros Hk. unfold js_set. destruct (String.eqb key "__proto__") eqn:Hp.
  - apply String.eqb_eq in Hp. subst key. intuition congruence.
  - rewrite lookup_insert_is_Some. destruct (decide (key = k)); intuition.
Qed.

(** What the loop of [scanForm] accumulates. *)
Lemma scan_controls_spec (form : Element.t) (l : list Control.t)
    (props : gmap string Property) (req : list string) :
  let acc := fold_left (scan_control form) l (props, req) in
  (forall k, k ∈ acc.2
             <-> k ∈ req
                 \/ exists i, i ∈ l /\ skipped i = false
                              /\ Control.required i = true
                              /\ Control.fieldName i = k)
  /\ (forall k, k <> "__proto__" ->
                (is_Some (acc.1 !! k)
                 <-> is_Some (props !! k)
                     \/ exists i, i ∈ l /\ skipped i = false
                                  /\ Control.fieldName i = k)).
Proof.
  revert props req. induction l as [|i l IH]; intros props req; simpl.
  - split; intros k.
    + split; [auto|]. intros [H|(i & Hi & _)]; [exact H|inversion Hi].
    + intros _. split; [auto|]. intros [H|(i & Hi & _)]; [exact H|inversion Hi].
  - unfold scan_control at 2 4. destruct (skipped i) eqn:Hs.
    + destruct (IH props req) as [Hreq Hprops]. split.
      * intros k. rewrite Hreq. split; intros [H|(j & Hj & Hr)]; auto.
        -- right. exists j. split; [right; exact Hj | exact Hr].
        -- apply elem_of_cons in Hj as [-> | Hj]; [|eauto].
           destruct Hr as [Hr _]. congruence.
      * intros k Hk. rewrite (Hprops k Hk).
        split; intros [H|(j & Hj & Hr)]; auto.
        -- right. exists j. split; [right; exact Hj | exact Hr].
        -- apply elem_of_cons in Hj as [-> | Hj]; [|eauto].
           destruct Hr as [Hr _]. congruence.
    + cbn [fst snd].
      destruct (IH (js_set (Control.fieldName i) (control_property form i) props)
                  (if Control.required i
                   then (req ++ [Control.fieldName i])%list else req))
        as [Hreq Hprops].
      split.
      * intros k. rewrite Hreq. split.
        -- intros [H|(j & Hj & Hr)].
           ++ destruct (Control.required i) eqn:Hri; [|auto].
              apply elem_of_app in H as [H|H]; [auto|].
              apply list_elem_of_singleton in H. subst k.
              right. exists i. split; [left|]. auto.
           ++ right. exists j. split; [right; exact Hj | exact Hr].
        -- intros [H|(j & Hj & Hr)].
           ++ left. destruct (Control.required i); [|exact H].
              apply elem_of_app. auto.
           ++ apply elem_of_cons in Hj as [-> | Hj]; [|eauto].
              destruct Hr as (_ & -> & <-). left. apply elem_of_app.
              right. apply list_elem_of_singleton. reflexivity.
      * intros k Hk. rewrite (Hprops k Hk), (js_set_lookup _ _ _ _ Hk). split.
        -- intros [[H|H]|(j & Hj & Hr)]; auto.
           ++ right. exists i. split; [left|]. auto.
           ++ right. exists j. split; [right; exact Hj | exact Hr].
        -- intros [H|(j & Hj & Hr)]; auto.
           apply elem_of_cons in Hj as [-> | Hj]; [|eauto].
           destruct Hr as [_ <-]. auto.
Qed.

Lemma scanForm_fold (form : Element.t) :
  let acc := fold_left (scan_control form) (Element.controls form) (∅, []) in
  properties (scanForm form) = acc.1 /\ required_names (scanForm form) = acc.2.
Proof.
  unfold scanForm, required_names.
  destruct (fold_left _ _ _) as [props req]. simpl.
  split; [reflexivity|]. destruct req; reflexivity.
Qed.

(** A field is listed as required exactly when a control that is not
    skipped carries that field name and is marked required. *)
Lemma scanForm_required (form : Element.t) (k : string) :
  k ∈ required_names (scanForm form)
  <-> exists i, i ∈ Element.controls form /\ skipped i = false
                /\ Control.required i = true /\ Control.fieldName i = k.
Proof.
  destruct (scanForm_fold form) as [_ ->].
  destruct (scan_controls_spec form (Element.controls form) ∅ []) as [Hreq _].
  rewrite Hreq. split; [|auto]. intros [H|H]; [inversion H | exact H].
Qed.

(** Every required field other than [__proto__] is a key of
    [properties]. *)
Lemma scanForm_required_in_properties (form : Element.t) (k : string) :
  k ∈ required_names (scanForm form) -> k <> "__proto__" ->
  is_Some (properties (scanForm form) !! k).
Proof.
  intros Hin Hk. apply scanForm_required in Hin as (i & Hi & Hs & _ & Hf).
  destruct (scanForm_fold form) as [-> _].
  destruct (scan_controls_spec form (Element.controls form) ∅ []) as [_ Hprops].
  apply (Hprops k Hk). right. eauto.
Qed.

(** The schema the README documents for its search form. *)
Example product_search_schema :
  let schema := scanForm Sample.product_search in
  generateToolName Sample.product_search "" Context.form "k3x9" = Some "product_search"
  /\ generateDescription Sample.product_search Context.form
     = "Submit a form (fields: query, category, maxPrice)"
  /\ size (properties schema) = 3%nat
  /\ properties schema !! "query"
     = Some {| prop_type := "string"; minimum := None; maximum := None;
               format := None; prop_description := Some "Search products...";
               enum := None; prop_pattern := None |}
  /\ properties schema !! "category"
     = Some {| prop_type := "string"; minimum := None; maximum := None;
               format := None; prop_description := None;
               enum := Some ["shoes"; "shirts"; "pants"]; prop_pattern := None |}
  /\ properties schema !! "maxPrice"
     = Some {| prop_type := "number"; minimum := Some (parseFloat "0");
               maximum := Some (parseFloat "1000");
               format := None; prop_description := None;
               enum := None; prop_pattern := None |}
  /\ required schema = Some ["query"].
Proof. vm_compute. repeat split. Qed.

(** C8, at the failing input. The only control of [Sample.settings] is
    a required text field named [__proto__]. It is not skipped and is
    listed in [required], but the assignment [properties[fieldName] =
    prop] creates no own property for that name: [required] is not a
    subset of the keys of [properties], which stays empty. *)
Theorem scanForm_required_outside_properties :
  let schema := scanForm Sample.settings in
  skipped Sample.proto_field = false
  /\ required schema = Some ["__proto__"]
  /\ properties schema !! "__proto__" = None
  /\ size (properties schema) = 0%nat.
Proof. vm_compute. repeat split. Qed.

(** * Further properties *)

(** ** What a scan pass submits *)

Section Submissions.

Variable config : Config.t.
Variable host : Host.

Lemma scan_form_unfold st form :
  scan_form config host st form
  = if isExcluded config form then st
    else if JS.truthy_opt (Element.getAttribute form "toolname") then st
    else match generateToolName form (Config.prefix config) Context.form
                 (random host (draws st)) with
         | None => draw st
         | Some toolName =>
             if (size (properties (scanForm form)) =? 0)%nat then draw st
             else registerWebMCPTool config host (form_descriptor toolName form)
                    (draw st)
         end.
Proof. reflexivity. Qed.

Lemma scan_button_unfold st button :
  scan_button config host st button
  = if isExcluded config button then st
    else if Element.closest button "form" then st
    else if negb (JS.truthy (JS.trim (Element.textContent button)))
            && negb (JS.truthy_opt (Element.getAttribute button "aria-label"))
    then st
    else match generateToolName button (Config.prefix config) Context.button
                 (random host (draws st)) with
         | None => draw st
         | Some toolName =>
             registerWebMCPTool config host (button_descriptor toolName button)
               (draw st)
         end.
Proof. reflexivity. Qed.

Lemma scan_link_unfold st link :
  scan_link config host st link
  = if isExcluded config link then st
    else if negb (JS.truthy (Element.reflected link "href"))
            || String.eqb (Element.reflected link "href") "#"
            || JS.startsWith "javascript:" (Element.reflected link "href")
    then st
    else match generateToolName link (Config.prefix config) Context.link
                 (random host (draws st)) with
         | None => draw st
         | Some toolName =>
             registerWebMCPTool config host (link_descriptor toolName link)
               (draw st)
         end.
Proof. reflexivity. Qed.

Lemma scan_included_unfold st el :
  scan_included config host st el
  = if isExcluded config el then st
    else match generateToolName el (Config.prefix config) (included_context el)
                 (random host (draws st)) with
         | None => draw st
         | Some toolName =>
             registerWebMCPTool config host (included_descriptor toolName el)
               (draw st)
         end.
Proof.
  unfold scan_included, included_descriptor, included_context.
  destruct (isExcluded config el); [reflexivity|].
  destruct (String.eqb (Element.tagName el) "FORM"); reflexivity.
Qed.

(** A property of states kept by logging, by a name draw and by the
    registration of every descriptor a phase can build under its guards
    is kept by a whole scan pass. *)
Lemma scan_submits (P : State -> Prop) (Q : Tool.t -> Prop) :
  (forall e st, P st -> P (log config e st)) ->
  (forall st, P st -> P (draw st)) ->
  (forall tool st, Q tool -> P st -> P (registerWebMCPTool config host tool st)) ->
  (forall form rnd n,
      isExcluded config form = false ->
      JS.truthy_opt (Element.getAttribute form "toolname") = false ->
      generateToolName form (Config.prefix config) Context.form rnd = Some n ->
      size (properties (scanForm form)) <> 0%nat ->
      Q (form_descriptor n form)) ->
  (forall button rnd n,
      isExcluded config button = false ->
      Element.closest button "form" = false ->
      JS.truthy (JS.trim (Element.textContent button)) = true
      \/ JS.truthy_opt (Element.getAttribute button "aria-label") = true ->
      generateToolName button (Config.prefix config) Context.button rnd = Some n ->
      Q (button_descriptor n button)) ->
  (forall link rnd n,
      isExcluded config link = false ->
      JS.truthy (Element.reflected link "href") = true ->
      Element.reflected link "href" <> "#" ->
      JS.startsWith "javascript:" (Element.reflected link "href") = false ->
      generateToolName link (Config.prefix config) Context.link rnd = Some n ->
      Q (link_descriptor n link)) ->
  (Config.include config = []
   \/ forall el rnd n,
        isExcluded config el = false ->
        generateToolName el (Config.prefix config) (included_context el) rnd = Some n ->
        Q (included_descriptor n el)) ->
  forall document st, P st -> P (scan config host document st).
Proof.
  intros Hlog Hdraw Hreg Hform Hbutton Hlink Hinc document st HP.
  assert (Hfold : forall (f : State -> Element.t -> State),
             (forall st el, P st -> P (f st el)) ->
             forall l st, P st -> P (fold_left f l st)).
  { intros f Hf l. induction l as [|el l IH]; simpl; auto. }
  assert (H1 : forall st el, P st -> P (scan_form config host st el)).
  { intros s el Hs. rewrite scan_form_unfold.
    destruct (isExcluded config el) eqn:He; [exact Hs|].
    destruct (JS.truthy_opt _) eqn:Hm; [exact Hs|].
    destruct (generateToolName _ _ _ _) eqn:Hn; [|auto].
    destruct (Nat.eqb_spec (size (properties (scanForm el))) 0); [auto|].
    apply Hreg; [eapply Hform; eauto | auto]. }
  assert (H2 : forall st el, P st -> P (scan_button config host st el)).
  { intros s el Hs. rewrite scan_button_unfold.
    destruct (isExcluded config el) eqn:He; [exact Hs|].
    destruct (Element.closest el "form") eqn:Hc; [exact Hs|].
    destruct (_ && _) eqn:Hl; [exact Hs|].
    destruct (generateToolName _ _ _ _) eqn:Hn; [|auto].
    apply Hreg; [|auto]. eapply Hbutton; eauto.
    apply andb_false_iff in Hl as [Hl|Hl]; apply negb_false_iff in Hl; auto. }
  assert (H3 : forall st el, P st -> P (scan_link config host st el)).
  { intros s el Hs. rewrite scan_link_unfold.
    destruct (isExcluded config el) eqn:He; [exact Hs|].
    destruct (_ || _) eqn:Hh; [exact Hs|].
    destruct (generateToolName _ _ _ _) eqn:Hn; [|auto].
    apply orb_false_iff in Hh as [Hh Hj]. apply orb_false_iff in Hh as [Ht Hhash].
    apply negb_false_iff in Ht. apply String.eqb_neq in Hhash.
    apply Hreg; [eapply Hlink; eauto | auto]. }
  unfold scan. apply Hlog.
  assert (Houter :
    forall s, P s ->
      P (fold_left
           (fun st0 selector =>
              fold_left (scan_included config host)
                (Document.querySelectorAll document selector) st0)
           (Config.include config) s)).
  { destruct Hinc as [-> | Hinc]; [auto|].
    assert (H4 : forall st el, P st -> P (scan_included config host st el)).
    { intros s el Hs. rewrite scan_included_unfold.
      destruct (isExcluded config el) eqn:He; [exact Hs|].
      destruct (generateToolName _ _ _ _) eqn:Hn; [|auto].
      apply Hreg; [eapply Hinc; eauto | auto]. }
    induction (Config.include config) as [|sel sels IH]; simpl; auto. }
  apply Houter. apply Hfold; [exact H3|].
  apply Hfold; [exact H2|]. apply Hfold; [exact H1|]. auto.
Qed.

(** An invariant of the allowed operations holds after any run of
    them. *)
Lemma run_preserves (P : State -> Prop) (allowed : Op -> bool) :
  (forall st op, allowed op = true -> P st -> P (step config host st op)) ->
  forall ops st, Forall (fun op => allowed op = true) ops -> P st ->
                 P (run config host ops st).
Proof.
  intros Hstep ops. induction ops as [|op ops IH]; intros st Hall HP; simpl; [exact HP|].
  apply Forall_cons in Hall as [Hop Hall]. apply IH; auto.
Qed.

End Submissions.

(** ** The registry over time *)

(** X1. Short of [destroy], nothing removes, replaces or reorders a
    stored descriptor: the registry after the operations is the registry
    before them followed by the descriptors added, the counter grows by
    their number, and every name that could be looked up before still
    gives the same descriptor. *)
Theorem registry_only_grows (config : Config.t) (host : Host) (ops : list Op)
    (st : State) :
  Forall (fun op => keeps_registry op = true) ops ->
  exists added,
    registeredTools (run config host ops st) = (registeredTools st ++ added)%list
    /\ toolCount (run config host ops st) = (toolCount st + Z.of_nat (length added))%Z
    /\ forall n tool, map_get n (registeredTools st) = Some tool ->
                      map_get n (registeredTools (run config host ops st)) = Some tool.
Proof.
  intros Hops.
  set (P := fun s => exists added,
              registeredTools s = (registeredTools st ++ added)%list
              /\ toolCount s = (toolCount st + Z.of_nat (length added))%Z).
  assert (Hframe : forall s s', registeredTools s' = registeredTools s ->
                                toolCount s' = toolCount s -> P s -> P s').
  { intros s s' Hr Hc (added & H1 & H2). exists added. rewrite Hr, Hc. auto. }
  assert (Hlog : forall e s, P s -> P (log config e s)).
  { intros e s. destruct (log_frame config e s) as (Hr & Hc & _). eauto. }
  assert (Hreg : forall tool s, P s -> P (registerWebMCPTool config host tool s)).
  { intros tool s Hs.
    destruct (register_cases config host tool s)
      as [[_ ->]|[(_ & _ & ->)|(_ & _ & Hr & Hc & _)]]; [auto|exact Hs|].
    destruct Hs as (added & H1 & H2). exists (added ++ [(Tool.name tool, tool)])%list.
    rewrite Hr, Hc, H1, H2, length_app, <- app_assoc. simpl. split; [reflexivity|lia]. }
  assert (HP : P (run config host ops st)).
  { apply (run_preserves config host P keeps_registry); [|exact Hops|].
    - intros s op Hop Hs. destruct op as [tool|document| |]; simpl.
      + auto.
      + apply (scan_preserves config host P); auto.
      + discriminate.
      + destruct (stopWatching_frame s) as [Hr Hc]. eauto.
    - exists []. rewrite app_nil_r. simpl. split; [reflexivity|lia]. }
  destruct HP as (added & H1 & H2). exists added.
  split; [exact H1|]. split; [exact H2|].
  intros n tool Hg. rewrite H1. apply map_get_app_l, Hg.
Qed.

Lemma registry_only_grows_witness :
  exists added,
    registeredTools (run Sample.small_config Sample.host Cases.session initial)
    = ([] ++ added)%list
    /\ toolCount (run Sample.small_config Sample.host Cases.session initial)
       = (0 + Z.of_nat (length added))%Z.
Proof.
  destruct (registry_only_grows Sample.small_config Sample.host Cases.session initial
              ltac:(repeat constructor)) as (added & H1 & H2 & _).
  exists added. split; [exact H1 | exact H2].
Defined.

(** X2. Whatever happened before, [getTools] and the manifest list one
    entry per stored descriptor, in registration order, under pairwise
    distinct names, and as many entries as the counter says. *)
Theorem getTools_lists_registry (config : Config.t) (host : Host) (ops : list Op)
    (origin now : string) :
  let st := run config host ops initial in
  map Exported.name (getTools st) = map fst (registeredTools st)
  /\ NoDup (map Exported.name (getTools st))
  /\ Z.of_nat (length (getTools st)) = toolCount st
  /\ tools (getToolManifest origin now st) = getTools st.
Proof.
  intros st.
  destruct (run_consistent config host ops initial consistent_initial)
    as (Hcount & Hnd & Hkeys).
  fold st in Hcount, Hnd, Hkeys.
  assert (Hnames : map Exported.name (getTools st) = map fst (registeredTools st)).
  { rewrite getTools_shape, map_map. clear -Hkeys.
    induction (registeredTools st) as [|e l IH]; [reflexivity|].
    apply Forall_cons in Hkeys as [He Hl]. cbn [map]. rewrite He. f_equal.
    exact (IH Hl). }
  split; [exact Hnames|]. split; [rewrite Hnames; exact Hnd|].
  split; [|reflexivity].
  rewrite getTools_shape, length_map. symmetry. exact Hcount.
Qed.

Lemma notify_sink_console (config : Config.t) tool st :
  sink (notify config tool st) = sink st
  /\ console (notify config tool st) = console st.
Proof. unfold notify. destruct (Config.onToolRegistered config); split; reflexivity. Qed.

(** X3. With a callback configured and no [destroy], the descriptors
    handed to [onToolRegistered] are exactly the stored ones, once each
    and in registration order. *)
Theorem callback_mirrors_registry (config : Config.t) (host : Host) (ops : list Op) :
  Config.onToolRegistered config = true ->
  Forall (fun op => keeps_registry op = true) ops ->
  notified (run config host ops initial)
  = map snd (registeredTools (run config host ops initial)).
Proof.
  intros Hcb Hops.
  set (P := fun s => notified s = map snd (registeredTools s)).
  assert (Hlog : forall e s, P s -> P (log config e s)).
  { intros e s Hs. unfold P. destruct (log_frame config e s) as (-> & _ & -> & _).
    exact Hs. }
  assert (Hreg : forall tool s, P s -> P (registerWebMCPTool config host tool s)).
  { intros tool s Hs.
    destruct (register_cases config host tool s)
      as [[_ ->]|[(_ & _ & ->)|(_ & _ & Hr & _ & Hn)]]; [auto|exact Hs|].
    unfold P. rewrite Hr, Hn, Hcb, map_app, Hs. reflexivity. }
  apply (run_preserves config host P keeps_registry); [|exact Hops|reflexivity].
  intros s op Hop Hs. destruct op as [tool|document| |]; simpl.
  - auto.
  - apply (scan_preserves config host P); auto.
  - discriminate.
  - unfold stopWatching. destruct (observer s); exact Hs.
Qed.

Lemma callback_mirrors_registry_witness :
  notified (run Sample.small_config Sample.host Cases.session initial)
  = map snd (registeredTools (run Sample.small_config Sample.host Cases.session initial)).
Proof.
  exact (callback_mirrors_registry Sample.small_config Sample.host Cases.session
           eq_refl ltac:(repeat constructor)).
Defined.

Lemma sink_contents_snoc calls c :
  sink_contents (calls ++ [c])
  = match c with
    | RegisterTool tool => (sink_contents calls ++ [tool])%list
    | ClearTools => []
    end.
Proof. unfold sink_contents. rewrite fold_left_app. reflexivity. Qed.

(** X4. When the page offers a model context with both [registerTool]
    and [clearTools], the calls made on it keep it in step with the
    local registry: at any time the descriptors passed to
    [registerTool] since the last [clearTools] are the stored ones, in
    the same order, whether or not [registerTool] threw. *)
Theorem sink_mirrors_registry (config : Config.t) (host : Host) (mc : ModelContext)
    (throws : Tool.t -> option string) (ops : list Op) :
  modelContext host = Some mc ->
  registerTool mc = Some throws ->
  clearTools mc = true ->
  sink_contents (sink (run config host ops initial))
  = map snd (registeredTools (run config host ops initial)).
Proof.
  intros Hmc Hrt Hct.
  set (P := fun s => sink_contents (sink s) = map snd (registeredTools s)).
  assert (Hlog : forall e s, P s -> P (log config e s)).
  { intros e s Hs. unfold P.
    destruct (log_frame config e s) as (-> & _ & _ & -> & _). exact Hs. }
  assert (Hreg : forall tool s, P s -> P (registerWebMCPTool config host tool s)).
  { intros tool s Hs.
    destruct (register_cases config host tool s)
      as [[_ ->]|[(Hlt & Hhas & ->)|(Hlt & Hhas & Hr & _)]]; [auto|exact Hs|].
    unfold P. rewrite Hr, map_app. simpl. rewrite <- Hs.
    unfold registerWebMCPTool.
    apply Z.leb_gt in Hlt. rewrite Hlt, Hhas.
    match goal with |- context [log config ?e ?s0] =>
      destruct (log_frame config e s0) as (_ & _ & _ & -> & _) end.
    destruct (notify_sink_console config tool
                (store tool (forward config host tool s))) as [-> _].
    cbn [store sink]. unfold forward. rewrite Hmc, Hrt.
    destruct (throws tool) as [message|].
    - match goal with |- context [log config ?e ?s0] =>
        destruct (log_frame config e s0) as (_ & _ & _ & -> & _) end.
      cbn [call_sink sink]. apply sink_contents_snoc.
    - cbn [call_sink sink]. apply sink_contents_snoc. }
  apply (run_preserves config host P (fun _ => true));
    [|apply Forall_forall; reflexivity|reflexivity].
  intros s op _ Hs. destruct op as [tool|document| |]; simpl.
  - auto.
  - apply (scan_preserves config host P); auto.
  - unfold P. destruct (destroy_clears config host s) as [-> _].
    unfold destroy. rewrite Hmc, Hct.
    match goal with |- context [log config ?e ?s0] =>
      destruct (log_frame config e s0) as (_ & _ & _ & -> & _) end.
    cbn [sink]. unfold call_sink. cbn [sink]. apply sink_contents_snoc.
  - unfold stopWatching. destruct (observer s); exact Hs.
Qed.

Lemma sink_mirrors_registry_witness :
  sink_contents (sink (run Sample.small_config Sample.host Cases.scans initial))
  = map snd (registeredTools (run Sample.small_config Sample.host Cases.scans initial)).
Proof.
  exact (sink_mirrors_registry Sample.small_config Sample.host _ _ Cases.scans
           eq_refl eq_refl eq_refl).
Defined.

Lemma log_off (config : Config.t) e st : Config.debug config = false -> log config e st = st.
Proof. intros H. unfold log. rewrite H. reflexivity. Qed.

(** X5. With [debug: false] the instance never writes to the console:
    no diagnostic, no progress line, whatever is registered, scanned or
    torn down and whatever the external sink does. *)
Theorem debug_off_is_silent (config : Config.t) (host : Host) (ops : list Op) :
  Config.debug config = false ->
  console (run config host ops initial) = [].
Proof.
  intros Hd.
  set (P := fun s => console s = []).
  assert (Hlog : forall e s, P s -> P (log config e s)).
  { intros e s Hs. rewrite (log_off config e s Hd). exact Hs. }
  assert (Hreg : forall tool s, P s -> P (registerWebMCPTool config host tool s)).
  { intros tool s Hs. unfold registerWebMCPTool.
    destruct (_ <=? _)%Z; [auto|].
    destruct (map_has _ _); [exact Hs|].
    apply Hlog. unfold P.
    destruct (notify_sink_console config tool
                (store tool (forward config host tool s))) as [_ ->].
    cbn [store console]. unfold forward.
    destruct (modelContext host) as [mc|]; [|exact Hs].
    destruct (registerTool mc) as [throws|]; [|exact Hs].
    destruct (throws tool); [rewrite (log_off _ _ _ Hd)|]; exact Hs. }
  apply (run_preserves config host P (fun _ => true));
    [|apply Forall_forall; reflexivity|reflexivity].
  intros s op _ Hs. destruct op as [tool|document| |]; simpl.
  - auto.
  - apply (scan_preserves config host P); auto.
  - unfold destroy. rewrite (log_off _ _ _ Hd). unfold P. cbn [console].
    destruct (modelContext host) as [mc|];
      [destruct (clearTools mc)|]; cbn [call_sink console];
      unfold stopWatching; destruct (observer s); exact Hs.
  - unfold stopWatching. destruct (observer s); exact Hs.
Qed.

Lemma debug_off_is_silent_witness :
  console (run Cases.silent_config Sample.host Cases.session initial) = [].
Proof.
  exact (debug_off_is_silent Cases.silent_config Sample.host Cases.session eq_refl).
Defined.

(** X6. The capacity is not validated: with [maxTools] zero or negative
    every registration is dropped, so the registry stays empty, the
    callback is never invoked and [getTools] answers the empty list,
    however many elements qualify. *)
Theorem nonpositive_maxTools_registers_nothing (config : Config.t) (host : Host)
    (ops : list Op) :
  (Config.maxTools config <= 0)%Z ->
  let st := run config host ops initial in
  registeredTools st = [] /\ notified st = [] /\ getTools st = [].
Proof.
  intros Hmax st.
  set (P := fun s => registeredTools s = [] /\ toolCount s = 0%Z /\ notified s = []).
  assert (Hlog : forall e s, P s -> P (log config e s)).
  { intros e s Hs. unfold P. destruct (log_frame config e s) as (-> & -> & -> & _).
    exact Hs. }
  assert (Hreg : forall tool s, P s -> P (registerWebMCPTool config host tool s)).
  { intros tool s Hs. pose proof Hs as (_ & Hc & _).
    destruct (register_cases config host tool s)
      as [[_ ->]|[(Hlt & _)|(Hlt & _)]]; [auto|lia|lia]. }
  assert (HP : P st).
  { apply (run_preserves config host P (fun _ => true));
      [|apply Forall_forall; reflexivity|repeat split].
    intros s op _ Hs. destruct op as [tool|document| |]; simpl.
    - auto.
    - apply (scan_preserves config host P); auto.
    - destruct (destroy_clears config host s) as [Hr Hc]. unfold P.
      rewrite Hr, Hc. repeat split. unfold destroy.
      match goal with |- context [log config ?e ?s0] =>
        destruct (log_frame config e s0) as (_ & _ & -> & _) end.
      cbn [notified]. destruct Hs as (_ & _ & Hn).
      destruct (modelContext host) as [mc|];
        [destruct (clearTools mc)|]; cbn [call_sink notified];
        unfold stopWatching; destruct (observer s); exact Hn.
    - unfold stopWatching. destruct (observer s); exact Hs. }
  destruct HP as (Hr & _ & Hn). split; [exact Hr|]. split; [exact Hn|].
  unfold getTools. rewrite Hr. reflexivity.
Qed.

Lemma nonpositive_maxTools_registers_nothing_witness :
  registeredTools (run Cases.closed_config Sample.host Cases.session initial) = []
  /\ notified (run Cases.closed_config Sample.host Cases.session initial) = []
  /\ getTools (run Cases.closed_config Sample.host Cases.session initial) = [].
Proof.
  exact (nonpositive_maxTools_registers_nothing Cases.closed_config Sample.host
           Cases.session ltac:(vm_compute; discriminate)).
Defined.

(** ** What scan passes store *)

Lemma generateToolName_some element prefix context rnd n :
  generateToolName element prefix context rnd = Some n ->
  JS.truthy_opt (Element.getAttribute element "toolname") = false
  /\ JS.truthy n = true.
Proof.
  unfold generateToolName.
  destruct (JS.truthy_opt _); [discriminate|].
  destruct (JS.truthy (JS.join _ _)) eqn:Ht; [|discriminate].
  intros [= <-]. auto.
Qed.

Lemma stored_by_scans (config : Config.t) (host : Host) (Q : Tool.t -> Prop)
    (ops : list Op) :
  (forall form rnd n,
      isExcluded config form = false ->
      JS.truthy_opt (Element.getAttribute form "toolname") = false ->
      generateToolName form (Config.prefix config) Context.form rnd = Some n ->
      size (properties (scanForm form)) <> 0%nat ->
      Q (form_descriptor n form)) ->
  (forall button rnd n,
      isExcluded config button = false ->
      Element.closest button "form" = false ->
      JS.truthy (JS.trim (Element.textContent button)) = true
      \/ JS.truthy_opt (Element.getAttribute button "aria-label") = true ->
      generateToolName button (Config.prefix config) Context.button rnd = Some n ->
      Q (button_descriptor n button)) ->
  (forall link rnd n,
      isExcluded config link = false ->
      JS.truthy (Element.reflected link "href") = true ->
      Element.reflected link "href" <> "#" ->
      JS.startsWith "javascript:" (Element.reflected link "href") = false ->
      generateToolName link (Config.prefix config) Context.link rnd = Some n ->
      Q (link_descriptor n link)) ->
  (Config.include config = []
   \/ forall el rnd n,
        isExcluded config el = false ->
        generateToolName el (Config.prefix config) (included_context el) rnd = Some n ->
        Q (included_descriptor n el)) ->
  Forall (fun op => scan_driven op = true) ops ->
  Forall (fun e => Q e.2) (registeredTools (run config host ops initial)).
Proof.
  intros Hform Hbutton Hlink Hinc Hops.
  set (P := fun s => Forall (fun e : string * Tool.t => Q e.2) (registeredTools s)).
  assert (Hlog : forall e s, P s -> P (log config e s)).
  { intros e s Hs. unfold P. destruct (log_frame config e s) as (-> & _). exact Hs. }
  assert (Hreg : forall tool s, Q tool -> P s ->
                                P (registerWebMCPTool config host tool s)).
  { intros tool s Ht Hs.
    destruct (register_cases config host tool s)
      as [[_ ->]|[(_ & _ & ->)|(_ & _ & Hr & _)]]; [auto|exact Hs|].
    unfold P. rewrite Hr. apply Forall_app. split; [exact Hs|].
    repeat constructor. exact Ht. }
  apply (run_preserves config host P scan_driven); [|exact Hops|constructor].
  intros s op Hop Hs. destruct op as [tool|document| |]; simpl.
  - discriminate.
  - apply (scan_submits config host P Q); auto.
  - unfold P. destruct (destroy_clears config host s) as [-> _]. constructor.
  - unfold stopWatching. destruct (observer s); exact Hs.
Qed.

(** X7. Whatever pages are scanned and however often, every descriptor
    in the registry belongs to an element that matched no exclusion
    selector (itself or through an ancestor) and carried no manual
    [toolname] marker when it was scanned, and its name is not empty. *)
Theorem scans_store_only_admitted_elements (config : Config.t) (host : Host)
    (ops : list Op) :
  Forall (fun op => scan_driven op = true) ops ->
  Forall (fun e => well_scanned config e.2)
    (registeredTools (run config host ops initial)).
Proof.
  apply stored_by_scans.
  - intros form rnd n He Hm Hn _. destruct (generateToolName_some _ _ _ _ _ Hn).
    repeat split; assumption.
  - intros button rnd n He _ _ Hn. destruct (generateToolName_some _ _ _ _ _ Hn).
    repeat split; assumption.
  - intros link rnd n He _ _ _ Hn. destruct (generateToolName_some _ _ _ _ _ Hn).
    repeat split; assumption.
  - right. intros el rnd n He Hn. destruct (generateToolName_some _ _ _ _ _ Hn).
    unfold well_scanned, included_descriptor. cbn [Tool.handler Tool.name].
    destruct (included_context el); repeat split; assumption.
Qed.

Lemma scans_store_only_admitted_elements_witness :
  Forall (fun e => well_scanned Cases.silent_config e.2)
    (registeredTools (run Cases.silent_config Sample.host Cases.scans initial)).
Proof.
  exact (scans_store_only_admitted_elements Cases.silent_config Sample.host Cases.scans
           ltac:(repeat constructor)).
Defined.

Lemma link_not_activated (window : Window.t) (link : Element.t) :
  JS.truthy (Element.reflected link "href") = true ->
  JS.startsWith "javascript:" (Element.reflected link "href") = false ->
  (createLinkHandler window link).1 = [].
Proof.
  unfold createLinkHandler, Element.reflected.
  destruct (Element.getAttribute link "href") as [h|]; [|discriminate].
  intros -> ->. simpl. destruct (Window.URL window _ _); reflexivity.
Qed.

(** X8. A stored descriptor annotated [readOnlyHint: true] keeps its
    promise: among scanned descriptors only navigation links carry that
    annotation, they take no input, and their handler, run on the link
    as it was scanned, performs no activation and raises no event. *)
Theorem read_only_tools_do_nothing (config : Config.t) (host : Host) (ops : list Op) :
  Forall (fun op => scan_driven op = true) ops ->
  Forall (fun e =>
            read_only e.2 = true ->
            exists link,
              Tool.handler e.2 = LinkHandler link
              /\ Tool.inputSchema e.2 = empty_schema
              /\ forall window, (createLinkHandler window link).1 = [])
    (registeredTools (run config host ops initial)).
Proof.
  apply (stored_by_scans config host
           (fun tool => read_only tool = true ->
                        exists link,
                          Tool.handler tool = LinkHandler link
                          /\ Tool.inputSchema tool = empty_schema
                          /\ forall window, (createLinkHandler window link).1 = [])).
  - intros form rnd n _ _ _ _ Hro. discriminate.
  - intros button rnd n _ _ _ _ Hro. discriminate.
  - intros link rnd n _ Ht _ Hj _ _. exists link.
    split; [reflexivity|]. split; [reflexivity|].
    intros window. apply link_not_activated; assumption.
  - right. intros el rnd n _ _ Hro. discriminate.
Qed.

Lemma read_only_tools_do_nothing_witness :
  Forall (fun e =>
            read_only e.2 = true ->
            exists link,
              Tool.handler e.2 = LinkHandler link
              /\ Tool.inputSchema e.2 = empty_schema
              /\ forall window, (createLinkHandler window link).1 = [])
    (registeredTools (run Sample.notifying_config Sample.host Cases.scans initial)).
Proof.
  exact (read_only_tools_do_nothing Sample.notifying_config Sample.host Cases.scans
           ltac:(repeat constructor)).
Defined.

(** X9. Without [include] selectors every stored descriptor comes from
    one of the three built-in phases and has what that phase checks: it
    is annotated; a form tool carries the scanned schema of its form,
    with at least one property; a button tool takes no input, sits
    outside any form and has a text or an [aria-label]; a link tool takes
    no input and its [href] is neither empty, nor [#], nor a text that
    starts with [javascript:] in lower case, which is the test the phase
    makes. *)
Theorem builtin_phases_store_checked_elements (config : Config.t) (host : Host)
    (ops : list Op) :
  Config.include config = [] ->
  Forall (fun op => scan_driven op = true) ops ->
  Forall (fun e => builtin_product e.2)
    (registeredTools (run config host ops initial)).
Proof.
  intros Hinc. apply stored_by_scans; [| | |left; exact Hinc].
  - intros form rnd n _ _ _ Hsize. split; [eexists; reflexivity|].
    cbn. auto.
  - intros button rnd n _ Hc Hl _. split; [eexists; reflexivity|].
    cbn. auto.
  - intros link rnd n _ Ht Hh Hj _. split; [eexists; reflexivity|].
    cbn. auto.
Qed.

Lemma builtin_phases_store_checked_elements_witness :
  Forall (fun e => builtin_product e.2)
    (registeredTools (run Sample.notifying_config Sample.host Cases.scans initial)).
Proof.
  exact (builtin_phases_store_checked_elements Sample.notifying_config Sample.host
           Cases.scans eq_refl ltac:(repeat constructor)).
Defined.

(** ** More on slugs and names *)

Lemma shaped_get b s i c :
  slug_shaped b s = true -> String.get i s = Some c ->
  is_alnum c = true \/ c = "_"%char.
Proof.
  revert b i. induction s as [|a r IH]; intros b i Hs Hg; [discriminate|].
  simpl in Hs. destruct (Ascii.eqb a "_") eqn:Ha.
  - apply andb_true_iff in Hs as [_ Hs]. destruct i as [|i]; simpl in Hg.
    + injection Hg as <-. right. apply Ascii.eqb_eq, Ha.
    + eapply IH; eauto.
  - apply andb_true_iff in Hs as [Hal Hs]. destruct i as [|i]; simpl in Hg.
    + injection Hg as <-. auto.
    + eapply IH; eauto.
Qed.

Lemma shaped_adjacent b s i :
  slug_shaped b s = true -> String.get i s = Some "_"%char ->
  String.get (S i) s <> Some "_"%char.
Proof.
  revert b i. induction s as [|a r IH]; intros b i Hs Hg; [discriminate|].
  simpl in Hs. destruct (Ascii.eqb a "_") eqn:Ha.
  - apply andb_true_iff in Hs as [_ Hs]. destruct i as [|i]; simpl in Hg |- *.
    + destruct r as [|a' r']; [discriminate|]. simpl in Hs |- *.
      destruct (Ascii.eqb a' "_") eqn:Ha'; [discriminate|].
      intros [= ->]. discriminate.
    + eapply IH; eauto.
  - apply andb_true_iff in Hs as [Hal Hs]. destruct i as [|i]; simpl in Hg.
    + injection Hg as ->. discriminate.
    + change (String.get (S (S i)) (String a r)) with (String.get (S i) r).
      eapply IH; eauto.
Qed.

(** X10. A slug has at most 40 characters, all of them from
    [[a-z0-9_]]; it never starts with an underscore and never has two
    underscores in a row. *)
Theorem slugify_output (x : string) :
  String.length (slugify x) <= 40
  /\ (forall i c, String.get i (slugify x) = Some c ->
                  is_alnum c = true \/ c = "_"%char)
  /\ String.get 0 (slugify x) <> Some "_"%char
  /\ (forall i, String.get i (slugify x) = Some "_"%char ->
                String.get (S i) (slugify x) <> Some "_"%char).
Proof.
  pose proof (slugify_shaped x) as Hs.
  split; [apply slugify_length|].
  split; [intros i c; apply (shaped_get _ _ _ _ Hs)|].
  split; [|intros i; apply (shaped_adjacent _ _ _ Hs)].
  destruct (slugify x) as [|a r]; [discriminate|].
  simpl in Hs |- *. destruct (Ascii.eqb a "_") eqn:Ha; [discriminate|].
  intros [= ->]. discriminate.
Qed.

(** X11. The strings [slugify] leaves unchanged are exactly those of at
    most 40 characters over [[a-z0-9_]] with no underscore at either end
    and no two underscores in a row: a name already in slug form passes
    through untouched, and nothing else does. *)
Theorem slugify_fixed_points (s : string) :
  slugify s = s
  <-> slug_shaped true s = true
      /\ ends_with_underscore s = false
      /\ String.length s <= 40.
Proof.
  split.
  - intros Hfix.
    assert (Hs : slug_shaped true s = true) by (rewrite <- Hfix; apply slugify_shaped).
    assert (Hl : String.length s <= 40) by (rewrite <- Hfix; apply slugify_length).
    split; [exact Hs|]. split; [|exact Hl].
    apply drop_final_fixed. rewrite <- (slugify_of_shaped s Hs Hl). exact Hfix.
  - intros (Hs & He & Hl). rewrite (slugify_of_shaped s Hs Hl).
    apply drop_final_fixed, He.
Qed.

Lemma sep_not_alnum c : is_sep c = true -> is_alnum c = false.
Proof.
  intros Hs. destruct (is_alnum c) eqn:Ha; [|reflexivity].
  rewrite (alnum_not_sep c Ha) in Hs. discriminate.
Qed.

Lemma has_alnum_strip s : has_alnum (strip_other s) = has_alnum s.
Proof.
  induction s as [|c r IH]; [reflexivity|]. simpl.
  destruct (is_alnum c) eqn:Ha; simpl; [rewrite Ha; reflexivity|].
  destruct (is_sep c); simpl; [rewrite Ha|]; exact IH.
Qed.

Lemma has_alnum_collapse b s : has_alnum (collapse_runs b s) = has_alnum s.
Proof.
  revert b. induction s as [|c r IH]; intros b; [reflexivity|]. simpl.
  destruct (is_sep c) eqn:Hs.
  - rewrite (sep_not_alnum c Hs). simpl. destruct b; simpl; apply IH.
  - simpl. rewrite IH. reflexivity.
Qed.

Lemma has_alnum_drop_final s : has_alnum (drop_final_underscore s) = has_alnum s.
Proof.
  induction s as [|c r IH]; [reflexivity|]. destruct r as [|c' r'].
  - simpl. destruct (Ascii.eqb c "_") eqn:Hc; [|reflexivity].
    apply Ascii.eqb_eq in Hc. subst c. reflexivity.
  - change (drop_final_underscore (String c (String c' r')))
      with (String c (drop_final_underscore (String c' r'))).
    cbn [has_alnum] in *. rewrite IH. reflexivity.
Qed.

Lemma has_alnum_trim_underscores s : has_alnum (trim_underscores s) = has_alnum s.
Proof.
  unfold trim_underscores. rewrite has_alnum_drop_final.
  destruct s as [|c r]; [reflexivity|].
  destruct (Ascii.eqb c "_") eqn:Hc; [|reflexivity].
  apply Ascii.eqb_eq in Hc. subst c. reflexivity.
Qed.

Lemma shaped_empty_iff s :
  slug_shaped true s = true -> (s = EmptyString <-> has_alnum s = false).
Proof.
  destruct s as [|c r]; simpl; [tauto|].
  destruct (Ascii.eqb c "_"); [discriminate|].
  intros H. apply andb_true_iff in H as [-> _]. simpl. split; discriminate.
Qed.

(** X12. A text slugs to the empty string exactly when, once lowercased,
    it contains no character of [[a-z0-9]]: punctuation, white space and
    non-ASCII letters alone never make a name. *)
Theorem slugify_empty_iff (x : string) :
  slugify x = EmptyString <-> has_alnum (JS.toLowerCase x) = false.
Proof.
  rewrite <- (has_alnum_strip (JS.toLowerCase x)).
  rewrite <- (has_alnum_collapse false (strip_other (JS.toLowerCase x))).
  rewrite <- (has_alnum_trim_underscores
                (collapse_runs false (strip_other (JS.toLowerCase x)))).
  pose proof (trim_underscores_shaped _
                (collapse_runs_shaped false (JS.toLowerCase x))) as Hs.
  rewrite <- (shaped_empty_iff _ Hs).
  unfold slugify, JS.slice.
  destruct (trim_underscores _); simpl; split; congruence.
Qed.

Lemma length_append (a b : string) :
  String.length (a +:+ b) = String.length a + String.length b.
Proof. induction a as [|c a IH]; simpl; [reflexivity|]. rewrite IH. reflexivity. Qed.

Lemma name_part_length (element : Element.t) (context : Context.t) (rnd : string) :
  String.length rnd <= 4 -> String.length (name_part element context rnd) <= 49.
Proof.
  intros Hr. unfold name_part.
  pose proof slugify_length as Hs.
  destruct context;
    repeat match goal with
           | |- context [if ?b then _ else _] => destruct b
           end;
    rewrite ?length_append; simpl String.length;
    try match goal with |- context [slugify ?t] => specialize (Hs t) end; lia.
Qed.

(** X13. A generated tool name is never longer than the prefix plus 50
    characters (the random suffix being the four characters the source
    cuts out, or fewer). *)
Theorem generateToolName_length (element : Element.t) (prefix : string)
    (context : Context.t) (rnd n : string) :
  String.length rnd <= 4 ->
  generateToolName element prefix context rnd = Some n ->
  String.length n <= String.length prefix + 50.
Proof.
  intros Hr. unfold generateToolName.
  destruct (JS.truthy_opt _); [discriminate|].
  pose proof (name_part_length element context rnd Hr) as Hp.
  destruct prefix as [|a p]; cbn [JS.truthy app].
  - rewrite join_single. destruct (JS.truthy _); [|discriminate].
    intros [= <-]. simpl. lia.
  - rewrite join_prefixed. destruct (JS.truthy _); [|discriminate].
    intros [= <-]. rewrite !length_append. simpl String.length. lia.
Qed.

Lemma generateToolName_length_witness :
  String.length "shop_product_search" <= String.length "shop" + 50.
Proof.
  exact (generateToolName_length Sample.product_search "shop" Context.form "k3x9"
           "shop_product_search" ltac:(simpl; lia) eq_refl).
Defined.

Lemma named_stable (element : Element.t) (prefix : string) (context : Context.t)
    (rnd rnd' : string) :
  named element context = true ->
  generateToolName element prefix context rnd
  = generateToolName element prefix context rnd'.
Proof.
  intros Hn. unfold generateToolName.
  assert (Hp : name_part element context rnd = name_part element context rnd').
  { revert Hn. unfold named, name_part.
    destruct context;
      repeat match goal with
             | |- context [JS.truthy ?s] => destruct (JS.truthy s)
             end; simpl; congruence. }
  rewrite Hp. reflexivity.
Qed.

(** X14. When the element offers a naming source for its role (an id,
    name or action for a form; an [aria-label], a text or an id for a
    button; an [aria-label] or a text for a link; a name or id for an
    input), the generated name does not depend on the random draw, so
    every scan gives the element the same name. Otherwise the chosen
    part is a fixed non-empty stem, the same for every draw, followed by
    the random text. *)
Theorem generateToolName_stable (element : Element.t) (prefix : string)
    (context : Context.t) :
  (named element context = true ->
   forall rnd rnd',
     generateToolName element prefix context rnd
     = generateToolName element prefix context rnd')
  /\ (named element context = false ->
      exists stem,
        stem <> EmptyString
        /\ forall rnd, name_part element context rnd = stem +:+ rnd).
Proof.
  split.
  - intros Hn rnd rnd'. apply named_stable, Hn.
  - intros Hn.
    exists (match context with
            | Context.form => "form_"
            | Context.button => "action_"
            | Context.link => "navigate_"
            | Context.input => "set_field_"
            end).
    split; [destruct context; discriminate|].
    intros rnd. revert Hn. unfold named, name_part.
    destruct context;
      repeat match goal with
             | |- context [JS.truthy ?s] => destruct (JS.truthy s)
             end; simpl; try discriminate; reflexivity.
Qed.

(** ** More on the form schema scanner *)

Lemma js_set_lookup_eq {V} (k : string) (v : V) (obj : gmap string V) :
  k <> "__proto__" -> js_set k v obj !! k = Some v.
Proof.
  intros Hk. unfold js_set. apply String.eqb_neq in Hk. rewrite Hk.
  apply lookup_insert_eq.
Qed.

Lemma js_set_lookup_ne {V} (key k : string) (v : V) (obj : gmap string V) :
  key <> k -> js_set key v obj !! k = obj !! k.
Proof.
  intros Hk. unfold js_set. destruct (String.eqb key "__proto__"); [reflexivity|].
  apply lookup_insert_ne, Hk.
Qed.

Lemma js_set_lookup_proto {V} (key : string) (v : V) (obj : gmap string V) :
  js_set key v obj !! "__proto__" = obj !! "__proto__".
Proof.
  unfold js_set. destruct (String.eqb key "__proto__") eqn:Hk; [reflexivity|].
  apply String.eqb_neq in Hk. apply lookup_insert_ne, Hk.
Qed.

Lemma scan_controls_lookup (form : Element.t) (l : list Control.t)
    (props : gmap string Property) (req : list string) (k : string) :
  k <> "__proto__" ->
  (fold_left (scan_control form) l (props, req)).1 !! k
  = match last (filter (contributes k) l) with
    | Some i => Some (control_property form i)
    | None => props !! k
    end.
Proof.
  intros Hk. revert props req. induction l as [|i l IH]; intros props req; [reflexivity|].
  cbn [fold_left]. unfold scan_control at 2. destruct (skipped i) eqn:Hs.
  - rewrite IH, filter_cons, decide_False; [reflexivity|].
    intros [H _]. congruence.
  - cbn [fst snd]. rewrite IH, filter_cons.
    destruct (decide (contributes k i)) as [[_ Hf]|Hn].
    + rewrite last_cons. destruct (last (filter (contributes k) l)); [reflexivity|].
      rewrite Hf. apply js_set_lookup_eq, Hk.
    + destruct (last (filter (contributes k) l)); [reflexivity|].
      apply js_set_lookup_ne. intros Hf. apply Hn. split; assumption.
Qed.

Lemma scan_controls_proto (form : Element.t) (l : list Control.t)
    (props : gmap string Property) (req : list string) :
  (fold_left (scan_control form) l (props, req)).1 !! "__proto__"
  = props !! "__proto__".
Proof.
  revert props req. induction l as [|i l IH]; intros props req; [reflexivity|].
  cbn [fold_left]. unfold scan_control at 2. destruct (skipped i); [apply IH|].
  cbn [fst snd]. rewrite IH. apply js_set_lookup_proto.
Qed.

(** X15. The keys and values of [properties]: under a field name the
    schema holds what the scanner derives from the last control of that
    name that is not skipped, so a later control overrides an earlier
    one of the same name, and a name borne only by skipped controls is
    no key. The name [__proto__] is never a key. *)
Theorem scanForm_properties (form : Element.t) :
  properties (scanForm form) !! "__proto__" = None
  /\ forall k, k <> "__proto__" ->
       properties (scanForm form) !! k
       = control_property form <$> last (filter (contributes k) (Element.controls form)).
Proof.
  destruct (scanForm_fold form) as [-> _]. split.
  - rewrite scan_controls_proto. apply lookup_empty.
  - intros k Hk. rewrite (scan_controls_lookup _ _ _ _ _ Hk).
    destruct (last _); [reflexivity|apply lookup_empty].
Qed.

Lemma scan_controls_required (form : Element.t) (l : list Control.t)
    (props : gmap string Property) (req : list string) :
  (fold_left (scan_control form) l (props, req)).2
  = (req ++ map Control.fieldName (filter demanded l))%list.
Proof.
  revert props req. induction l as [|i l IH]; intros props req.
  - simpl. rewrite app_nil_r. reflexivity.
  - cbn [fold_left]. unfold scan_control at 2. destruct (skipped i) eqn:Hs.
    + rewrite IH, filter_cons, decide_False; [reflexivity|].
      intros [H _]. congruence.
    + cbn [fst snd]. rewrite IH, filter_cons.
      destruct (Control.required i) eqn:Hr.
      * rewrite decide_True by (split; assumption).
        rewrite <- app_assoc. reflexivity.
      * rewrite decide_False; [reflexivity|]. intros [_ H]. congruence.
Qed.

(** X16. [required] lists, in document order and once per control, the
    field names of the controls that are marked required and not
    skipped; the key is absent exactly when there is no such control. *)
Theorem scanForm_required_list (form : Element.t) :
  required_names (scanForm form)
  = map Control.fieldName (filter demanded (Element.controls form))
  /\ (required (scanForm form) = None
      <-> filter demanded (Element.controls form) = []).
Proof.
  assert (Hreq : required_names (scanForm form)
                 = map Control.fieldName (filter demanded (Element.controls form))).
  { destruct (scanForm_fold form) as [_ ->]. apply scan_controls_required. }
  split; [exact Hreq|].
  revert Hreq. unfold required_names, scanForm.
  destruct (fold_left _ _ _) as [props req]. cbn [required].
  destruct req as [|n req]; intros Hreq.
  - split; [|reflexivity]. intros _.
    destruct (filter demanded (Element.controls form)); [reflexivity|discriminate].
  - split; [discriminate|]. intros Hnil. rewrite Hnil in Hreq. discriminate.
Qed.

Lemma option_values_nonempty (i : Control.t) :
  Forall (fun v => v <> EmptyString) (option_values i).
Proof.
  unfold option_values. apply Forall_forall. intros v Hv.
  apply list_elem_of_filter in Hv as [Hv _]. intros ->. discriminate.
Qed.

Lemma control_property_well_formed (form : Element.t) (i : Control.t) :
  let p := control_property form i in
  prop_type p ∈ ["string"; "number"; "boolean"]
  /\ (is_Some (minimum p) \/ is_Some (maximum p) -> prop_type p = "number")
  /\ (is_Some (format p) -> prop_type p = "string")
  /\ (forall vals, enum p = Some vals ->
        Control.tagName i = "SELECT"
        /\ vals = option_values i
        /\ 0 < length vals <= 20)
  /\ prop_pattern p <> Some EmptyString.
Proof.
  unfold control_property, type_mapping.
  split; [|split; [|split; [|split]]].
  - repeat match goal with |- context [if ?b then _ else _] => destruct b end;
      cbn [prop_type]; set_solver.
  - repeat match goal with |- context [String.eqb ?a ?b] => destruct (String.eqb a b) end;
      cbn; intros [[x H]|[x H]]; congruence.
  - repeat match goal with |- context [String.eqb ?a ?b] => destruct (String.eqb a b) end;
      cbn; intros [x H]; congruence.
  - intros vals.
    destruct (if _ || _ then _ else _) as [[[ty mn] mx] fmt]. cbn [enum].
    destruct (String.eqb (Control.tagName i) "SELECT") eqn:Ht; [|discriminate].
    apply String.eqb_eq in Ht.
    destruct (Nat.ltb_spec 0 (length (option_values i)));
      destruct (Nat.leb_spec (length (option_values i)) 20); simpl; try discriminate.
    intros [= <-]. split; [exact Ht|]. split; [reflexivity|lia].
  - destruct (if _ || _ then _ else _) as [[[ty mn] mx] fmt]. cbn [prop_pattern].
    destruct (Control.pattern i); simpl; congruence.
Qed.

(** X17. Every property of a scanned schema is well formed: its type is
    [string], [number] or [boolean]; bounds appear on numbers only and a
    format on strings only; an [enum] has between 1 and 20 values, none
    of them empty; a [pattern] is never the empty string. *)
Theorem scanForm_properties_well_formed (form : Element.t) (k : string) (p : Property) :
  properties (scanForm form) !! k = Some p ->
  prop_type p ∈ ["string"; "number"; "boolean"]
  /\ (is_Some (minimum p) \/ is_Some (maximum p) -> prop_type p = "number")
  /\ (is_Some (format p) -> prop_type p = "string")
  /\ (forall vals, enum p = Some vals ->
        0 < length vals <= 20 /\ Forall (fun v => v <> EmptyString) vals)
  /\ prop_pattern p <> Some EmptyString.
Proof.
  intros Hp. destruct (scanForm_fold form) as [Hprops _]. rewrite Hprops in Hp.
  destruct (decide (k = "__proto__")) as [->|Hk].
  { rewrite scan_controls_proto, lookup_empty in Hp. discriminate. }
  rewrite (scan_controls_lookup _ _ _ _ _ Hk), lookup_empty in Hp.
  destruct (last _) as [i|]; [|discriminate]. injection Hp as <-.
  destruct (control_property_well_formed form i) as (H1 & H2 & H3 & H4 & H5).
  split; [exact H1|]. split; [exact H2|]. split; [exact H3|]. split; [|exact H5].
  intros vals Hv. destruct (H4 vals Hv) as (_ & -> & Hlen).
  split; [exact Hlen|apply option_values_nonempty].
Qed.

Lemma scanForm_properties_well_formed_witness :
  let p := {| prop_type := "number"; minimum := Some (parseFloat "0");
              maximum := Some (parseFloat "1000");
              format := None; prop_description := None;
              enum := None; prop_pattern := None |} in
  prop_type p ∈ ["string"; "number"; "boolean"]
  /\ (is_Some (minimum p) \/ is_Some (maximum p) -> prop_type p = "number")
  /\ (is_Some (format p) -> prop_type p = "string")
  /\ (forall vals, enum p = Some vals ->
        0 < length vals <= 20 /\ Forall (fun v => v <> EmptyString) vals)
  /\ prop_pattern p <> Some EmptyString.
Proof.
  exact (scanForm_properties_well_formed Sample.product_search "maxPrice" _
           ltac:(vm_compute; reflexivity)).
Defined.

(** ** More on the handlers *)

Lemma write_control_again (v : Value.t) (c w : Control.t) :
  write_control v c = Some w ->
  Control.fieldName w = Control.fieldName c /\ write_control v w = Some w.
Proof.
  unfold write_control, refused.
  destruct (String.eqb (Control.type c) "checkbox") eqn:Ht.
  { intros [= <-]. cbn. rewrite Ht. split; reflexivity. }
  destruct (String.eqb (Control.tagName c) "SELECT") eqn:Hs.
  { intros [= <-]. cbn. rewrite Ht, Hs. split; reflexivity. }
  destruct (String.eqb (Control.type c) "file" && negb (Value.empty_text v)) eqn:Hr;
    [discriminate|].
  intros [= <-]. cbn. rewrite Ht, Hs, Hr. split; reflexivity.
Qed.

(** Run again on the controls it left, the fill loop leaves them as
    they are, raises the same events and ends the same way. *)
Lemma fill_replay (input : JSObject.t) (inputs : list Control.t) (k : nat)
    (after : list Control.t) (raised : list Effect) (completed : bool) :
  fill input k inputs = (after, raised, completed) ->
  fill input k after = (after, raised, completed).
Proof.
  revert k after raised completed.
  induction inputs as [|c rest IH]; intros k after raised completed H.
  { cbn in H. injection H as <- <- <-. reflexivity. }
  cbn [fill] in H.
  destruct (addressed input c) eqn:Ha.
  - destruct (write_control (JSObject.get (Control.fieldName c) input) c) as [w|] eqn:Hw.
    + destruct (fill input (S k) rest) as [[rest' raised'] completed'] eqn:Hf.
      injection H as <- <- <-.
      destruct (write_control_again _ _ _ Hw) as [Hn Hw'].
      cbn [fill]. unfold addressed in *. rewrite Hn, Ha, Hw'.
      rewrite (IH _ _ _ _ Hf). reflexivity.
    + injection H as <- <- <-. cbn [fill]. rewrite Ha, Hw. reflexivity.
  - destruct (fill input (S k) rest) as [[rest' raised'] completed'] eqn:Hf.
    injection H as <- <- <-.
    cbn [fill]. rewrite Ha, (IH _ _ _ _ Hf). reflexivity.
Qed.

(** X18. Replaying an input is harmless: run on the form as the first
    run left it, the handler of the same input leaves every control as
    it is, raises the same events and resolves to the same result. *)
Theorem createFormHandler_replay (form : Element.t) (input : JSObject.t) :
  let first := createFormHandler form input in
  let second := createFormHandler (with_controls (controls_after first) form) input in
  controls_after second = controls_after first
  /\ form_effects second = form_effects first
  /\ form_result second = form_result first.
Proof.
  unfold createFormHandler. cbn [with_controls Element.controls].
  destruct (fill input 0 (Element.controls form)) as [[after raised] completed] eqn:Hf.
  cbn [controls_after]. rewrite (fill_replay _ _ _ _ _ _ Hf).
  repeat split.
Qed.

(** X19. The link handler activates the link exactly when the [href] is
    missing, empty or starts with [javascript:], and then resolves to
    the generic success; in every other case it touches nothing. *)
Theorem createLinkHandler_activation (window : Window.t) (link : Element.t) :
  let href := Element.reflected link "href" in
  (createLinkHandler window link).1
  = (if JS.truthy href && negb (JS.startsWith "javascript:" href) then [] else [Click])
  /\ ((createLinkHandler window link).1 = [Click] ->
      (createLinkHandler window link).2
      = Resolved {| success := true; message := "Link activated";
                    fields := None; url := None; text := None |}).
Proof.
  unfold createLinkHandler, Element.reflected.
  destruct (Element.getAttribute link "href") as [h|]; [|split; reflexivity].
  destruct (JS.truthy h && negb (JS.startsWith "javascript:" h)).
  - destruct (Window.URL window h _); split; try reflexivity; discriminate.
  - split; reflexivity.
Qed.

Lemma substring_nonempty (n : nat) (s : string) :
  s <> EmptyString -> substring 0 (S n) s <> EmptyString.
Proof. destruct s; simpl; congruence. Qed.

(** X20. The button handler clicks the button exactly once and resolves
    to a success whose message is [Clicked: ] followed by the first 50
    characters of the trimmed text, or by [button] when the text is
    blank; the message is never longer than 59 characters. *)
Theorem createButtonHandler_spec (button : Element.t) :
  let trimmed := JS.trim (Element.textContent button) in
  (createButtonHandler button).1 = [Click]
  /\ exists r,
       (createButtonHandler button).2 = Resolved r
       /\ success r = true
       /\ String.length (message r) <= 59
       /\ (trimmed = EmptyString -> message r = "Clicked: button")
       /\ (trimmed <> EmptyString -> message r = "Clicked: " +:+ JS.slice 0 50 trimmed).
Proof.
  intros trimmed. split; [reflexivity|]. eexists. split; [reflexivity|].
  cbn [success message]. fold trimmed. unfold JS.or_else.
  split; [reflexivity|]. split; [|split].
  - rewrite length_append. simpl String.length.
    destruct (JS.truthy (JS.slice 0 50 trimmed)); simpl String.length; [|lia].
    pose proof (substring_length 50 trimmed) as Hl.
    unfold JS.slice. simpl Nat.sub. lia.
  - intros ->. reflexivity.
  - intros Hne. pose proof (substring_nonempty 49 trimmed Hne) as Hs.
    unfold JS.slice. simpl Nat.sub.
    destruct (substring 0 50 trimmed); [congruence|reflexivity].
Qed.

(** ** Descriptions *)

(** X21. A description is never empty, whatever the element and the
    role. *)
Theorem generateDescription_nonempty (element : Element.t) (context : Context.t) :
  generateDescription element context <> EmptyString.
Proof.
  assert (H : JS.truthy (generateDescription element context) = true);
    [|intros Heq; rewrite Heq in H; discriminate].
  unfold generateDescription.
  destruct context;
    repeat match goal with
           | |- context [if ?b then _ else _] => destruct b
           | |- context [match ?l with [] => _ | _ :: _ => _ end] => destruct l
           end; reflexivity.
Qed.

(** ** Scanning the same page again *)

Section Rescan.

Variable config : Config.t.
Variable host : Host.

(** [scan_submits] with the guards of each phase read off the elements
    the page actually returns. *)
Lemma scan_submits_on (P : State -> Prop) (Q : Tool.t -> Prop) (document : Document.t) :
  (forall e st, P st -> P (log config e st)) ->
  (forall st, P st -> P (draw st)) ->
  (forall tool st, Q tool -> P st -> P (registerWebMCPTool config host tool st)) ->
  Forall (fun form => forall rnd n,
            isExcluded config form = false ->
            JS.truthy_opt (Element.getAttribute form "toolname") = false ->
            generateToolName form (Config.prefix config) Context.form rnd = Some n ->
            size (properties (scanForm form)) <> 0%nat ->
            Q (form_descriptor n form))
    (Document.querySelectorAll document "form") ->
  Forall (fun button => forall rnd n,
            isExcluded config button = false ->
            Element.closest button "form" = false ->
            JS.truthy (JS.trim (Element.textContent button)) = true
            \/ JS.truthy_opt (Element.getAttribute button "aria-label") = true ->
            generateToolName button (Config.prefix config) Context.button rnd = Some n ->
            Q (button_descriptor n button))
    (Document.querySelectorAll document button_selector) ->
  Forall (fun link => forall rnd n,
            isExcluded config link = false ->
            JS.truthy (Element.reflected link "href") = true ->
            Element.reflected link "href" <> "#" ->
            JS.startsWith "javascript:" (Element.reflected link "href") = false ->
            generateToolName link (Config.prefix config) Context.link rnd = Some n ->
            Q (link_descriptor n link))
    (Document.querySelectorAll document nav_selector) ->
  Forall (fun selector =>
            Forall (fun el => forall rnd n,
                      isExcluded config el = false ->
                      generateToolName el (Config.prefix config) (included_context el) rnd
                      = Some n ->
                      Q (included_descriptor n el))
              (Document.querySelectorAll document selector))
    (Config.include config) ->
  forall st, P st -> P (scan config host document st).
Proof.
  intros Hlog Hdraw Hreg Hform Hbutton Hlink Hinc st HP.
  assert (Hfold : forall (f : State -> Element.t -> State) (G : Element.t -> Prop),
             (forall st el, G el -> P st -> P (f st el)) ->
             forall l, Forall G l -> forall st, P st -> P (fold_left f l st)).
  { intros f G Hf l Hl. induction Hl as [|el l Hel _ IH]; simpl; auto. }
  assert (H1 : forall st, P st ->
                 P (fold_left (scan_form config host)
                      (Document.querySelectorAll document "form") st)).
  { apply (fun H => Hfold _ _ H _ Hform). intros s el Hel Hs. rewrite scan_form_unfold.
    destruct (isExcluded config el) eqn:He; [exact Hs|].
    destruct (JS.truthy_opt _) eqn:Hm; [exact Hs|].
    destruct (generateToolName _ _ _ _) eqn:Hn; [|auto].
    destruct (Nat.eqb_spec (size (properties (scanForm el))) 0); [auto|].
    apply Hreg; [eapply Hel; eauto | auto]. }
  assert (H2 : forall st, P st ->
                 P (fold_left (scan_button config host)
                      (Document.querySelectorAll document button_selector) st)).
  { apply (fun H => Hfold _ _ H _ Hbutton). intros s el Hel Hs. rewrite scan_button_unfold.
    destruct (isExcluded config el) eqn:He; [exact Hs|].
    destruct (Element.closest el "form") eqn:Hc; [exact Hs|].
    destruct (_ && _) eqn:Hl; [exact Hs|].
    destruct (generateToolName _ _ _ _) eqn:Hn; [|auto].
    apply Hreg; [|auto]. eapply Hel; eauto.
    apply andb_false_iff in Hl as [Hl|Hl]; apply negb_false_iff in Hl; auto. }
  assert (H3 : forall st, P st ->
                 P (fold_left (scan_link config host)
                      (Document.querySelectorAll document nav_selector) st)).
  { apply (fun H => Hfold _ _ H _ Hlink). intros s el Hel Hs. rewrite scan_link_unfold.
    destruct (isExcluded config el) eqn:He; [exact Hs|].
    destruct (_ || _) eqn:Hh; [exact Hs|].
    destruct (generateToolName _ _ _ _) eqn:Hn; [|auto].
    apply orb_false_iff in Hh as [Hh Hj]. apply orb_false_iff in Hh as [Ht Hhash].
    apply negb_false_iff in Ht. apply String.eqb_neq in Hhash.
    apply Hreg; [eapply Hel; eauto | auto]. }
  assert (H4 : forall l,
             Forall (fun el => forall rnd n,
                       isExcluded config el = false ->
                       generateToolName el (Config.prefix config)
                         (included_context el) rnd = Some n ->
                       Q (included_descriptor n el)) l ->
             forall st, P st -> P (fold_left (scan_included config host) l st)).
  { apply Hfold. intros s el Hel Hs. rewrite scan_included_unfold.
    destruct (isExcluded config el) eqn:He; [exact Hs|].
    destruct (generateToolName _ _ _ _) eqn:Hn; [|auto].
    apply Hreg; [eapply Hel; eauto | auto]. }
  unfold scan. apply Hlog.
  assert (Houter :
    forall s, P s ->
      P (fold_left
           (fun st0 selector =>
              fold_left (scan_included config host)
                (Document.querySelectorAll document selector) st0)
           (Config.include config) s)).
  { induction Hinc as [|sel sels Hsel _ IH]; simpl; [auto|].
    intros s Hs. apply IH. apply (H4 _ Hsel), Hs. }
  apply Houter, H3, H2, H1, Hlog, HP.
Qed.

End Rescan.

Section Settled.

Variable config : Config.t.
Variable host : Host.

Lemma map_has_app k m a : map_has k (m ++ a)%list = map_has k m || map_has k a.
Proof. unfold map_has. apply existsb_app. Qed.

Lemma settled_grows st st' tool added :
  registeredTools st' = (registeredTools st ++ added)%list ->
  (toolCount st <= toolCount st')%Z ->
  settled config st tool -> settled config st' tool.
Proof.
  intros Hr Hc [Hcap|Hhas]; [left; lia|].
  right. rewrite Hr, map_has_app, Hhas. reflexivity.
Qed.

Lemma register_keeps_settled tool tool' st :
  settled config st tool -> settled config (registerWebMCPTool config host tool' st) tool.
Proof.
  destruct (register_cases config host tool' st)
    as [[_ ->]|[(_ & _ & ->)|(_ & _ & Hr & Hc & _)]]; [|auto|].
  - destruct (log_frame config
                (MaxToolsReached (Config.maxTools config) (Tool.name tool')) st)
      as (Hr & Hc & _).
    apply (settled_grows st _ tool []); [rewrite app_nil_r; exact Hr|lia].
  - apply (settled_grows st _ tool [(Tool.name tool', tool')]); [exact Hr|lia].
Qed.

Lemma register_settles tool st :
  settled config (registerWebMCPTool config host tool st) tool.
Proof.
  destruct (register_cases config host tool st)
    as [[Hcap ->]|[(_ & Hhas & ->)|(_ & _ & Hr & _)]].
  - left. destruct (log_frame config
                      (MaxToolsReached (Config.maxTools config) (Tool.name tool)) st)
      as (_ & -> & _). exact Hcap.
  - right. exact Hhas.
  - right. rewrite Hr, map_has_app. simpl. rewrite String.eqb_refl.
    apply orb_true_iff. right. reflexivity.
Qed.

Lemma log_keeps_settled e tool st :
  settled config st tool -> settled config (log config e st) tool.
Proof.
  unfold settled. destruct (log_frame config e st) as (-> & -> & _). auto.
Qed.

Lemma phases_keep_settled tool st el :
  settled config st tool ->
  settled config (scan_form config host st el) tool
  /\ settled config (scan_button config host st el) tool
  /\ settled config (scan_link config host st el) tool
  /\ settled config (scan_included config host st el) tool.
Proof.
  intros Hs.
  assert (Hd : settled config (draw st) tool) by exact Hs.
  rewrite scan_form_unfold, scan_button_unfold, scan_link_unfold, scan_included_unfold.
  repeat split;
    repeat match goal with
           | |- context [if ?b then _ else _] => destruct b
           | |- context [match ?o with Some _ => _ | None => _ end] => destruct o
           end;
    try assumption; apply register_keeps_settled; assumption.
Qed.

Lemma fold_keeps_settled {A} (f : State -> A -> State) (l : list A) tool :
  (forall st a, settled config st tool -> settled config (f st a) tool) ->
  forall st, settled config st tool -> settled config (fold_left f l st) tool.
Proof. intros Hf. induction l as [|a l IH]; simpl; auto. Qed.

Lemma fold_settles {A} (f : State -> A -> State) (T : A -> Tool.t -> Prop)
    (l : list A) :
  (forall st a tool, settled config st tool -> settled config (f st a) tool) ->
  Forall (fun a => forall st tool, T a tool -> settled config (f st a) tool) l ->
  forall st, Forall (fun a => forall tool, T a tool ->
                                           settled config (fold_left f l st) tool) l.
Proof.
  intros Hmono Hl. induction Hl as [|a l Ha _ IH]; intros st; [constructor|].
  simpl. constructor.
  - intros tool Ht. apply fold_keeps_settled; auto.
  - apply IH.
Qed.

(** After a scan pass over a page with stable names, every descriptor a
    pass over that page can submit is settled. *)
Lemma scan_settles (document : Document.t) (st : State) :
  stable_names config document ->
  let once := scan config host document st in
  Forall (fun form => forall rnd n,
            isExcluded config form = false ->
            JS.truthy_opt (Element.getAttribute form "toolname") = false ->
            generateToolName form (Config.prefix config) Context.form rnd = Some n ->
            size (properties (scanForm form)) <> 0%nat ->
            settled config once (form_descriptor n form))
    (Document.querySelectorAll document "form")
  /\ Forall (fun button => forall rnd n,
               isExcluded config button = false ->
               Element.closest button "form" = false ->
               JS.truthy (JS.trim (Element.textContent button)) = true
               \/ JS.truthy_opt (Element.getAttribute button "aria-label") = true ->
               generateToolName button (Config.prefix config) Context.button rnd
               = Some n ->
               settled config once (button_descriptor n button))
       (Document.querySelectorAll document button_selector)
  /\ Forall (fun link => forall rnd n,
               isExcluded config link = false ->
               JS.truthy (Element.reflected link "href") = true ->
               Element.reflected link "href" <> "#" ->
               JS.startsWith "javascript:" (Element.reflected link "href") = false ->
               generateToolName link (Config.prefix config) Context.link rnd = Some n ->
               settled config once (link_descriptor n link))
       (Document.querySelectorAll document nav_selector)
  /\ Forall (fun selector =>
               Forall (fun el => forall rnd n,
                         isExcluded config el = false ->
                         generateToolName el (Config.prefix config)
                           (included_context el) rnd = Some n ->
                         settled config once (included_descriptor n el))
                 (Document.querySelectorAll document selector))
       (Config.include config).
Proof.
  intros (Hforms & Hlinks & Hincluded) once. subst once. unfold scan.
  set (s0 := log config Scanning st).
  set (s1 := fold_left (scan_form config host)
               (Document.querySelectorAll document "form") s0).
  set (s2 := fold_left (scan_button config host)
               (Document.querySelectorAll document button_selector) s1).
  set (s3 := fold_left (scan_link config host)
               (Document.querySelectorAll document nav_selector) s2).
  set (outer := fun st0 selector =>
                  fold_left (scan_included config host)
                    (Document.querySelectorAll document selector) st0).
  set (s4 := fold_left outer (Config.include config) s3).
  assert (K1 : forall tool s, settled config s tool ->
                 settled config (fold_left (scan_button config host)
                   (Document.querySelectorAll document button_selector) s) tool).
  { intros tool. apply fold_keeps_settled. intros s a Hs.
    apply (phases_keep_settled tool s a Hs). }
  assert (K2 : forall tool s, settled config s tool ->
                 settled config (fold_left (scan_link config host)
                   (Document.querySelectorAll document nav_selector) s) tool).
  { intros tool. apply fold_keeps_settled. intros s a Hs.
    apply (phases_keep_settled tool s a Hs). }
  assert (Kin : forall tool l s, settled config s tool ->
                 settled config (fold_left (scan_included config host) l s) tool).
  { intros tool l. apply fold_keeps_settled. intros s a Hs.
    apply (phases_keep_settled tool s a Hs). }
  assert (K3 : forall tool s, settled config s tool ->
                 settled config (fold_left outer (Config.include config) s) tool).
  { intros tool. apply fold_keeps_settled. intros s sel Hs. apply Kin, Hs. }
  split; [|split; [|split]].
  - pose proof (fold_settles (scan_form config host)
      (fun form tool => exists rnd n,
         isExcluded config form = false
         /\ JS.truthy_opt (Element.getAttribute form "toolname") = false
         /\ generateToolName form (Config.prefix config) Context.form rnd = Some n
         /\ size (properties (scanForm form)) <> 0%nat
         /\ named form Context.form = true
         /\ tool = form_descriptor n form)
      (Document.querySelectorAll document "form")
      (fun s a t Hs => proj1 (phases_keep_settled t s a Hs))) as H.
    assert (Hstep : Forall (fun a => forall st0 tool,
              (exists rnd n,
                 isExcluded config a = false
                 /\ JS.truthy_opt (Element.getAttribute a "toolname") = false
                 /\ generateToolName a (Config.prefix config) Context.form rnd = Some n
                 /\ size (properties (scanForm a)) <> 0%nat
                 /\ named a Context.form = true
                 /\ tool = form_descriptor n a) ->
              settled config (scan_form config host st0 a) tool)
            (Document.querySelectorAll document "form")).
    { apply Forall_forall. intros form _ s tool (rnd & n & He & Hm & Hn & Hsz & Hnm & ->).
      rewrite scan_form_unfold, He, Hm.
      rewrite (named_stable form _ _ _ rnd Hnm), Hn.
      destruct (Nat.eqb_spec (size (properties (scanForm form))) 0); [contradiction|].
      apply register_settles. }
    specialize (H Hstep s0). fold s1 in H.
    assert (Hboth := conj Hforms H). apply Forall_and in Hboth.
    eapply Forall_impl; [exact Hboth|].
    intros form [Hnm Hdone] rnd n He Hm Hn Hsz. cbn beta in Hdone.
    apply log_keeps_settled, K3, K2, K1. apply Hdone.
    exists rnd, n. repeat split; assumption.
  - pose proof (fold_settles (scan_button config host)
      (fun button tool => exists rnd n,
         isExcluded config button = false
         /\ Element.closest button "form" = false
         /\ (JS.truthy (JS.trim (Element.textContent button)) = true
             \/ JS.truthy_opt (Element.getAttribute button "aria-label") = true)
         /\ generateToolName button (Config.prefix config) Context.button rnd = Some n
         /\ tool = button_descriptor n button)
      (Document.querySelectorAll document button_selector)
      (fun s a t Hs => proj1 (proj2 (phases_keep_settled t s a Hs)))) as H.
    assert (Hstep : Forall (fun a => forall st0 tool,
              (exists rnd n,
                 isExcluded config a = false
                 /\ Element.closest a "form" = false
                 /\ (JS.truthy (JS.trim (Element.textContent a)) = true
                     \/ JS.truthy_opt (Element.getAttribute a "aria-label") = true)
                 /\ generateToolName a (Config.prefix config) Context.button rnd = Some n
                 /\ tool = button_descriptor n a) ->
              settled config (scan_button config host st0 a) tool)
            (Document.querySelectorAll document button_selector)).
    { apply Forall_forall. intros button _ s tool (rnd & n & He & Hc & Hl & Hn & ->).
      rewrite scan_button_unfold, He, Hc.
      assert (Hnm : named button Context.button = true).
      { unfold named, Element.reflected. destruct Hl as [Hl|Hl].
        - assert (Ht : JS.truthy (JS.slice 0 30 (JS.trim (Element.textContent button)))
                       = true).
          { destruct (JS.trim (Element.textContent button)); [discriminate|reflexivity]. }
          rewrite Ht. apply orb_true_iff. left. apply orb_true_iff. right. reflexivity.
        - destruct (Element.getAttribute button "aria-label"); [|discriminate].
          simpl in Hl. rewrite Hl. reflexivity. }
      assert (Hg : negb (JS.truthy (JS.trim (Element.textContent button)))
                   && negb (JS.truthy_opt (Element.getAttribute button "aria-label"))
                   = false).
      { destruct Hl as [-> | ->]; [reflexivity|apply andb_false_r]. }
      rewrite Hg, (named_stable button _ _ _ rnd Hnm), Hn.
      apply register_settles. }
    specialize (H Hstep s1). fold s2 in H.
    eapply Forall_impl; [exact H|].
    intros button Hdone rnd n He Hc Hl Hn. cbn beta in Hdone.
    apply log_keeps_settled, K3, K2. apply Hdone.
    exists rnd, n. repeat split; assumption.
  - pose proof (fold_settles (scan_link config host)
      (fun link tool => exists rnd n,
         isExcluded config link = false
         /\ JS.truthy (Element.reflected link "href") = true
         /\ Element.reflected link "href" <> "#"
         /\ JS.startsWith "javascript:" (Element.reflected link "href") = false
         /\ generateToolName link (Config.prefix config) Context.link rnd = Some n
         /\ named link Context.link = true
         /\ tool = link_descriptor n link)
      (Document.querySelectorAll document nav_selector)
      (fun s a t Hs => proj1 (proj2 (proj2 (phases_keep_settled t s a Hs))))) as H.
    assert (Hstep : Forall (fun a => forall st0 tool,
              (exists rnd n,
                 isExcluded config a = false
                 /\ JS.truthy (Element.reflected a "href") = true
                 /\ Element.reflected a "href" <> "#"
                 /\ JS.startsWith "javascript:" (Element.reflected a "href") = false
                 /\ generateToolName a (Config.prefix config) Context.link rnd = Some n
                 /\ named a Context.link = true
                 /\ tool = link_descriptor n a) ->
              settled config (scan_link config host st0 a) tool)
            (Document.querySelectorAll document nav_selector)).
    { apply Forall_forall.
      intros link _ s tool (rnd & n & He & Ht & Hh & Hj & Hn & Hnm & ->).
      rewrite scan_link_unfold, He, Ht, Hj.
      apply String.eqb_neq in Hh. rewrite Hh. cbn [negb orb].
      rewrite (named_stable link _ _ _ rnd Hnm), Hn.
      apply register_settles. }
    specialize (H Hstep s2). fold s3 in H.
    assert (Hboth := conj Hlinks H). apply Forall_and in Hboth.
    eapply Forall_impl; [exact Hboth|].
    intros link [Hnm Hdone] rnd n He Ht Hh Hj Hn. cbn beta in Hdone.
    apply log_keeps_settled, K3. apply Hdone.
    exists rnd, n. repeat split; assumption.
  - assert (Hinner : forall l,
      Forall (fun el => named el (included_context el) = true) l ->
      forall s, Forall (fun el => forall rnd n,
                  isExcluded config el = false ->
                  generateToolName el (Config.prefix config)
                    (included_context el) rnd = Some n ->
                  settled config (fold_left (scan_included config host) l s)
                    (included_descriptor n el)) l).
    { intros l Hl s.
      pose proof (fold_settles (scan_included config host)
        (fun el tool => exists rnd n,
           isExcluded config el = false
           /\ generateToolName el (Config.prefix config)
                (included_context el) rnd = Some n
           /\ named el (included_context el) = true
           /\ tool = included_descriptor n el) l
        (fun s' a t Hs => proj2 (proj2 (proj2 (phases_keep_settled t s' a Hs))))) as H.
      assert (Hstep : Forall (fun a => forall st0 tool,
                (exists rnd n,
                   isExcluded config a = false
                   /\ generateToolName a (Config.prefix config)
                        (included_context a) rnd = Some n
                   /\ named a (included_context a) = true
                   /\ tool = included_descriptor n a) ->
                settled config (scan_included config host st0 a) tool) l).
      { apply Forall_forall. intros el _ s' tool (rnd & n & He & Hn & Hnm & ->).
        rewrite scan_included_unfold, He.
        rewrite (named_stable el _ _ _ rnd Hnm), Hn.
        apply register_settles. }
      specialize (H Hstep s).
      assert (Hboth := conj Hl H). apply Forall_and in Hboth.
      eapply Forall_impl; [exact Hboth|].
      intros el [Hnm Hdone] rnd n He Hn. cbn beta in Hdone.
      apply Hdone. exists rnd, n. repeat split; assumption. }
    pose proof (fold_settles outer
      (fun selector tool => exists el rnd n,
         el ∈ Document.querySelectorAll document selector
         /\ isExcluded config el = false
         /\ generateToolName el (Config.prefix config)
              (included_context el) rnd = Some n
         /\ tool = included_descriptor n el)
      (Config.include config)
      (fun s a t Hs => Kin t _ s Hs)) as H.
    assert (Hstep : Forall (fun a => forall st0 tool,
              (exists el rnd n,
                 el ∈ Document.querySelectorAll document a
                 /\ isExcluded config el = false
                 /\ generateToolName el (Config.prefix config)
                      (included_context el) rnd = Some n
                 /\ tool = included_descriptor n el) ->
              settled config (outer st0 a) tool)
            (Config.include config)).
    { apply Forall_forall.
      intros selector Hsel s tool (el & rnd & n & Hin & He & Hn & ->).
      assert (Hnamed : Forall (fun el => named el (included_context el) = true)
                         (Document.querySelectorAll document selector)).
      { eapply Forall_forall in Hincluded; [exact Hincluded|]. exact Hsel. }
      pose proof (Hinner _ Hnamed s) as Hall.
      eapply Forall_forall in Hall; [|exact Hin]. eapply Hall; eauto. }
    specialize (H Hstep s3). fold s4 in H.
    eapply Forall_impl; [exact H|].
    intros selector Hdone. cbn beta in Hdone.
    apply Forall_forall. intros el Hin rnd n He Hn.
    apply log_keeps_settled. apply Hdone. exists el, rnd, n. auto.
Qed.

End Settled.

(** X22. Scanning an unchanged page a second time changes nothing but
    the console, provided every form, navigation link and included
    element has a naming source (so that no name comes from the random
    fallback): registry, counter, callback invocations and sink calls
    are as the first pass left them, whether or not the capacity was
    reached. *)
Theorem rescan_adds_nothing (config : Config.t) (host : Host)
    (document : Document.t) (st : State) :
  stable_names config document ->
  let once := scan config host document st in
  let twice := scan config host document once in
  registeredTools twice = registeredTools once
  /\ toolCount twice = toolCount once
  /\ notified twice = notified once
  /\ sink twice = sink once.
Proof.
  intros Hstable once twice.
  destruct (scan_settles config host document st Hstable) as (H1 & H2 & H3 & H4).
  fold once in H1, H2, H3, H4.
  set (P := fun s => registeredTools s = registeredTools once
                     /\ toolCount s = toolCount once
                     /\ notified s = notified once
                     /\ sink s = sink once).
  apply (scan_submits_on config host P (settled config once) document);
    try assumption; [| | |repeat split].
  - intros e s Hs. unfold P.
    destruct (log_frame config e s) as (-> & -> & -> & -> & _). exact Hs.
  - intros s Hs. exact Hs.
  - intros tool s Hset (Hr & Hc & Hn & Hk).
    destruct (register_cases config host tool s)
      as [[_ ->]|[(_ & _ & ->)|(Hlt & Hf & _)]].
    + unfold P. destruct (log_frame config
                  (MaxToolsReached (Config.maxTools config) (Tool.name tool)) s)
        as (-> & -> & -> & -> & _). auto.
    + unfold P. auto.
    + exfalso. destruct Hset as [Hcap|Hhas]; [lia|]. congruence.
Qed.

Lemma rescan_adds_nothing_witness :
  let once := scan Sample.small_config Sample.host Cases.shop_page initial in
  let twice := scan Sample.small_config Sample.host Cases.shop_page once in
  registeredTools twice = registeredTools once
  /\ toolCount twice = toolCount once
  /\ notified twice = notified once
  /\ sink twice = sink once.
Proof.
  apply (rescan_adds_nothing Sample.small_config Sample.host Cases.shop_page initial).
  repeat split; repeat constructor.
Defined.

(** ** The debounced observer *)

Lemma last_after (later : list nat) (now previous : nat) :
  List.last (now :: later) previous = List.last later now.
Proof.
  revert now previous. induction later as [|n later IH]; intros now previous;
    [reflexivity|].
  change (List.last (now :: n :: later) previous) with (List.last (n :: later) previous).
  rewrite !(IH n). reflexivity.
Qed.

Lemma burst_keeps_pending (later : list nat) (previous : nat) (w : Watcher.t) :
  Watcher.connected w = true ->
  Watcher.debounceTimer w = Some (previous + Watcher.delay) ->
  Watcher.close previous later ->
  let w' := Watcher.run (Watcher.burst later) w in
  Watcher.connected w' = true
  /\ Watcher.debounceTimer w' = Some (List.last later previous + Watcher.delay)
  /\ Watcher.rescans w' = Watcher.rescans w.
Proof.
  revert previous w. induction later as [|now later IH]; intros previous w Hc Ht Hclose.
  - simpl. auto.
  - destruct Hclose as [[Hle Hlt] Hclose].
    change (Watcher.run (Watcher.burst (now :: later)) w)
      with (Watcher.run (Watcher.burst later)
              (Watcher.react (Watcher.react w (Watcher.Reached now))
                 (Watcher.Mutated now))).
    assert (Hquiet : Watcher.react w (Watcher.Reached now) = w).
    { unfold Watcher.react. rewrite Ht.
      destruct (Nat.leb_spec (previous + Watcher.delay) now); [lia|reflexivity]. }
    rewrite Hquiet. unfold Watcher.react at 1. rewrite Hc.
    destruct (IH now {| Watcher.connected := true;
                        Watcher.debounceTimer := Some (now + Watcher.delay);
                        Watcher.rescans := Watcher.rescans w |}
                eq_refl eq_refl Hclose) as (H1 & H2 & H3).
    split; [exact H1|]. split; [|exact H3].
    rewrite H2, last_after. reflexivity.
Qed.

(** X23. Debounce: however many mutations arrive, each less than the
    delay after the previous one, they cause a single re-scan, due one
    delay after the last of them; no re-scan runs during the burst and
    no timeout is left pending afterwards. *)
Theorem burst_causes_one_rescan (first : nat) (later : list nat) (finally : nat)
    (w : Watcher.t) :
  Watcher.connected w = true ->
  Watcher.debounceTimer w = None ->
  Watcher.close first later ->
  List.last later first + Watcher.delay <= finally ->
  let during := Watcher.run (Watcher.burst (first :: later)) w in
  let after := Watcher.react during (Watcher.Reached finally) in
  Watcher.rescans during = Watcher.rescans w
  /\ Watcher.rescans after
     = (Watcher.rescans w ++ [List.last later first + Watcher.delay])%list
  /\ Watcher.debounceTimer after = None.
Proof.
  intros Hc Ht Hclose Hfinal during after.
  assert (Hduring : Watcher.connected during = true
                    /\ Watcher.debounceTimer during
                       = Some (List.last later first + Watcher.delay)
                    /\ Watcher.rescans during = Watcher.rescans w).
  { subst during.
    change (Watcher.run (Watcher.burst (first :: later)) w)
      with (Watcher.run (Watcher.burst later)
              (Watcher.react (Watcher.react w (Watcher.Reached first))
                 (Watcher.Mutated first))).
    assert (Hquiet : Watcher.react w (Watcher.Reached first) = w).
    { unfold Watcher.react. rewrite Ht. reflexivity. }
    rewrite Hquiet.
    assert (Hm : Watcher.react w (Watcher.Mutated first)
                 = {| Watcher.connected := true;
                      Watcher.debounceTimer := Some (first + Watcher.delay);
                      Watcher.rescans := Watcher.rescans w |}).
    { unfold Watcher.react. rewrite Hc. reflexivity. }
    rewrite Hm.
    exact (burst_keeps_pending later first
             {| Watcher.connected := true;
                Watcher.debounceTimer := Some (first + Watcher.delay);
                Watcher.rescans := Watcher.rescans w |}
             eq_refl eq_refl Hclose). }
  destruct Hduring as (_ & Hpending & Hnone).
  split; [exact Hnone|]. subst after. unfold Watcher.react. rewrite Hpending.
  destruct (Nat.leb_spec (List.last later first + Watcher.delay) finally); [|lia].
  cbn [Watcher.rescans Watcher.debounceTimer]. rewrite Hnone. auto.
Qed.

Lemma burst_causes_one_rescan_witness :
  Watcher.rescans
    (Watcher.react
       (Watcher.run (Watcher.burst [0; 300; 1200]) Watcher.watching)
       (Watcher.Reached 5000))
  = ([] ++ [2200])%list.
Proof.
  exact (proj1 (proj2 (burst_causes_one_rescan 0 [300; 1200] 5000 Watcher.watching
                         eq_refl eq_refl
                         ltac:(unfold Watcher.close, Watcher.delay; lia)
                         ltac:(unfold Watcher.delay; simpl; lia)))).
Defined.

(** X24. Disconnecting the observer (as [stopWatching] and [destroy] do)
    stops later mutations from scheduling anything, but does not cancel a
    timeout that is already pending: its re-scan still runs when the
    deadline is reached. *)
Theorem disconnect_keeps_pending_rescan (w : Watcher.t) (deadline : nat)
    (mutations : list nat) (finally : nat) :
  Watcher.debounceTimer w = Some deadline ->
  deadline <= finally ->
  let stopped := Watcher.react w Watcher.Disconnected in
  let later := Watcher.run (map Watcher.Mutated mutations) stopped in
  later = stopped
  /\ Watcher.rescans (Watcher.react later (Watcher.Reached finally))
     = (Watcher.rescans w ++ [deadline])%list.
Proof.
  intros Ht Hle stopped later.
  assert (Hignored : later = stopped).
  { subst later. induction mutations as [|now mutations IH]; [reflexivity|].
    simpl. exact IH. }
  split; [exact Hignored|]. rewrite Hignored. subst stopped.
  unfold Watcher.react. cbn [Watcher.debounceTimer]. rewrite Ht.
  destruct (Nat.leb_spec deadline finally); [reflexivity|lia].
Qed.

Lemma disconnect_keeps_pending_rescan_witness :
  let w := Watcher.react Watcher.watching (Watcher.Mutated 100) in
  let stopped := Watcher.react w Watcher.Disconnected in
  Watcher.run (map Watcher.Mutated [200; 400]) stopped = stopped
  /\ Watcher.rescans
       (Watcher.react (Watcher.run (map Watcher.Mutated [200; 400]) stopped)
          (Watcher.Reached 1500))
     = ([] ++ [1100])%list.
Proof.
  exact (disconnect_keeps_pending_rescan
           (Watcher.react Watcher.watching (Watcher.Mutated 100)) 1100 [200; 400] 1500
           eq_refl ltac:(lia)).
Defined.

(** ** The external sink has no say *)

Section Degraded.

Variable config : Config.t.
Variables host host' : Host.
Hypothesis same_random : forall i, random host i = random host' i.

Lemma log_bookkeeping (h : Host) e st :
  draws (log config e st) = draws st /\ observer (log config e st) = observer st.
Proof. unfold log. destruct (Config.debug config); split; reflexivity. Qed.

Lemma register_bookkeeping (h : Host) tool st :
  draws (registerWebMCPTool config h tool st) = draws st
  /\ observer (registerWebMCPTool config h tool st) = observer st.
Proof.
  unfold registerWebMCPTool, log, notify, forward, log.
  destruct (_ <=? _)%Z; [destruct (Config.debug config); split; reflexivity|].
  destruct (map_has _ _); [split; reflexivity|].
  destruct (Config.debug config), (Config.onToolRegistered config),
    (modelContext h) as [mc|];
    try destruct (registerTool mc) as [throws|];
    try destruct (throws tool); split; reflexivity.
Qed.

Lemma log_related e e' st st' :
  same_bookkeeping st st' ->
  same_bookkeeping (log config e st) (log config e' st').
Proof.
  intros (Hr & Hc & Hn & Hd & Ho). unfold same_bookkeeping.
  destruct (log_frame config e st) as (-> & -> & -> & _).
  destruct (log_frame config e' st') as (-> & -> & -> & _).
  destruct (log_bookkeeping host e st) as [-> ->].
  destruct (log_bookkeeping host e' st') as [-> ->]. auto.
Qed.

Lemma register_related tool st st' :
  same_bookkeeping st st' ->
  same_bookkeeping (registerWebMCPTool config host tool st)
    (registerWebMCPTool config host' tool st').
Proof.
  intros (Hr & Hc & Hn & Hd & Ho). unfold same_bookkeeping.
  destruct (register_bookkeeping host tool st) as [-> ->].
  destruct (register_bookkeeping host' tool st') as [-> ->].
  destruct (register_cases config host tool st)
    as [[Hcap ->]|[(Hlt & Hhas & ->)|(Hlt & Hf & H1 & H2 & H3)]];
    destruct (register_cases config host' tool st')
      as [[Hcap' ->]|[(Hlt' & Hhas' & ->)|(Hlt' & Hf' & H1' & H2' & H3')]];
    try lia; try congruence.
  - destruct (log_frame config
                (MaxToolsReached (Config.maxTools config) (Tool.name tool)) st)
      as (-> & -> & -> & _).
    destruct (log_frame config
                (MaxToolsReached (Config.maxTools config) (Tool.name tool)) st')
      as (-> & -> & -> & _). auto.
  - auto.
  - rewrite H1, H2, H3, H1', H2', H3', Hr, Hc, Hn. auto.
Qed.

Lemma draw_related st st' :
  same_bookkeeping st st' -> same_bookkeeping (draw st) (draw st').
Proof.
  intros (Hr & Hc & Hn & Hd & Ho). unfold same_bookkeeping. cbn. rewrite Hd. auto.
Qed.

Lemma fold_related {A} (f g : State -> A -> State) (l : list A) :
  (forall st st' a, same_bookkeeping st st' -> same_bookkeeping (f st a) (g st' a)) ->
  forall st st', same_bookkeeping st st' ->
                 same_bookkeeping (fold_left f l st) (fold_left g l st').
Proof. intros Hfg. induction l as [|a l IH]; simpl; auto. Qed.

Lemma scan_related document st st' :
  same_bookkeeping st st' ->
  same_bookkeeping (scan config host document st) (scan config host' document st').
Proof.
  intros HR. unfold scan.
  assert (Hname : forall s s' el context, same_bookkeeping s s' ->
            generateToolName el (Config.prefix config) context (random host (draws s))
            = generateToolName el (Config.prefix config) context
                (random host' (draws s'))).
  { intros s s' el context (_ & _ & _ & Hd & _). rewrite Hd, same_random. reflexivity. }
  apply log_related.
  apply fold_related.
  { intros s s' sel Hs. apply fold_related; [|exact Hs].
    intros s1 s1' el H1. rewrite !scan_included_unfold.
    destruct (isExcluded config el); [exact H1|].
    rewrite (Hname s1 s1' el _ H1).
    destruct (generateToolName _ _ _ _);
      [apply register_related|]; apply draw_related, H1. }
  apply fold_related.
  { intros s1 s1' el H1. rewrite !scan_link_unfold.
    destruct (isExcluded config el); [exact H1|].
    destruct (_ || _); [exact H1|].
    rewrite (Hname s1 s1' el _ H1).
    destruct (generateToolName _ _ _ _);
      [apply register_related|]; apply draw_related, H1. }
  apply fold_related.
  { intros s1 s1' el H1. rewrite !scan_button_unfold.
    destruct (isExcluded config el); [exact H1|].
    destruct (Element.closest el "form"); [exact H1|].
    destruct (_ && _); [exact H1|].
    rewrite (Hname s1 s1' el _ H1).
    destruct (generateToolName _ _ _ _);
      [apply register_related|]; apply draw_related, H1. }
  apply fold_related.
  { intros s1 s1' el H1. rewrite !scan_form_unfold.
    destruct (isExcluded config el); [exact H1|].
    destruct (JS.truthy_opt _); [exact H1|].
    rewrite (Hname s1 s1' el _ H1).
    destruct (generateToolName _ _ _ _); [|apply draw_related, H1].
    destruct (_ =? _)%nat; [apply draw_related, H1|].
    apply register_related, draw_related, H1. }
  apply log_related, HR.
Qed.

Lemma step_related op st st' :
  same_bookkeeping st st' ->
  same_bookkeeping (step config host st op) (step config host' st' op).
Proof.
  intros HR. destruct op as [tool|document| |]; simpl.
  - apply register_related, HR.
  - apply scan_related, HR.
  - destruct HR as (Hr & Hc & Hn & Hd & Ho). unfold same_bookkeeping.
    destruct (destroy_clears config host st) as [-> ->].
    destruct (destroy_clears config host' st') as [-> ->].
    unfold destroy, log, stopWatching. rewrite Ho.
    destruct (observer st') eqn:Ho';
      destruct (Config.debug config),
        (modelContext host) as [mc|], (modelContext host') as [mc'|];
      try destruct (clearTools mc); try destruct (clearTools mc');
      cbn; repeat split; congruence.
  - destruct HR as (Hr & Hc & Hn & Hd & Ho). unfold same_bookkeeping, stopWatching.
    rewrite Ho. destruct (observer st') eqn:Ho'; cbn; repeat split; congruence.
Qed.

Lemma run_related ops st st' :
  same_bookkeeping st st' ->
  same_bookkeeping (run config host ops st) (run config host' ops st').
Proof.
  revert st st'. induction ops as [|op ops IH]; intros st st' HR; simpl; [exact HR|].
  apply IH, step_related, HR.
Qed.

End Degraded.

(** X25. What the page's model context does, or whether there is one at
    all, has no influence on the local bookkeeping: two hosts that draw
    the same random texts end up, after the same operations, with the
    same registry, counter, callback invocations and [getTools] answer,
    even if one sink is missing or throws on every call. *)
Theorem sink_has_no_say (config : Config.t) (host host' : Host) (ops : list Op) :
  (forall i, random host i = random host' i) ->
  let st := run config host ops initial in
  let st' := run config host' ops initial in
  registeredTools st = registeredTools st'
  /\ toolCount st = toolCount st'
  /\ notified st = notified st'
  /\ getTools st = getTools st'.
Proof.
  intros Hrandom st st'.
  destruct (run_related config host host' Hrandom ops initial initial)
    as (Hr & Hc & Hn & _).
  { repeat split. }
  fold st in Hr, Hc, Hn. fold st' in Hr, Hc, Hn.
  split; [exact Hr|]. split; [exact Hc|]. split; [exact Hn|].
  unfold getTools. rewrite Hr. reflexivity.
Qed.

Lemma sink_has_no_say_witness :
  let st := run Sample.small_config Cases2.failing_host Cases.session initial in
  let st' := run Sample.small_config Cases2.bare_host Cases.session initial in
  registeredTools st = registeredTools st'
  /\ toolCount st = toolCount st'
  /\ notified st = notified st'
  /\ getTools st = getTools st'.
Proof.
  exact (sink_has_no_say Sample.small_config Cases2.failing_host Cases2.bare_host
           Cases.session (fun _ => eq_refl)).
Defined.

(** ** Elements named by the random fallback *)

Lemma append_inj_l (a x y : string) : a +:+ x = a +:+ y -> x = y.
Proof. induction a as [|c a IH]; simpl; [auto|]. intros [= H]. auto. Qed.

Lemma append_assoc (a b c : string) : (a +:+ b) +:+ c = a +:+ b +:+ c.
Proof.
  induction a as [|d a IH]; [reflexivity|].
  change (String d ((a +:+ b) +:+ c) = String d (a +:+ b +:+ c)).
  f_equal. exact IH.
Qed.

Lemma anonymous_form_name (form : Element.t) (prefix rnd : string) :
  named form Context.form = false ->
  JS.truthy_opt (Element.getAttribute form "toolname") = false ->
  generateToolName form prefix Context.form rnd
  = Some (((if JS.truthy prefix then prefix +:+ "_" else EmptyString) +:+ "form_")
            +:+ rnd).
Proof.
  intros Hn Hm. unfold generateToolName. rewrite Hm.
  assert (Hp : name_part form Context.form rnd = "form_" +:+ rnd).
  { revert Hn. unfold named, name_part.
    destruct (JS.truthy (Element.id form)); [discriminate|].
    destruct (JS.truthy (Element.reflected form "name")); [discriminate|].
    destruct (JS.truthy (Element.reflected form "action")); [discriminate|].
    reflexivity. }
  rewrite Hp. destruct prefix as [|c p]; cbn [JS.truthy app].
  - reflexivity.
  - rewrite join_prefixed, !append_assoc. reflexivity.
Qed.

(** X26. A form that has neither id, nor name, nor action is named by
    the random fallback, so a second scan of the same page does not
    recognise it: when the two draws differ and the capacity allows, the
    form ends up registered twice, under two different names. *)
Theorem anonymous_form_registered_again (config : Config.t) (host : Host)
    (document : Document.t) (form : Element.t) :
  Document.querySelectorAll document "form" = [form] ->
  Document.querySelectorAll document button_selector = [] ->
  Document.querySelectorAll document nav_selector = [] ->
  Config.include config = [] ->
  isExcluded config form = false ->
  JS.truthy_opt (Element.getAttribute form "toolname") = false ->
  named form Context.form = false ->
  size (properties (scanForm form)) <> 0%nat ->
  random host 0 <> random host 1 ->
  (2 <= Config.maxTools config)%Z ->
  exists n1 n2,
    n1 <> n2
    /\ registeredTools (scan config host document (scan config host document initial))
       = [(n1, form_descriptor n1 form); (n2, form_descriptor n2 form)].
Proof.
  intros Hforms Hbuttons Hlinks Hinc He Hm Hn Hsz Hr Hcap.
  set (stem := (if JS.truthy (Config.prefix config)
                then Config.prefix config +:+ "_" else EmptyString) +:+ "form_").
  assert (Hname : forall rnd,
            generateToolName form (Config.prefix config) Context.form rnd
            = Some (stem +:+ rnd)).
  { intros rnd. exact (anonymous_form_name form _ rnd Hn Hm). }
  assert (Hscan : forall st,
            registeredTools (scan config host document st)
            = registeredTools
                (registerWebMCPTool config host
                   (form_descriptor (stem +:+ random host (draws st)) form)
                   (draw (log config Scanning st)))
            /\ toolCount (scan config host document st)
               = toolCount
                   (registerWebMCPTool config host
                      (form_descriptor (stem +:+ random host (draws st)) form)
                      (draw (log config Scanning st)))
            /\ draws (scan config host document st) = S (draws st)).
  { intros st. unfold scan. rewrite Hforms, Hbuttons, Hlinks, Hinc. cbn [fold_left].
    match goal with |- context [log config (ScanComplete ?k) ?s] =>
      destruct (log_frame config (ScanComplete k) s) as (-> & -> & _);
      destruct (log_bookkeeping config host (ScanComplete k) s) as [-> _] end.
    rewrite scan_form_unfold, He, Hm.
    destruct (log_bookkeeping config host Scanning st) as [-> _].
    rewrite Hname.
    destruct (Nat.eqb_spec (size (properties (scanForm form))) 0); [contradiction|].
    split; [reflexivity|]. split; [reflexivity|].
    destruct (register_bookkeeping config host
                (form_descriptor (stem +:+ random host (draws st)) form)
                (draw (log config Scanning st))) as [-> _].
    cbn [draw draws].
    destruct (log_bookkeeping config host Scanning st) as [-> _]. reflexivity. }
  set (n1 := stem +:+ random host 0). set (n2 := stem +:+ random host 1).
  exists n1, n2. split.
  { intros Heq. apply Hr. exact (append_inj_l stem _ _ Heq). }
  destruct (Hscan initial) as (Hr1 & Hc1 & Hd1).
  set (once := scan config host document initial) in *.
  assert (Honce : registeredTools once = [(n1, form_descriptor n1 form)]
                  /\ toolCount once = 1%Z).
  { rewrite Hr1, Hc1. cbn [draws initial]. fold n1.
    destruct (register_cases config host (form_descriptor n1 form)
                (draw (log config Scanning initial)))
      as [[Hfull _]|[(_ & Hhas & _)|(_ & _ & -> & -> & _)]].
    - destruct (log_frame config Scanning initial) as (_ & Hc0 & _).
      cbn [draw toolCount] in Hfull. rewrite Hc0 in Hfull. simpl in Hfull. lia.
    - destruct (log_frame config Scanning initial) as (Hr0 & _).
      cbn [draw registeredTools] in Hhas. rewrite Hr0 in Hhas. discriminate.
    - destruct (log_frame config Scanning initial) as (Hr0 & Hc0 & _).
      cbn [draw registeredTools toolCount]. rewrite Hr0, Hc0. split; reflexivity. }
  destruct Honce as [Hreg1 Hcount1].
  destruct (Hscan once) as (Hr2 & _ & _). cbn [draws initial] in Hd1.
  rewrite Hr2, Hd1. fold n2.
  destruct (log_frame config Scanning once) as (Hr0 & Hc0 & _).
  destruct (register_cases config host (form_descriptor n2 form)
              (draw (log config Scanning once)))
    as [[Hfull _]|[(_ & Hhas & _)|(_ & _ & -> & _)]].
  - cbn [draw toolCount] in Hfull. rewrite Hc0, Hcount1 in Hfull. lia.
  - cbn [draw registeredTools] in Hhas. rewrite Hr0, Hreg1 in Hhas.
    simpl in Hhas. rewrite orb_false_r in Hhas. apply String.eqb_eq in Hhas.
    exfalso. apply Hr. exact (append_inj_l stem _ _ (eq_sym Hhas)).
  - cbn [draw registeredTools]. rewrite Hr0, Hreg1. reflexivity.
Qed.

Lemma anonymous_form_registered_again_witness :
  exists n1 n2,
    n1 <> n2
    /\ registeredTools
         (scan Sample.notifying_config Cases3.drawing_host Cases3.anonymous_page
            (scan Sample.notifying_config Cases3.drawing_host Cases3.anonymous_page
               initial))
       = [(n1, form_descriptor n1 Cases3.anonymous_form);
          (n2, form_descriptor n2 Cases3.anonymous_form)].
Proof.
  apply (anonymous_form_registered_again Sample.notifying_config Cases3.drawing_host
           Cases3.anonymous_page Cases3.anonymous_form);
    try reflexivity; discriminate.
Defined.
